(** * JournalAnalyzer: entry filtering, aggregation and report assembly

    A shallow embedding of [utils.py], [report_builder.py], the report
    endpoint of [api.py] and the report button of [app.py] (Part I), the
    lemmas about it (Part II), the claims of the specification, each
    settled against the embedding (Part III), and further properties of
    the code (Part IV).

    Conventions of the embedding.
    - A Python [str] is a [string]; characters are 8-bit codes and the
      character classes ([isspace], [lower]) are Python's on the ASCII
      range.  A character outside it that a literal of the source holds is
      written as its UTF-8 bytes.
    - A pandas DataFrame of entries is a [list Entry] in row order; a missing
      frame ([None]) is [None : option (list Entry)].  The index of a frame
      is not modelled.
    - Python [int]s that may become negative are [Z]; counts are [nat].
    - Code that reads the clock, posts a request or writes a file runs in
      the monad [Py.M]: a state ([Py.world]) and the exceptions of Python.
    - Library calls ([re], [json], [requests], [plotly], [pathlib]) are
      modelled at their interface; what is not computed here is a field of
      the class [PyLibs] or of [Api.filesystem]. *)

From Stdlib Require Import Strings.String Strings.Ascii Lists.List.
From Stdlib Require Import Arith.PeanoNat ZArith.ZArith Bool.Bool micromega.Lia.
From Stdlib Require Import Sorting.Sorted Structures.OrderedTypeEx.
Import ListNotations.

Open Scope string_scope.

(* ================================================================= *)
(** * Part I: the embedding                                           *)
(* ================================================================= *)

(** ** Python [str] primitives *)

Module PyStr.

Definition code (c : ascii) : nat := nat_of_ascii c.

Definition between (lo hi : nat) (c : ascii) : bool :=
  ((lo <=? code c) && (code c <=? hi))%nat.

(** [str.isspace] on one character: TAB..CR, FS..US and SPACE. *)
Definition isspace (c : ascii) : bool := between 9 13 c || between 28 32 c.

Definition isupper (c : ascii) : bool := between 65 90 c.
Definition isalnum (c : ascii) : bool :=
  between 48 57 c || between 65 90 c || between 97 122 c.

Definition lower_char (c : ascii) : ascii :=
  if isupper c then ascii_of_nat (code c + 32) else c.

(** [s.lower()] *)
Fixpoint lower (s : string) : string :=
  match s with
  | "" => ""
  | String c r => String (lower_char c) (lower r)
  end.

(** [s.lstrip()], [s.rstrip()], [s.strip()] *)
Fixpoint lstrip (s : string) : string :=
  match s with
  | "" => ""
  | String c r => if isspace c then lstrip r else s
  end.

Fixpoint rstrip (s : string) : string :=
  match s with
  | "" => ""
  | String c r =>
      match rstrip r with
      | "" => if isspace c then "" else String c ""
      | r' => String c r'
      end
  end.

Definition strip (s : string) : string := rstrip (lstrip s).

(** [s.split(sep)] for a one-character separator: never the empty list. *)
Fixpoint split_char (sep : ascii) (s : string) : list string :=
  match s with
  | "" => [""]
  | String c r =>
      if (c =? sep)%char then "" :: split_char sep r
      else match split_char sep r with
           | h :: t => String c h :: t
           | [] => [String c ""]
           end
  end.

Definition starts_word (s : string) : bool :=
  match s with
  | "" => false
  | String c _ => negb (isspace c)
  end.

(** [s.split()]: the maximal runs of non-space characters, in order. *)
Fixpoint split_ws (s : string) : list string :=
  match s with
  | "" => []
  | String c r =>
      if isspace c then split_ws r
      else if starts_word r then
        match split_ws r with
        | h :: t => String c h :: t
        | [] => [String c ""]
        end
      else String c "" :: split_ws r
  end.

(** [s[:n]] for [0 <= n]. *)
Fixpoint take (n : nat) (s : string) : string :=
  match n, s with
  | S k, String c r => String c (take k r)
  | _, _ => ""
  end.

(** [s[:n]] for any integer [n]: a negative [n] counts from the end. *)
Definition slice_to (n : Z) (s : string) : string :=
  if (n <? 0)%Z then take (Z.to_nat (Z.of_nat (String.length s) + n)) s
  else take (Z.to_nat n) s.

(** [needle in hay] *)
Fixpoint contains (needle hay : string) : bool :=
  prefix needle hay ||
  match hay with
  | "" => false
  | String _ r => contains needle r
  end.

(** [s.startswith(p)] *)
Definition startswith (p s : string) : bool := prefix p s.

(** The part of [hay] before and after the first occurrence of a
    non-empty [needle], as [str.partition] gives them. *)
Fixpoint find_split (needle hay : string) : option (string * string) :=
  if prefix needle hay then Some ("", substring (String.length needle) (String.length hay) hay)
  else match hay with
       | "" => None
       | String c r =>
           match find_split needle r with
           | Some (a, b) => Some (String c a, b)
           | None => None
           end
       end.

(** [s.splitlines()]: lines end at LF, VT, FF, CR, CR LF, FS, GS and
    RS; a final empty piece is dropped. *)
Definition is_linebreak (c : ascii) : bool := between 10 13 c || between 28 30 c.

Fixpoint line_pieces (s : string) : list string :=
  match s with
  | "" => [""]
  | String c r =>
      if is_linebreak c then
        "" :: match r with
              | String d r' =>
                  if ((c =? "013") && (d =? "010"))%char
                  then line_pieces r' else line_pieces r
              | "" => line_pieces r
              end
      else match line_pieces r with
           | h :: t => String c h :: t
           | [] => [String c ""]
           end
  end.

Fixpoint drop_last_empty (ls : list string) : list string :=
  match ls with
  | [] => []
  | [""] => []
  | x :: r => x :: drop_last_empty r
  end.

Definition splitlines (s : string) : list string :=
  drop_last_empty (line_pieces s).

(** [sep.join(parts)] *)
Definition join (sep : string) (parts : list string) : string :=
  String.concat sep parts.

(** [s.rsplit(maxsplit=1)]: nothing for a blank string, the last word
    alone when it is the only one, else what precedes it (right-stripped,
    leading blanks kept) and the last word. *)
Fixpoint split_last_word (s : string) : string * string :=
  match s with
  | "" => ("", "")
  | String c r =>
      match split_last_word r with
      | ("", w) => if isspace c then (String c "", w) else ("", String c w)
      | (h, w) => (String c h, w)
      end
  end.

Definition rsplit1 (s : string) : list string :=
  match rstrip s with
  | "" => []
  | s' => let (h, w) := split_last_word s' in
          match rstrip h with
          | "" => [w]
          | h' => [h'; w]
          end
  end.

Definition digit (n : nat) : ascii := ascii_of_nat (48 + n mod 10).

(** ["%02d"] and ["%04d"] of a number below 100, resp. 10000. *)
Definition pad2 (n : nat) : string :=
  String (digit (n / 10)) (String (digit n) "").
Definition pad4 (n : nat) : string :=
  String (digit (n / 1000)) (String (digit (n / 100))
    (String (digit (n / 10)) (String (digit n) ""))).

(** [str(n)] for a natural number. *)
Fixpoint digits_fuel (fuel n : nat) (acc : string) : string :=
  match fuel with
  | 0 => acc
  | S f => let acc' := String (digit n) acc in
           if (n <? 10)%nat then acc' else digits_fuel f (n / 10) acc'
  end.
Definition of_nat (n : nat) : string := digits_fuel (S n) n "".

(** The double quote, which a literal cannot hold. *)
Definition dq : string := String "034"%char "".
Definition nl : string := String "010"%char "".

End PyStr.

(** ** The fragment of Python's [re] that [filter_entries] generates *)

Module Re.
Import PyStr.

(** [re.escape]: a backslash before each of
    [()[]{}?*+-|^$\.&~#], space, TAB, LF, CR, VT and FF. *)
Definition special_chars : string :=
  "()[]{}?*+-|^$\.&~# " ++
  String "009"%char (String "010"%char (String "013"%char
    (String "011"%char (String "012"%char "")))).

Fixpoint mem_char (c : ascii) (s : string) : bool :=
  match s with
  | "" => false
  | String d r => (c =? d)%char || mem_char c r
  end.

Definition is_special (c : ascii) : bool := mem_char c special_chars.

Fixpoint escape (s : string) : string :=
  match s with
  | "" => ""
  | String c r =>
      if is_special c then String "\" (String c (escape r))
      else String c (escape r)
  end.

(** [s.replace(old, new)] for a non-empty [old]: occurrences are found
    left to right and do not overlap; [skip] counts the characters of
    the occurrence just replaced that are still to be passed. *)
Fixpoint replace_from (old new : string) (skip : nat) (s : string) : string :=
  match s with
  | "" => ""
  | String c r =>
      match skip with
      | S k => replace_from old new k r
      | 0 => if prefix old s
             then new ++ replace_from old new (String.length old - 1) r
             else String c (replace_from old new 0 r)
      end
  end.

Definition replace (old new s : string) : string := replace_from old new 0 s.

(** Regular expressions of the fragment; [Void] only arises in
    derivatives. *)
Inductive regex : Type :=
| Void
| Eps
| Chr (c : ascii)
| Dot
| Cat (r1 r2 : regex)
| Alt (r1 r2 : regex)
| Star (r : regex).

Inductive token : Type :=
| TChar (c : ascii)
| TDot
| TStar
| TOpen        (* the non-capturing [(?:] *)
| TClose
| TBar.

(** Scanner.  [None] stands for [re.error] or for syntax outside the
    fragment (classes, anchors, counted and optional repetition,
    capturing groups, escapes of letters and digits). *)
Definition unsupported : string := "[]{}?+^$".

Fixpoint lex (p : string) : option (list token) :=
  match p with
  | "" => Some []
  | String c r =>
      if (c =? "\")%char then
        match r with
        | "" => None
        | String d r' =>
            if isalnum d then None
            else option_map (cons (TChar d)) (lex r')
        end
      else if (c =? "(")%char then
        match r with
        | String q (String k r') =>
            if ((q =? "?") && (k =? ":"))%char
            then option_map (cons TOpen) (lex r')
            else None
        | _ => None
        end
      else if (c =? ")")%char then option_map (cons TClose) (lex r)
      else if (c =? "|")%char then option_map (cons TBar) (lex r)
      else if (c =? ".")%char then option_map (cons TDot) (lex r)
      else if (c =? "*")%char then option_map (cons TStar) (lex r)
      else if mem_char c unsupported then None
      else option_map (cons (TChar c)) (lex r)
  end.

(** Parser: one frame per open group, holding the finished branches and
    the items of the branch being read, both latest first. *)
Record frame : Type := Frame { alts : list regex; cur : list regex }.

Definition mk_seq (items_rev : list regex) : regex :=
  fold_left (fun acc x => Cat x acc) items_rev Eps.

Fixpoint mk_alt (branches : list regex) : regex :=
  match branches with
  | [] => Void
  | [b] => b
  | b :: bs => Alt b (mk_alt bs)
  end.

Definition close_frame (f : frame) : regex :=
  mk_alt (rev (mk_seq (cur f) :: alts f)).

Definition push_item (x : regex) (f : frame) : frame :=
  Frame (alts f) (x :: cur f).

Fixpoint parse (stack : list frame) (ts : list token) : option regex :=
  match stack with
  | [] => None
  | f :: below =>
      match ts with
      | [] => match below with
              | [] => Some (close_frame f)
              | _ => None                       (* missing [)] *)
              end
      | TChar c :: ts' => parse (push_item (Chr c) f :: below) ts'
      | TDot :: ts' => parse (push_item Dot f :: below) ts'
      | TStar :: ts' =>
          match cur f with
          | [] => None                          (* nothing to repeat *)
          | Star _ :: _ => None                 (* multiple repeat *)
          | x :: xs => parse (Frame (alts f) (Star x :: xs) :: below) ts'
          end
      | TOpen :: ts' => parse (Frame [] [] :: f :: below) ts'
      | TClose :: ts' =>
          match below with
          | [] => None                          (* unbalanced [)] *)
          | g :: below' => parse (push_item (close_frame f) g :: below') ts'
          end
      | TBar :: ts' => parse (Frame (mk_seq (cur f) :: alts f) [] :: below) ts'
      end
  end.

(** [re.compile(p)] *)
Definition compile (p : string) : option regex :=
  match lex p with
  | Some ts => parse [Frame [] []] ts
  | None => None
  end.

(** Matching by derivatives.  [ic] is [re.IGNORECASE]; [.] is any
    character but the line feed (no [re.DOTALL]). *)
Definition chr_eq (ic : bool) (c d : ascii) : bool :=
  if ic then (lower_char c =? lower_char d)%char else (c =? d)%char.

Definition is_newline (c : ascii) : bool := (c =? "010")%char.

Fixpoint nullable (r : regex) : bool :=
  match r with
  | Void | Chr _ | Dot => false
  | Eps | Star _ => true
  | Cat a b => nullable a && nullable b
  | Alt a b => nullable a || nullable b
  end.

Fixpoint deriv (ic : bool) (d : ascii) (r : regex) : regex :=
  match r with
  | Void | Eps => Void
  | Chr c => if chr_eq ic c d then Eps else Void
  | Dot => if is_newline d then Void else Eps
  | Cat a b =>
      if nullable a then Alt (Cat (deriv ic d a) b) (deriv ic d b)
      else Cat (deriv ic d a) b
  | Alt a b => Alt (deriv ic d a) (deriv ic d b)
  | Star a => Cat (deriv ic d a) (Star a)
  end.

(** Some prefix of [s] matches [r]. *)
Fixpoint match_prefix (ic : bool) (r : regex) (s : string) : bool :=
  nullable r ||
  match s with
  | "" => false
  | String c s' => match_prefix ic (deriv ic c r) s'
  end.

(** [re.search]: some substring of [s] matches [r]. *)
Fixpoint search (ic : bool) (r : regex) (s : string) : bool :=
  match_prefix ic r s ||
  match s with
  | "" => false
  | String _ s' => search ic r s'
  end.

End Re.

(** ** Python values read from JSON, exceptions and effects *)

Module Py.

(** What [json.loads] returns; [JNull] is Python's [None].  Numbers are
    the integers. *)
#[warnings="-register-all"]
Inductive json : Type :=
| JNull
| JBool (b : bool)
| JNum (n : Z)
| JStr (s : string)
| JList (l : list json)
| JDict (kv : list (string * json)).

(** Truth value of an object, as [if x:] takes it. *)
Definition truthy (v : json) : bool :=
  match v with
  | JNull => false
  | JBool b => b
  | JNum n => negb (n =? 0)%Z
  | JStr s => negb (s =? "")
  | JList l => match l with [] => false | _ => true end
  | JDict kv => match kv with [] => false | _ => true end
  end.

Fixpoint assoc (k : string) (kv : list (string * json)) : option json :=
  match kv with
  | [] => None
  | (k', v) :: r => if k =? k' then Some v else assoc k r
  end.

Inductive exc : Type :=
| RequestException
| HTTPError
| JSONDecodeError
| AttributeError
| TypeError.

Inductive result (A : Type) : Type :=
| Ok (a : A)
| Raise (e : exc).
Arguments Ok {A} a.
Arguments Raise {A} e.

(** [d.get(k, default)]; an object that is not a dict has no [get]. *)
Definition get (d : json) (k : string) (default : json) : result json :=
  match d with
  | JDict kv => Ok (match assoc k kv with Some v => v | None => default end)
  | _ => Raise AttributeError
  end.

(** What the chat endpoint sends back for one request. *)
Inductive http_outcome : Type :=
| NoResponse                                   (* connection error, timeout *)
| Response (status : nat) (body : option json) (* [body]: [r.json()], if it parses *).

Record request : Type := Request {
  req_url : string;
  req_authorization : string;
  req_model : string;
  req_content : string;       (* the single user message *)
  req_stream : bool;
  req_timeout : nat
}.

Record datetime : Type := DateTime {
  dt_year : nat; dt_month : nat; dt_day : nat;
  dt_hour : nat; dt_minute : nat; dt_second : nat
}.

(** The world a report build runs in: the clock, the remote service (its
    answer may depend on what was sent before), the requests sent so far
    (latest first) and the files written (latest first). *)
Record world : Type := World {
  clock : datetime;
  remote : list request -> request -> http_outcome;
  sent : list request;
  dirs : list string;
  files : list (string * string)
}.

Definition M (A : Type) : Type := world -> result A * world.

Definition ret {A} (a : A) : M A := fun w => (Ok a, w).
Definition raise {A} (e : exc) : M A := fun w => (Raise e, w).
Definition bind {A B} (m : M A) (k : A -> M B) : M B :=
  fun w => match m w with
           | (Ok a, w') => k a w'
           | (Raise e, w') => (Raise e, w')
           end.
Definition lift {A} (r : result A) : M A := fun w => (r, w).

(** [try: body except Exception: handler] *)
Definition try_except {A} (body : M A) (handler : M A) : M A :=
  fun w => match body w with
           | (Ok a, w') => (Ok a, w')
           | (Raise _, w') => handler w'
           end.

Declare Scope py_scope.
Delimit Scope py_scope with py.
Notation "x <- m ;; k" := (bind m (fun x => k))
  (at level 61, m at next level, right associativity) : py_scope.
Notation "m ;;; k" := (bind m (fun _ => k))
  (at level 61, right associativity) : py_scope.

End Py.

(** ** [utils.py] *)

Module Utils.
Import PyStr Py.

Record Date : Type := mkDate { year : nat; month : nat; day : nat }.

(** [a <= b] on [datetime.date]. *)
Definition date_leb (a b : Date) : bool :=
  ((year a <? year b) ||
   ((year a =? year b) &&
    ((month a <? month b) || ((month a =? month b) && (day a <=? day b)))))%nat.

(** One row of the entries frame. *)
Record Entry : Type := mkEntry {
  date : Date;
  day_of_week : string;
  time_of_day : string;
  text : string
}.

Definition isin (values : list string) (x : string) : bool :=
  existsb (String.eqb x) values.

(** [[p.strip() for p in keywords.split(",") if p.strip()]] *)
Definition keyword_parts (keywords : string) : list string :=
  map strip (filter (fun p => negb (strip p =? "")) (split_char "," keywords)).

(** The pattern built from the parts: each part escaped, its [\*] turned
    into [.*], wrapped in [(?:...)], the parts joined by [|]. *)
Definition wild (p : string) : string := Re.replace "\*" ".*" (Re.escape p).

Definition keyword_pattern (parts : list string) : string :=
  join "|" (map (fun p => "(?:" ++ wild p ++ ")") parts).

(** One cell of [Series.str.contains(pattern, case=False, regex=True,
    na=False)].  The default branch is for patterns outside the modelled
    fragment, which [keyword_pattern] never builds. *)
Definition str_contains (pattern text : string) : bool :=
  match Re.compile pattern with
  | Some r => Re.search true r text
  | None => false
  end.

Definition filter_entries (df : option (list Entry))
    (date_from date_to : option Date) (days times : list string)
    (keywords : string) : list Entry :=
  match df with
  | None | Some [] => []
  | Some rows =>
      let out := rows in
      let out := match date_from with
                 | Some d => filter (fun e => date_leb d (date e)) out
                 | None => out
                 end in
      let out := match date_to with
                 | Some d => filter (fun e => date_leb (date e) d) out
                 | None => out
                 end in
      let out := match days with
                 | [] => out
                 | _ => filter (fun e => isin days (day_of_week e)) out
                 end in
      let out := match times with
                 | [] => out
                 | _ => filter (fun e => isin times (time_of_day e)) out
                 end in
      let out := if negb (keywords =? "") then
                   match keyword_parts keywords with
                   | [] => out
                   | parts =>
                       let pattern := keyword_pattern parts in
                       filter (fun e => str_contains pattern (text e)) out
                   end
                 else out in
      out
  end.

Definition filter_entries_by_date_only (df : option (list Entry))
    (date_from date_to : option Date) : list Entry :=
  filter_entries df date_from date_to [] [] "".

(** [requests.post(url, headers, json, timeout)]: the request is recorded,
    and a missing response raises. *)
Definition requests_post (rq : request) : M (nat * option json) :=
  fun w =>
    let w' := World (clock w) (remote w) (rq :: sent w) (dirs w) (files w) in
    match remote w (sent w) rq with
    | NoResponse => (Raise RequestException, w')
    | Response status body => (Ok (status, body), w')
    end.

(** [r.raise_for_status()]: 4xx and 5xx raise. *)
Definition raise_for_status (status : nat) : M unit :=
  if ((400 <=? status) && (status <? 600))%nat then raise HTTPError else ret tt.

(** [r.json()] *)
Definition response_json (body : option json) : M json :=
  match body with
  | Some js => ret js
  | None => raise JSONDecodeError
  end.

(** [not api_key] *)
Definition key_absent (api_key : option string) : bool :=
  match api_key with
  | None | Some "" => true
  | Some _ => false
  end.

Definition bearer (api_key : option string) : string :=
  "Bearer " ++ match api_key with Some k => k | None => "None" end.

Open Scope py_scope.

(** The request [ollama_chat] posts: url, headers, body and timeout. *)
Definition chat_request (prompt : string) (api_key : option string) : request :=
  let url := "https://ollama.com/api/chat" in
  Request url (bearer api_key) "gpt-oss:20b-cloud" prompt false 60.

Definition ollama_chat (prompt : string) (api_key : option string) : M json :=
  if key_absent api_key then ret JNull
  else
    try_except
      (r <- requests_post (chat_request prompt api_key) ;;
       raise_for_status (fst r) ;;;
       js <- response_json (snd r) ;;
       message <- lift (get js "message" (JDict [])) ;;
       lift (get message "content" JNull))
      (ret JNull).

End Utils.

(** ** Library functions that are not computed in the embedding *)

Class PyLibs : Type := {
  (** [json.loads(s)]; [None] is [json.JSONDecodeError]. *)
  json_loads : string -> option Py.json;
  (** [json.dumps(x, ensure_ascii=b)] *)
  json_dumps : bool -> Py.json -> string;
  (** [str(x)], which is also how an f-string shows [x]. *)
  py_str : Py.json -> string;
  (** [DataFrame.sort_values] on a column of category codes ([None] for a
      value outside the categories); pandas does not fix the order of rows
      with equal codes. *)
  sort_values : (Utils.Entry -> option nat) -> list Utils.Entry -> list Utils.Entry;
  (** [px.bar(df, x, y, title)] with the marker colour and layout of
      [_bar_chart_html], as [to_html] prints it. *)
  bar_to_html : list (string * nat) -> string -> string -> string -> string -> string;
  (** The empty figure with the "No data" annotation, as [to_html] prints it. *)
  no_data_to_html : string;
  (** [str(_REPORTS_DIR)] *)
  reports_dir : string
}.

(** ** [report_builder.py]: excerpts, counts and the JSON extractor *)

Module ReportBuilder.
Import PyStr Py Utils.

Definition _EXCERPT_CHARS_PER_GROUP : Z := 600.
Definition _OVERALL_SAMPLE_CHARS : Z := 2500.

Definition len (s : string) : Z := Z.of_nat (String.length s).

Definition _excerpt (text : string) (max_chars : Z) : string :=
  if (text =? "") || (len text <=? max_chars)%Z then strip text
  else
    let s := rsplit1 (slice_to max_chars text) in
    strip (match s with
           | s0 :: _ => s0
           | [] => slice_to max_chars text
           end).

(** [str(ts.to_period("M"))]: ["YYYY-MM"]. *)
Definition month_label (d : Date) : string :=
  pad4 (year d) ++ "-" ++ pad2 (month d).

Inductive column : Type := ColMonth | ColDayOfWeek | ColTimeOfDay.

Definition column_value (col : column) (e : Entry) : string :=
  match col with
  | ColMonth => month_label (date e)
  | ColDayOfWeek => day_of_week e
  | ColTimeOfDay => time_of_day e
  end.

(** [df.groupby(col, sort=False)]: groups in the order their key is first
    seen, rows in frame order. *)
Fixpoint add_to_group (k : string) (e : Entry)
    (groups : list (string * list Entry)) : list (string * list Entry) :=
  match groups with
  | [] => [(k, [e])]
  | (k', es) :: r =>
      if k =? k' then (k', (es ++ [e])%list) :: r
      else (k', es) :: add_to_group k e r
  end.

Definition groupby_unsorted (key : Entry -> string) (df : list Entry)
    : list (string * list Entry) :=
  fold_left (fun groups e => add_to_group (key e) e groups) df [].

Record GroupExcerpt : Type := mkGroupExcerpt { group : string; excerpts : string }.

(** The inner loop of [_build_grouped_excerpts], from the rows still to
    visit and the current [parts] and [total]. *)
Fixpoint accumulate (max_chars_per_group : Z) (rows : list Entry)
    (parts : list string) (total : Z) : list string :=
  match rows with
  | [] => parts
  | row :: rest =>
      let t := strip (text row) in
      if t =? "" then accumulate max_chars_per_group rest parts total
      else
        let take := Z.min (len t) (max_chars_per_group - total) in
        if (take <=? 0)%Z then parts
        else
          let parts := (parts ++ [_excerpt t take])%list in
          let total := (total + len (last parts ""))%Z in
          if (total >=? max_chars_per_group)%Z then parts
          else accumulate max_chars_per_group rest parts total
  end.

Definition _build_grouped_excerpts (df : list Entry) (group_col : column)
    (max_chars_per_group : Z) : list GroupExcerpt :=
  map (fun g => mkGroupExcerpt (fst g)
                  (join " " (accumulate max_chars_per_group (snd g) [] 0)))
      (groupby_unsorted (column_value group_col) df).

(** The loop of [_overall_sample]. *)
Fixpoint sample_loop (max_chars : Z) (rows : list Entry)
    (parts : list string) (total : Z) : list string :=
  match rows with
  | [] => parts
  | row :: rest =>
      let t := strip (text row) in
      if t =? "" then sample_loop max_chars rest parts total
      else
        let take := Z.min (len t) 200 in
        let chunk := _excerpt t take in
        let parts := (parts ++ [chunk])%list in
        let total := (total + len chunk)%Z in
        if (total >=? max_chars)%Z then parts
        else sample_loop max_chars rest parts total
  end.

Definition _overall_sample (df : list Entry) (max_chars : Z) : string :=
  join " " (sample_loop max_chars df [] 0).

Definition _phrase_matches_entry (text phrase : string) : bool :=
  if (text =? "") || (phrase =? "") then false
  else
    let text_lower := lower text in
    let words := map (fun w => lower (strip w))
                     (filter (fun w => negb (strip w =? "")) (split_ws phrase)) in
    forallb (fun word => contains word text_lower) words.

(** [sorted(set(labels))], which is also the key order of a sorting
    [groupby]: strings compare by character code. *)
Fixpoint insert_sorted (x : string) (l : list string) : list string :=
  match l with
  | [] => [x]
  | y :: r =>
      match String.compare x y with
      | Lt => x :: l
      | Eq => l
      | Gt => y :: insert_sorted x r
      end
  end.

Definition sorted_unique (l : list string) : list string :=
  fold_right insert_sorted [] l.

(** The frame with columns [month] and [count], as its rows. *)
Definition _phrase_counts_by_month (df : list Entry) (phrase : string)
    : list (string * nat) :=
  let rows := map (fun e => (month_label (date e),
                             _phrase_matches_entry (text e) phrase)) df in
  map (fun m => (m, List.length (filter (fun r => (fst r =? m) && snd r) rows)))
      (sorted_unique (map fst rows)).

(** [re.search] of the two fence patterns,
    [```(?:json)?\s*([\s\S]*?)```] when [tagged] and
    [```\s*([\s\S]*?)```] otherwise: group 1 of the leftmost match.  The
    match starts at the first fence and needs a later one; the lazy group
    ends at the first fence after the skipped tag and blanks. *)
Definition fence : string := "```".

Definition drop_prefix (p s : string) : string :=
  if prefix p s then substring (String.length p) (String.length s) s else s.

Definition fenced_group (tagged : bool) (reply : string) : option string :=
  match find_split fence reply with
  | None => None
  | Some (_, after) =>
      let after := if tagged then drop_prefix "json" after else after in
      match find_split fence (lstrip after) with
      | Some (content, _) => Some content
      | None => None
      end
  end.

(** [re.search(r"\{[\s\S]*\}", reply)]: group 0 runs from the first [{]
    that has a [}] after it to the last [}] of the reply. *)
Fixpoint upto_last (c : ascii) (s : string) : option string :=
  match s with
  | "" => None
  | String d r =>
      match upto_last c r with
      | Some t => Some (String d t)
      | None => if (d =? c)%char then Some (String d "") else None
      end
  end.

Fixpoint brace_span (s : string) : option string :=
  match s with
  | "" => None
  | String c r =>
      if (c =? "{")%char then
        match upto_last "}" r with
        | Some t => Some (String c t)
        | None => brace_span r
        end
      else brace_span r
  end.

Section Extract.
Context `{PyLibs}.

(** One attempt: [json.loads] of the candidate text, when there is one. *)
Definition parse_attempt (s : option string) : option json :=
  match s with
  | Some s => json_loads s
  | None => None
  end.

(** [try: return json.loads(s) except json.JSONDecodeError: pass],
    followed by [otherwise]. *)
Definition loads_or (s : option string) (otherwise : json) : json :=
  match parse_attempt s with
  | Some v => v
  | None => otherwise
  end.

(** The result is a Python value: [JNull] is [None]. *)
Definition _extract_json_from_reply (reply : string) : json :=
  let reply := strip reply in
  loads_or (option_map strip (fenced_group true reply))
    (loads_or (option_map strip (fenced_group false reply))
      (loads_or (brace_span reply)
        (loads_or (Some reply) JNull))).

End Extract.

End ReportBuilder.

(** ** [report_builder.py]: the report *)

Module Report.
Import PyStr Py Utils ReportBuilder.

Definition _REPORT_CSS : string := "
    body { font-family: Arial, sans-serif; max-width: 980px; margin: 40px auto; padding: 20px; background-color: #FEECEA; color: #333; }
    h1 { color: #DD4633; border-bottom: 3px solid #DD4633; padding-bottom: 10px; }
    h2 { color: #DD4633; margin-top: 28px; border-bottom: 2px solid #DD4633; padding-bottom: 5px; }
    h3 { color: #DD4633; margin-top: 20px; }
    hr { border: 2px solid #DD4633; margin: 30px 0; }
    table { border-collapse: collapse; width: 100%; margin: 15px 0; background-color: white; }
    th, td { border: 1px solid #ddd; padding: 8px 12px; }
    th { background-color: #DD4633; color: white; text-align: left; font-weight: bold; }
    tr:nth-child(even) { background-color: #f9f9f9; }
    small { font-size: 0.85em; color: #666; display: block; margin-top: 10px; }
    .appendix { color: #555; font-size: 0.9em; }
    .appendix table { font-size: 0.9em; }
    .appendix h2, .appendix h3 { color: #555; border-bottom-color: #999; }
".

Definition placeholder : string := "Not available (set OLLAMA_API_KEY for AI summaries).".

Definition hr : string :=
  "<hr style=" ++ dq ++ "border: 2px solid #DD4633; margin: 30px 0;" ++ dq ++ " />".

Definition dow_order : list string :=
  ["Monday"; "Tuesday"; "Wednesday"; "Thursday"; "Friday"; "Saturday"; "Sunday"].
Definition tod_order : list string := ["morning"; "afternoon"; "evening"].

(** The code of a value in [pd.Categorical(..., categories=dow_order)]. *)
Fixpoint index_of (x : string) (l : list string) : option nat :=
  match l with
  | [] => None
  | y :: r => if x =? y then Some 0
              else option_map S (index_of x r)
  end.

Definition dow_code (e : Entry) : option nat := index_of (day_of_week e) dow_order.

(** [d.isoformat()] and the two [strftime] formats. *)
Definition isoformat (d : Date) : string :=
  pad4 (year d) ++ "-" ++ pad2 (month d) ++ "-" ++ pad2 (day d).
Definition strftime_stamp (t : datetime) : string :=      (* %Y%m%d_%H%M%S *)
  pad4 (dt_year t) ++ pad2 (dt_month t) ++ pad2 (dt_day t) ++ "_" ++
  pad2 (dt_hour t) ++ pad2 (dt_minute t) ++ pad2 (dt_second t).
Definition strftime_minute (t : datetime) : string :=     (* %Y-%m-%d %H:%M *)
  pad4 (dt_year t) ++ "-" ++ pad2 (dt_month t) ++ "-" ++ pad2 (dt_day t) ++ " " ++
  pad2 (dt_hour t) ++ ":" ++ pad2 (dt_minute t).

(** [x.strip()] on what [ollama_chat] returned: only a [str] has it. *)
Definition value_strip (v : json) : result string :=
  match v with
  | JStr s => Ok (strip s)
  | _ => Raise AttributeError
  end.

(** [for r in rows]: a list gives its items, a dict its keys, a string
    its characters; a number or [True] is not iterable. *)
Fixpoint chars (s : string) : list json :=
  match s with
  | "" => []
  | String c r => JStr (String c "") :: chars r
  end.

Definition iterate (v : json) : result (list json) :=
  match v with
  | JList l => Ok l
  | JDict kv => Ok (map (fun p => JStr (fst p)) kv)
  | JStr s => Ok (chars s)
  | _ => Raise TypeError
  end.

Record TrendSection : Type := mkTrend {
  keyword : string; chart_html : string; summary : string
}.

(** The texts that depend on the model's replies. *)
Record Narrative : Type := mkNarrative {
  activity_summary : string;
  emotion_summary : string;
  obs_activity : string;
  obs_emotion : string;
  trend_sections : list TrendSection
}.

Open Scope py_scope.

Section Build.
Context `{PyLibs}.

Definition _ensure_reports_dir : M unit :=
  fun w =>
    let ds := if existsb (String.eqb reports_dir) (dirs w) then dirs w
              else reports_dir :: dirs w in
    (Ok tt, World (clock w) (remote w) (sent w) ds (files w)).

Definition datetime_now : M datetime := fun w => (Ok (clock w), w).

(** [with open(path, "w") as f: f.write(content)] *)
Definition write_file (path content : string) : M unit :=
  fun w => (Ok tt, World (clock w) (remote w) (sent w) (dirs w)
                         ((path, content) :: files w)).

Definition _bar_chart_html (df : list (string * nat))
    (x_col y_col title color : string) : string :=
  match df with
  | [] => no_data_to_html
  | _ => bar_to_html df x_col y_col title color
  end.

(** [table_for] of [_observations_to_html_tables]; [lookup] is searched
    latest first, as a later key replaces an earlier one in a dict. *)
Definition is_dict (v : json) : bool :=
  match v with JDict _ => true | _ => false end.

Definition lookup_entry (row_key : string) (r : json) : string * json :=
  match r with
  | JDict kv =>
      (strip (py_str (match assoc row_key kv with Some v => v | None => JStr "" end)),
       match assoc "observation" kv with Some v => v | None => JStr "" end)
  | _ => ("", JNull)
  end.

Definition table_for (parsed : json) (key row_key : string)
    (labels : list string) : result string :=
  match get parsed key JNull with
  | Raise e => Raise e
  | Ok v =>
      let rows := if truthy v then v else JList [] in
      match iterate rows with
      | Raise e => Raise e
      | Ok items =>
          let lookup := rev (map (lookup_entry row_key) (filter is_dict items)) in
          let name_col := if row_key =? "month" then "Month"
                          else if row_key =? "day" then "Day" else "Time" in
          let lines :=
            List.app
            (("<table><thead><tr><th>" ++ name_col ++ "</th><th>Observation</th></tr></thead><tbody>")
             :: map (fun label =>
                       let obs := match assoc label lookup with
                                  | Some o => o
                                  | None => JStr "—"
                                  end in
                       "<tr><td>" ++ label ++ "</td><td>" ++ py_str obs ++ "</td></tr>")
                    labels)
            ["</tbody></table>"] in
          Ok (join nl lines)
      end
  end.

Definition _observations_to_html_tables (parsed : json)
    (month_labels dow_order tod_order : list string) : result string :=
  match table_for parsed "by_month" "month" month_labels with
  | Raise e => Raise e
  | Ok t_month =>
      match table_for parsed "by_day_of_week" "day" dow_order with
      | Raise e => Raise e
      | Ok t_day =>
          match table_for parsed "by_time_of_day" "time" tod_order with
          | Raise e => Raise e
          | Ok t_time =>
              Ok ("<h4>By month</h4>" ++ t_month
                  ++ "<h4>By day of week</h4>" ++ t_day
                  ++ "<h4>By time of day</h4>" ++ t_time)
          end
      end
  end.

Definition _raw_to_bullet_list (raw : string) : string :=
  let lines := map strip (filter (fun ln => negb (strip ln =? "")) (splitlines raw)) in
  match lines with
  | [] => if raw =? "" then "<p>—</p>" else "<p>" ++ raw ++ "</p>"
  | _ => "<ul>" ++ join "" (map (fun ln => "<li>" ++ ln ++ "</li>") lines) ++ "</ul>"
  end.

Definition excerpts_json (gs : list GroupExcerpt) : json :=
  JList (map (fun g => JDict [("group", JStr (group g));
                              ("excerpts", JStr (excerpts g))]) gs).

Definition counts_json (rows : list (string * nat)) : json :=
  JList (map (fun r => JDict [("month", JStr (fst r));
                              ("count", JNum (Z.of_nat (snd r)))]) rows).

(** An overall summary: the prompt is sent only with a key and a
    non-empty sample, and only a non-empty reply replaces the
    placeholder. *)
Definition overall_summary (api_key : option string) (overall_text prompt : string)
    : M string :=
  if negb (key_absent api_key) && negb (overall_text =? "") then
    reply <- ollama_chat prompt api_key ;;
    if truthy reply then lift (value_strip reply) else ret placeholder
  else ret placeholder.

Definition prompt_overall_activity (overall_text : string) : string :=
  ("You are summarizing LIFE ACTIVITY from journal entries: what types of things were "
     ++ "documented (e.g. work, exercise, social, routines), noteworthy observations, trends, "
     ++ "and changes over the period. Do NOT discuss how often or when the person wrote. Use "
     ++ "ONLY the following journal excerpts." ++ nl ++ nl ++ "JOURNAL EXCERPTS:" ++ nl)
     ++ overall_text ++ (nl ++ nl
     ++ "Write 3-5 sentences on overall life activity. Be concise and data-driven; do not "
     ++ "invent details.").

Definition prompt_overall_emotion (overall_text : string) : string :=
  ("You are summarizing emotional or mood-related trends from journal entries. Use ONLY "
     ++ "the following excerpts." ++ nl ++ nl ++ "JOURNAL EXCERPTS:" ++ nl) ++ overall_text
     ++ (nl ++ nl
     ++ "Write 3-5 sentences on overall emotion or mood. Be concise and data-driven; do not "
     ++ "invent details.").

Definition json_instruction (month_labels : list string) : string :=
  ("Respond with ONLY a JSON object (no other text) with three arrays: " ++ dq ++ "by_month"
     ++ dq ++ ", " ++ dq ++ "by_day_of_week" ++ dq ++ ", " ++ dq ++ "by_time_of_day" ++ dq
     ++ ". Each array has objects with a key (e.g. " ++ dq ++ "month" ++ dq ++ ", " ++ dq
     ++ "day" ++ dq ++ ", " ++ dq ++ "time" ++ dq ++ ") and " ++ dq ++ "observation" ++ dq
     ++ " (1-2 sentences). Include one object per group. Months to include: ")
     ++ json_dumps true (JList (map JStr month_labels)) ++ ". Days: "
  ++ json_dumps true (JList (map JStr dow_order)) ++ ". Times: "
  ++ json_dumps true (JList (map JStr tod_order)) ++ ".".

Definition prompt_obs_activity (payload : json) (instruction : string) : string :=
  ("Based on the following journal excerpts grouped by month, day of week, and time of "
     ++ "day, write 1-2 sentences PER GROUP describing emerging trends in LIFE ACTIVITY (what "
     ++ "kinds of things were documented, notable patterns or changes). Do NOT discuss how "
     ++ "often they wrote." ++ nl ++ nl ++ "DATA (JSON): ") ++ json_dumps false payload ++ nl
     ++ nl ++ instruction.

Definition prompt_obs_emotion (payload : json) (instruction : string) : string :=
  ("Based on the following journal excerpts grouped by month, day of week, and time of "
     ++ "day, write 1-2 sentences PER GROUP describing emotional or mood-related trends." ++ nl
     ++ nl ++ "DATA (JSON): ") ++ json_dumps false payload ++ nl ++ nl ++ instruction.

(** One observations block: the reply rendered as tables when a JSON
    object can be read from it, else as a bullet list. *)
Definition observations (prompt : string) (api_key : option string)
    (month_labels : list string) : M string :=
  reply <- ollama_chat prompt api_key ;;
  if truthy reply then
    reply <- lift (value_strip reply) ;;
    let parsed := _extract_json_from_reply reply in
    if truthy parsed
    then lift (_observations_to_html_tables parsed month_labels dow_order tod_order)
    else ret (_raw_to_bullet_list reply)
  else ret placeholder.

Definition prompt_trend (kw : string) (payload : json) : string :=
  ("You are summarizing a trend from journal data. Use ONLY the given counts." ++ nl
     ++ "Phrase: " ++ dq) ++ kw ++ (dq ++ ". Monthly occurrence counts: ")
     ++ json_dumps true payload ++ (nl
     ++ "Write 1-2 sentences summarizing this trend. Be concise and data-driven.").

Definition trend_section (entries_df : list Entry) (api_key : option string)
    (kw : string) : M TrendSection :=
  let kw_df := _phrase_counts_by_month entries_df kw in
  let chart_kw := _bar_chart_html kw_df "month" "count"
                    (("Occurrences of " ++ dq) ++ kw ++ (dq ++ " by month")) "#DD4633" in
  summary <-
    (if negb (key_absent api_key) && negb (match kw_df with [] => true | _ => false end)
     then
       reply <- ollama_chat (prompt_trend kw (counts_json kw_df)) api_key ;;
       if truthy reply then lift (value_strip reply) else ret placeholder
     else ret placeholder) ;;
  ret (mkTrend kw chart_kw summary).

Fixpoint trend_loop (entries_df : list Entry) (api_key : option string)
    (trend_keywords : list string) : M (list TrendSection) :=
  match trend_keywords with
  | [] => ret []
  | kw :: rest =>
      sec <- trend_section entries_df api_key kw ;;
      secs <- trend_loop entries_df api_key rest ;;
      ret (sec :: secs)
  end.

Definition wrap_p (s : string) : string :=
  if startswith "<" (strip s) then s else "<p>" ++ s ++ "</p>".

(** The list [parts] of [build_report]. *)
Definition body_parts (now : datetime) (date_from_str date_to_str : string)
    (n_entries : nat) (t : Narrative) : list string :=
  List.app
   [ "<h1>Journal Analysis Report</h1>";
     "<p><em>Generated: " ++ strftime_minute now ++ " (local time)</em></p>";
     "<p><strong>Purpose of this report</strong></p>";
     "<p>This report summarizes journal entries from " ++ date_from_str ++ " to " ++ date_to_str
        ++ " ("
       ++ of_nat n_entries
          ++ " entries). It provides AI-generated summaries of <strong>life activity</strong> "
          ++ "(what was documented, trends, changes) and <strong>emotion</strong>; "
          ++ "observations by month, day of week, and time of day; and trends for "
          ++ "user-specified phrases with occurrence counts by month. Conclusions are based "
          ++ "on journal excerpts and optional Ollama Cloud summaries.</p>";
     hr;
     "<h2>Overall activity</h2>";
     "<p>" ++ activity_summary t ++ "</p>";
     hr;
     "<h2>Overall emotion</h2>";
     "<p>" ++ emotion_summary t ++ "</p>";
     hr;
     "<h2>Observations by month, day of week, and time of day</h2>";
     "<h3>Activity</h3>";
     wrap_p (obs_activity t);
     "<h3>Emotion</h3>";
     wrap_p (obs_emotion t);
     hr ]
  (List.app
     match trend_sections t with
     | [] => []
     | secs =>
         "<h2>Trends by phrase</h2>"
         :: List.app
              (flat_map (fun sec => [ "<h3>" ++ dq ++ keyword sec ++ dq ++ "</h3>";
                                      chart_html sec;
                                      "<p>" ++ summary sec ++ "</p>" ]) secs)
              [hr]
     end
      [ ("<div class=" ++ dq ++ "appendix" ++ dq ++ ">");
        "<h2>How conclusions were drawn</h2>";
        "<p>Conclusions are based on journal entry excerpts (truncated for length) and "
           ++ "on summaries generated by Ollama Cloud (model: gpt-oss:20b-cloud) when "
           ++ "OLLAMA_API_KEY is set. The analysis used " ++ of_nat n_entries
           ++ " entries from " ++ date_from_str
          ++ " to " ++ date_to_str ++ (". " ++ dq ++ "Activity" ++ dq
             ++ " refers to life activity (what was documented, trends, changes), not how "
             ++ "often entries were written. Trend-by-phrase charts show occurrence counts "
             ++ "per month; AI summaries use only aggregated or excerpted content.</p>");
        "</div>" ]).

Definition full_doc (body_html : string) : string :=
  ("<!DOCTYPE html>" ++ nl ++ "<html>" ++ nl ++ "<head>" ++ nl ++ "  <meta charset=" ++ dq
     ++ "utf-8" ++ dq ++ ">" ++ nl ++ "  <title>Journal Analysis Report</title>" ++ nl
     ++ "  <style>" ++ nl) ++ _REPORT_CSS ++ (nl ++ "  </style>" ++ nl ++ "</head>" ++ nl
     ++ "<body>" ++ nl) ++ body_html ++ (nl ++ "</body>" ++ nl ++ "</html>").

Definition build_report (entries_df : list Entry) (trend_keywords : list string)
    (api_key : option string) (date_from date_to : Date) : M string :=
  _ensure_reports_dir ;;;
  now <- datetime_now ;;
  let filename := "journal_report_" ++ strftime_stamp now ++ ".html" in
  let out_path := reports_dir ++ "/" ++ filename in
  let n_entries := List.length entries_df in
  let date_from_str := isoformat date_from in
  let date_to_str := isoformat date_to in
  let df := entries_df in
  let overall_text := _overall_sample df _OVERALL_SAMPLE_CHARS in
  activity <- overall_summary api_key overall_text
                (prompt_overall_activity overall_text) ;;
  emotion <- overall_summary api_key overall_text
               (prompt_overall_emotion overall_text) ;;
  let by_month := _build_grouped_excerpts df ColMonth _EXCERPT_CHARS_PER_GROUP in
  let month_labels := sorted_unique (map (fun e => month_label (date e)) df) in
  let df_dow := filter (fun e => match dow_code e with Some _ => true | None => false end)
                       (sort_values dow_code df) in
  let by_dow := _build_grouped_excerpts df_dow ColDayOfWeek _EXCERPT_CHARS_PER_GROUP in
  let by_tod := _build_grouped_excerpts df ColTimeOfDay _EXCERPT_CHARS_PER_GROUP in
  obs <-
    (if negb (key_absent api_key)
        && negb (match by_month, by_dow, by_tod with [], [], [] => true | _, _, _ => false end)
     then
       let payload := JDict [("by_month", excerpts_json by_month);
                             ("by_day_of_week", excerpts_json by_dow);
                             ("by_time_of_day", excerpts_json by_tod)] in
       let instruction := json_instruction month_labels in
       act <- observations (prompt_obs_activity payload instruction) api_key month_labels ;;
       emo <- observations (prompt_obs_emotion payload instruction) api_key month_labels ;;
       ret (act, emo)
     else ret (placeholder, placeholder)) ;;
  trends <- trend_loop entries_df api_key trend_keywords ;;
  let narrative := mkNarrative activity emotion (fst obs) (snd obs) trends in
  let body_html := join nl (body_parts now date_from_str date_to_str n_entries narrative) in
  write_file out_path (full_doc body_html) ;;;
  ret out_path.

(** The path of the report built at [now], and the document written for
    a narrative, as [build_report] computes them. *)
Definition report_path (now : datetime) : string :=
  reports_dir ++ "/" ++ "journal_report_" ++ strftime_stamp now ++ ".html".

Definition document (now : datetime) (date_from date_to : Date)
    (n_entries : nat) (t : Narrative) : string :=
  full_doc (join nl (body_parts now (isoformat date_from) (isoformat date_to)
                                n_entries t)).

End Build.

End Report.

(** ** [api.py]: the report endpoint *)

Module Api.
Import PyStr.

(** An absolute path, as its components below the root. *)
Definition path : Type := list string.

(** What the endpoint sees of the file system: [Path.resolve] (symbolic
    links followed, [..] removed) and the content of a regular file. *)
Record filesystem : Type := FileSystem {
  resolve : path -> path;
  regular_file : path -> option string
}.

(** The components of a relative or absolute path string; [pathlib]
    drops empty components and [.], and keeps [..]. *)
Definition components (s : string) : list string :=
  filter (fun c => negb ((c =? "") || (c =? "."))) (split_char "/" s).

(** [base / filename]: an absolute right operand replaces the base. *)
Definition joinpath (base : path) (filename : string) : path :=
  if prefix "/" filename then components filename
  else (base ++ components filename)%list.

(** [p.relative_to(base)] succeeds when the components of [base] start
    those of [p]. *)
Fixpoint is_relative_to (p base : path) : bool :=
  match base, p with
  | [], _ => true
  | b :: base', c :: p' => (b =? c) && is_relative_to p' base'
  | _ :: _, [] => false
  end.

Inductive response : Type :=
| HTTPException (status_code : nat) (detail : string)
| FileResponse (file : path) (content : string) (media_type : string).

Definition get_report (fs : filesystem) (_REPORTS_DIR : path)
    (filename : string) : response :=
  let path := resolve fs (joinpath _REPORTS_DIR filename) in
  if negb (is_relative_to path _REPORTS_DIR) then
    HTTPException 404 "Report not found"
  else
    match regular_file fs path with
    | None => HTTPException 404 "Report not found"
    | Some content => FileResponse path content "text/html"
    end.

(** [Path.resolve] on a file system without symbolic links. *)
Fixpoint normalize (seen_rev : path) (p : path) : path :=
  match p with
  | [] => rev seen_rev
  | c :: r => if c =? ".." then normalize (tl seen_rev) r
              else normalize (c :: seen_rev) r
  end.

Definition plain_fs (files : list (path * string)) : filesystem :=
  FileSystem (normalize [])
    (fun p => option_map snd
                (find (fun f => if list_eq_dec string_dec (fst f) p
                                then true else false) files)).

End Api.

(** ** A small JSON reader and printer

    They stand for [json.loads], [json.dumps] and [str] where the embedding
    is run on examples.  The reader accepts objects, arrays, strings
    without escapes, integers, [true], [false] and [null]; it rejects
    everything else, also the fractions and escapes Python would read. *)

Module JsonLite.
Import PyStr Py.

Definition is_json_ws (c : ascii) : bool :=
  (c =? " ")%char || (c =? "009")%char || (c =? "010")%char || (c =? "013")%char.

Fixpoint skip_ws (s : string) : string :=
  match s with
  | String c r => if is_json_ws c then skip_ws r else s
  | "" => ""
  end.

Definition is_digit (c : ascii) : bool := between 48 57 c.

(** The text up to the closing quote, and what follows it. *)
Fixpoint read_string (s : string) : option (string * string) :=
  match s with
  | "" => None
  | String c r =>
      if (c =? "034")%char then Some ("", r)
      else if (c =? "\")%char || (code c <? 32)%nat then None
      else match read_string r with
           | Some (t, rest) => Some (String c t, rest)
           | None => None
           end
  end.

Fixpoint read_digits (s : string) (acc : Z) : Z * string :=
  match s with
  | String c r =>
      if is_digit c then read_digits r (10 * acc + Z.of_nat (code c - 48))%Z
      else (acc, s)
  | "" => (acc, "")
  end.

Definition starts_with_digit (s : string) : bool :=
  match s with String d _ => is_digit d | "" => false end.

Definition read_number (s : string) : option (Z * string) :=
  let (neg, s) := match s with
                  | String c r => if (c =? "-")%char then (true, r) else (false, s)
                  | "" => (false, s)
                  end in
  match s with
  | String c r =>
      if is_digit c then
        if (c =? "0")%char && starts_with_digit r then None
        else
          let (n, rest) := read_digits s 0 in
          match rest with
          | String d _ =>
              if (d =? ".")%char || (d =? "e")%char || (d =? "E")%char
              then None else Some (if neg then (- n)%Z else n, rest)
          | "" => Some (if neg then (- n)%Z else n, rest)
          end
      else None
  | "" => None
  end.

Fixpoint dict_set (k : string) (v : json) (kv : list (string * json))
    : list (string * json) :=
  match kv with
  | [] => [(k, v)]
  | (k', v') :: r =>
      if k =? k' then (k', v) :: r else (k', v') :: dict_set k v r
  end.

Fixpoint read_value (fuel : nat) (s : string) : option (json * string) :=
  match fuel with
  | 0 => None
  | S f =>
      match skip_ws s with
      | "" => None
      | String c r as s' =>
          if (c =? "{")%char then
            match skip_ws r with
            | String d r' =>
                if (d =? "}")%char then Some (JDict [], r')
                else option_map (fun p => (JDict (fst p), snd p)) (read_members f r [])
            | "" => None
            end
          else if (c =? "[")%char then
            match skip_ws r with
            | String d r' =>
                if (d =? "]")%char then Some (JList [], r')
                else option_map (fun p => (JList (fst p), snd p)) (read_elements f r)
            | "" => None
            end
          else if (c =? "034")%char then
            option_map (fun p => (JStr (fst p), snd p)) (read_string r)
          else if prefix "null" s' then Some (JNull, substring 4 (String.length s') s')
          else if prefix "true" s' then Some (JBool true, substring 4 (String.length s') s')
          else if prefix "false" s' then Some (JBool false, substring 5 (String.length s') s')
          else option_map (fun p => (JNum (fst p), snd p)) (read_number s')
      end
  end
with read_elements (fuel : nat) (s : string) : option (list json * string) :=
  match fuel with
  | 0 => None
  | S f =>
      match read_value f s with
      | None => None
      | Some (v, r) =>
          match skip_ws r with
          | String c r' =>
              if (c =? ",")%char then
                option_map (fun p => (v :: fst p, snd p)) (read_elements f r')
              else if (c =? "]")%char then Some ([v], r')
              else None
          | "" => None
          end
      end
  end
with read_members (fuel : nat) (s : string) (acc : list (string * json))
    : option (list (string * json) * string) :=
  match fuel with
  | 0 => None
  | S f =>
      match skip_ws s with
      | String q r =>
          if (q =? "034")%char then
            match read_string r with
            | None => None
            | Some (k, r1) =>
                match skip_ws r1 with
                | String c r2 =>
                    if (c =? ":")%char then
                      match read_value f r2 with
                      | None => None
                      | Some (v, r3) =>
                          match skip_ws r3 with
                          | String d r4 =>
                              if (d =? ",")%char then read_members f r4 (dict_set k v acc)
                              else if (d =? "}")%char then Some (dict_set k v acc, r4)
                              else None
                          | "" => None
                          end
                      end
                    else None
                | "" => None
                end
            end
          else None
      | "" => None
      end
  end.

Definition loads (s : string) : option json :=
  match read_value (2 * String.length s + 2) s with
  | Some (v, rest) => match skip_ws rest with "" => Some v | _ => None end
  | None => None
  end.

Definition of_Z (n : Z) : string :=
  match n with
  | Zneg p => "-" ++ of_nat (Pos.to_nat p)
  | _ => of_nat (Z.to_nat n)
  end.

(** Strings are printed between quotes as they are. *)
Fixpoint dumps (v : json) : string :=
  match v with
  | JNull => "null"
  | JBool true => "true"
  | JBool false => "false"
  | JNum n => of_Z n
  | JStr s => dq ++ s ++ dq
  | JList l => "[" ++ join ", " (map dumps l) ++ "]"
  | JDict kv =>
      "{" ++ join ", " (map (fun p : string * json => let (k, x) := p in dq ++ k ++ dq ++ ": " ++ dumps x) kv)
      ++ "}"
  end.

Definition str (v : json) : string :=
  match v with
  | JStr s => s
  | JNull => "None"
  | JBool true => "True"
  | JBool false => "False"
  | _ => dumps v
  end.

(** Rows in code order, those without a code last; rows with equal codes
    keep their order. *)
Fixpoint insert_by (code : Utils.Entry -> option nat) (e : Utils.Entry)
    (l : list Utils.Entry) : list Utils.Entry :=
  match l with
  | [] => [e]
  | x :: r =>
      let before := match code e, code x with
                    | Some a, Some b => (a <? b)%nat
                    | Some _, None => true
                    | None, _ => false
                    end in
      if before then e :: l else x :: insert_by code e r
  end.

Definition sort_by (code : Utils.Entry -> option nat) (l : list Utils.Entry)
    : list Utils.Entry :=
  fold_right (insert_by code) [] l.

Definition libs : PyLibs := {|
  json_loads := loads;
  json_dumps := fun (_ : bool) => dumps;
  py_str := str;
  sort_values := sort_by;
  bar_to_html := fun (_ : list (string * nat)) (_ _ title _ : string) =>
    "<div class=" ++ dq ++ "plotly-graph-div" ++ dq ++ ">" ++ title ++ "</div>";
  no_data_to_html := "<div class=" ++ dq ++ "plotly-graph-div" ++ dq ++ ">No data</div>";
  reports_dir := "/app/reports"
|}.

End JsonLite.

(** ** The specification's wording, where it is compared with the code *)

Module Spec.
Import PyStr Py Utils ReportBuilder.

Fixpoint all_chars (ok : ascii -> bool) (s : string) : bool :=
  match s with
  | "" => true
  | String c r => ok c && all_chars ok r
  end.

(** A keyword phrase against a piece of text: a star stands for zero or
    more characters that [gap] admits, any other character for itself,
    whatever its case. *)
Inductive wild_match (gap : ascii -> bool) : string -> string -> Prop :=
| wm_end : wild_match gap "" ""
| wm_star p g s :
    all_chars gap g = true -> wild_match gap p s ->
    wild_match gap (String "*" p) (g ++ s)
| wm_char c d p s :
    c <> "*"%char -> lower_char c = lower_char d -> wild_match gap p s ->
    wild_match gap (String c p) (String d s).

(** The text matches the phrase somewhere. *)
Definition text_matches (gap : ascii -> bool) (phrase text : string) : Prop :=
  exists pre m post, text = pre ++ m ++ post /\ wild_match gap phrase m.

Definition any_char (c : ascii) : bool := true.
Definition not_newline (c : ascii) : bool := negb (c =? "010")%char.
Definition nonspace (c : ascii) : bool := negb (isspace c).

(** The whitespace-separated words of a string, in order: the string is
    blanks, then a word, then what follows the word, which is empty or
    starts with a blank. *)
Inductive words_of : string -> list string -> Prop :=
| words_none b : all_chars isspace b = true -> words_of b []
| words_cons b w rest ws :
    all_chars isspace b = true ->
    w <> "" -> all_chars nonspace w = true ->
    starts_word rest = false ->
    words_of rest ws ->
    words_of (b ++ w ++ rest) (w :: ws).

(** The pieces of a string between the occurrences of a character. *)
Definition pieces_of (sep : ascii) (s : string) (pieces : list string) : Prop :=
  join (String sep "") pieces = s
  /\ Forall (fun q => all_chars (fun c => negb (c =? sep)%char) q = true) pieces.

(** A string without its leading and trailing whitespace. *)
Definition ends_word (t : string) : Prop :=
  exists r c, t = r ++ String c "" /\ isspace c = false.

Definition trimmed_of (s t : string) : Prop :=
  (exists b1 b2, s = b1 ++ t ++ b2
                 /\ all_chars isspace b1 = true /\ all_chars isspace b2 = true)
  /\ (t = "" \/ (starts_word t = true /\ ends_word t)).

(** [w] occurs in [text], whatever the case of the letters. *)
Definition ci_substring (w text : string) : Prop :=
  exists pre post, lower text = pre ++ lower w ++ post.

(** Months in time order. *)
Definition month_before (a b : Date) : Prop :=
  year a < year b \/ (year a = year b /\ month a < month b).

(** The dates a pandas [Timestamp] can hold. *)
Definition valid_date (d : Date) : Prop :=
  1677 <= year d <= 2262 /\ 1 <= month d <= 12 /\ 1 <= day d <= 31.

(** The characters of the fragments, separators not counted: the [total]
    of [_build_grouped_excerpts]. *)
Definition total_len (parts : list string) : Z :=
  fold_right (fun p acc => (ReportBuilder.len p + acc)%Z) 0%Z parts.

(** The last whitespace-separated word of an excerpt. *)
Definition trailing_word (s : string) : string := last (split_ws s) "".

(** The first top-level brace span: from the first [{] to the [}] that
    closes it. *)
Fixpoint balanced_from (depth : nat) (s : string) : option string :=
  match s with
  | "" => None
  | String c r =>
      if (c =? "{")%char then option_map (String c) (balanced_from (S depth) r)
      else if (c =? "}")%char then
        match depth with
        | 0 => None
        | 1 => Some (String c "")
        | S d => option_map (String c) (balanced_from d r)
        end
      else option_map (String c) (balanced_from depth r)
  end.

Fixpoint first_top_level_span (s : string) : option string :=
  match s with
  | "" => None
  | String c r =>
      if (c =? "{")%char then balanced_from 0 s
      else first_top_level_span r
  end.

(** The extractor as the specification words it. *)
Definition extract_as_specified `{PyLibs} (reply : string) : json :=
  let reply := strip reply in
  loads_or (option_map strip (fenced_group true reply))
    (loads_or (option_map strip (fenced_group false reply))
      (loads_or (first_top_level_span reply)
        (loads_or (Some reply) JNull))).

(** A response body without a reply: not a JSON object, or its "message"
    is not an object, or the message has no "content". *)
Definition lacks_reply (js : json) : Prop :=
  match js with
  | JDict kv =>
      match assoc "message" kv with
      | Some (JDict m) => assoc "content" m = None
      | _ => True
      end
  | _ => True
  end.

End Spec.

(** ** Fenced blocks of a reply *)

Module Blocks.
Import PyStr Py Utils ReportBuilder.

(** [needle] occurs in [hay], for the first time right after [pre], and
    [rest] follows that occurrence. *)
Definition first_occurrence (needle hay pre rest : string) : Prop :=
  hay = pre ++ needle ++ rest
  /\ forall a b, hay = a ++ needle ++ b -> String.length pre <= String.length a.

(** The content of the fenced block of a reply: the reply up to its first
    fence, the fence, a [json] tag when tags are skipped and the tag is
    there, whitespace up to a character that is not, and then the content
    up to the next fence. *)
Definition fenced_block (tagged : bool) (reply content : string) : Prop :=
  exists pre after tag blanks post,
    first_occurrence fence reply pre after
    /\ tag = (if tagged && prefix "json" after then "json" else "")
    /\ after = tag ++ blanks ++ content ++ fence ++ post
    /\ Spec.all_chars isspace blanks = true
    /\ starts_word (content ++ fence ++ post) = true
    /\ first_occurrence fence (content ++ fence ++ post) content post.

End Blocks.

(** ** Sample data *)

(** The three entries of the specification's scenario. *)
Definition entry1 : Utils.Entry :=
  Utils.mkEntry (Utils.mkDate 2024 1 5) "Friday" "morning" "felt OCD today".
Definition entry2 : Utils.Entry :=
  Utils.mkEntry (Utils.mkDate 2024 1 10) "Wednesday" "evening" "productive day at work".
Definition entry3 : Utils.Entry :=
  Utils.mkEntry (Utils.mkDate 2024 2 1) "Thursday" "afternoon" "calm and happy".
Definition sample_entries : list Utils.Entry := [entry1; entry2; entry3].

(** A world whose service answers every request with an error status. *)
Definition failing_world : Py.world :=
  Py.World (Py.DateTime 2024 3 1 10 20 30) (fun _ _ => Py.Response 503 None) [] [] [].

(** A world whose service answers with a redirection status and a body
    that has the shape of a reply. *)
Definition redirected_world : Py.world :=
  Py.World (Py.DateTime 2024 3 1 10 20 30)
    (fun _ _ => Py.Response 302
                  (Some (Py.JDict [("message", Py.JDict [("content", Py.JStr "moved")])])))
    [] [] [].

(** A reply with a fenced block, and text with braces after it. *)
Definition fenced_reply : string :=
  "Here it is:" ++ PyStr.nl ++ ReportBuilder.fence ++ "json" ++ PyStr.nl
  ++ "{" ++ PyStr.dq ++ "by_month" ++ PyStr.dq ++ ": []}" ++ PyStr.nl
  ++ ReportBuilder.fence ++ PyStr.nl
  ++ "That is {all}.".

(** A reports directory with one report, beside a file that is not one. *)
Definition sample_fs : Api.filesystem :=
  Api.plain_fs [ (["app"; "reports"; "journal_report_20240301_102030.html"], "<!DOCTYPE html>");
                 (["app"; "journal_entries.csv"], "date,day_of_week,time_of_day,text") ].

(** ** Notions used to state further properties *)

Module Notions.
Import PyStr Py Utils ReportBuilder.

(** [a <= b] on dates, as the calendar orders them. *)
Definition date_le (a b : Date) : Prop :=
  year a < year b
  \/ (year a = year b
      /\ (month a < month b \/ (month a = month b /\ day a <= day b))).

(** The values of a list without repetition, in the order in which they
    first appear. *)
Fixpoint first_seen (l : list string) : list string :=
  match l with
  | [] => []
  | x :: r => x :: filter (fun y => negb (y =? x)) (first_seen r)
  end.

(** The stripped texts of a frame that are not empty, in frame order. *)
Definition stripped_texts (rows : list Entry) : list string :=
  filter (fun t => negb (t =? "")) (map (fun e => strip (text e)) rows).

(** The name of the file that [build_report] writes at time [now]. *)
Definition report_filename (now : datetime) : string :=
  "journal_report_" ++ Report.strftime_stamp now ++ ".html".

(** The entries that the report button analyses: those of the loaded
    frame that are dated within the first two dates of the range. *)
Definition analysis_window (entries_data : option (list Entry))
    (analysis_date_range : list Date) : list Entry :=
  match entries_data, analysis_date_range with
  | Some rows, date_from :: date_to :: _ =>
      filter_entries_by_date_only (Some rows) (Some date_from) (Some date_to)
  | _, _ => []
  end.

(** A service that answers every request with status 200 and a reply
    whose content is [content]. *)
Definition answers (w : world) (content : json) : Prop :=
  forall hist rq,
    remote w hist rq
    = Response 200 (Some (JDict [("message", JDict [("content", content)])])).

End Notions.

(** A world whose service answers every request with the given content. *)
Definition answering_world (content : Py.json) : Py.world :=
  Py.World (Py.DateTime 2024 3 1 10 20 30)
    (fun _ _ => Py.Response 200
                  (Some (Py.JDict [("message", Py.JDict [("content", content)])])))
    [] [] [].

Module Charts.
Import PyStr Py Utils ReportBuilder Report.

Section WithLibs.
Context `{PyLibs}.

(** The chart of a trend phrase, as [build_report] asks for it. *)
Definition chart_of (entries_df : list Entry) (kw : string) : string :=
  _bar_chart_html (_phrase_counts_by_month entries_df kw) "month" "count"
    (("Occurrences of " ++ dq) ++ kw ++ (dq ++ " by month")) "#DD4633".

End WithLibs.

End Charts.

(** ** [utils.py]: the entries client *)

Module Fetch.
Import PyStr Py.

Definition DEFAULT_API_BASE : string := "http://127.0.0.1:8000".

(** [os.environ]: the variables that are set, with their values. *)
Definition environ : Type := list (string * string).

(** [os.environ.get(k)] *)
Fixpoint environ_get (env : environ) (k : string) : option string :=
  match env with
  | [] => None
  | (k', v) :: r => if k =? k' then Some v else environ_get r k
  end.

Definition get_api_base (env : environ) : string :=
  match environ_get env "JOURNAL_API_URL" with
  | Some v => v
  | None => DEFAULT_API_BASE
  end.

(** [s.rstrip(c)] for one character [c]. *)
Fixpoint rstrip_char (c : ascii) (s : string) : string :=
  match s with
  | "" => ""
  | String d r =>
      match rstrip_char c r with
      | "" => if (d =? c)%char then "" else String d ""
      | r' => String d r'
      end
  end.

(** The address [fetch_entries] asks: [base_url or get_api_base()],
    without its trailing slashes, then [/entries]. *)
Definition entries_url (env : environ) (base_url : option string) : string :=
  rstrip_char "/" (match base_url with
                   | None | Some "" => get_api_base env
                   | Some base => base
                   end) ++ "/entries".

Section Frames.

(** The frames of pandas, through the two constructors that
    [fetch_entries] calls: [pd.DataFrame(columns=...)] and
    [pd.DataFrame(data)] followed by [pd.to_datetime] on the [date]
    column when there is one, which can raise. *)
Variable Frame : Type.
Variable empty_frame : list string -> Frame.
Variable frame_of_records : list json -> result Frame.

(** [requests_get url timeout] is the outcome of [requests.get]. *)
Definition fetch_entries (env : environ)
    (requests_get : string -> nat -> http_outcome) (base_url : option string)
    : result (option Frame) :=
  let url := entries_url env base_url in
  match requests_get url 10 with
  | NoResponse => Ok None
  | Response status_code body =>
      if negb (status_code =? 200)%nat then Ok None
      else
        match body with
        | None => Ok None
        | Some data =>
            match data with
            | JList [] =>
                Ok (Some (empty_frame ["date"; "day_of_week"; "time_of_day"; "text"]))
            | JList records =>
                match frame_of_records records with
                | Ok df => Ok (Some df)
                | Raise e => Raise e
                end
            | _ => Ok None
            end
        end
  end.

End Frames.

End Fetch.

(** ** [app.py]: generating the report *)

Module App.
Import PyStr Py Utils Report Fetch.

(** The reactive values of the report panel. *)
Record state : Type := State {
  report_path : option string;
  report_error : option string;
  generating : bool
}.

Section Server.
Context `{PyLibs}.

(** The effect behind the button.  [entries_data] is what was fetched,
    [analysis_date_range] the dates of the range input, [trend_keywords]
    the text of the phrases input; the result is the reactive values
    when the effect ends. *)
Definition _generate_report (env : environ) (entries_data : option (list Entry))
    (analysis_date_range : list Date) (trend_keywords : string)
    : world -> state * world :=
  fun w =>
    let s := State None None true in
    let failed (msg : string) (s : state) : state :=
      State (report_path s) (Some msg) (generating s) in
    let (s, w) :=
      match entries_data with
      | None | Some [] =>
          (failed "No journal entries available. Ensure the API is running and try again." s, w)
      | Some raw =>
          match analysis_date_range with
          | date_from :: date_to :: _ =>
              let subset := filter_entries_by_date_only (Some raw)
                              (Some date_from) (Some date_to) in
              match subset with
              | [] =>
                  (failed "No journal entries in the selected date range. Adjust the range and try again." s, w)
              | _ =>
                  let keywords_str := trend_keywords in
                  let trend_keywords := keyword_parts keywords_str in
                  let api_key := environ_get env "OLLAMA_API_KEY" in
                  match build_report subset trend_keywords api_key date_from date_to w with
                  | (Ok path, w) => (State (Some path) (report_error s) (generating s), w)
                  | (Raise _, w) =>
                      (failed "Report generation failed. Check that the API is running and OLLAMA_API_KEY is set in .env." s, w)
                  end
              end
          | _ => (failed "Please select an analysis date range." s, w)
          end
      end in
    (State (report_path s) (report_error s) false, w).

End Server.

End App.

(* ================================================================= *)
(** * Part II: properties                                             *)
(* ================================================================= *)

(** ** Filtering *)

Module FilterFacts.
Import PyStr Py Utils.

(** The keyword constraint on one entry. *)
Definition keyword_ok (keywords : string) (e : Entry) : bool :=
  if negb (keywords =? "") then
    match keyword_parts keywords with
    | [] => true
    | parts => str_contains (keyword_pattern parts) (text e)
    end
  else true.

(** All constraints on one entry. *)
Definition passes (date_from date_to : option Date) (days times : list string)
    (keywords : string) (e : Entry) : bool :=
  match date_from with Some d => date_leb d (date e) | None => true end
  && match date_to with Some d => date_leb (date e) d | None => true end
  && match days with [] => true | _ => isin days (day_of_week e) end
  && match times with [] => true | _ => isin times (time_of_day e) end
  && keyword_ok keywords e.

Lemma filter_true {A} (l : list A) : filter (fun _ => true) l = l.
Proof. induction l; simpl; congruence. Qed.

Lemma filter_filter {A} (p q : A -> bool) (l : list A) :
  filter q (filter p l) = filter (fun x => p x && q x) l.
Proof.
  induction l as [|x l IH]; simpl; [reflexivity|].
  destruct (p x); simpl; [destruct (q x)|]; rewrite IH; reflexivity.
Qed.

Lemma filter_idem {A} (p : A -> bool) (l : list A) :
  filter p (filter p l) = filter p l.
Proof.
  rewrite filter_filter. apply filter_ext. intros x. destruct (p x); reflexivity.
Qed.

(** [filter_entries] is one stable filter by [passes]. *)
Lemma filter_entries_filter rows date_from date_to days times keywords :
  filter_entries (Some rows) date_from date_to days times keywords
  = filter (passes date_from date_to days times keywords) rows.
Proof.
  destruct rows as [|r rows]; [reflexivity|].
  unfold filter_entries. generalize (r :: rows) as l. intros l.
  transitivity
    (filter (keyword_ok keywords)
       (filter (fun e => match times with [] => true | _ => isin times (time_of_day e) end)
          (filter (fun e => match days with [] => true | _ => isin days (day_of_week e) end)
             (filter (fun e => match date_to with Some d => date_leb (date e) d | None => true end)
                (filter (fun e => match date_from with Some d => date_leb d (date e) | None => true end)
                   l))))).
  - unfold keyword_ok.
    destruct date_from, date_to, days, times; cbv zeta;
      rewrite ?filter_true;
      destruct (negb (keywords =? "")); rewrite ?filter_true; try reflexivity;
      destruct (keyword_parts keywords); rewrite ?filter_true; reflexivity.
  - rewrite !filter_filter. apply filter_ext. intros e. unfold passes.
    rewrite !andb_assoc. reflexivity.
Qed.

End FilterFacts.

(** ** The summarizer gateway *)

Module ChatFacts.
Import PyStr Py Utils.

(** What [ollama_chat] does once the key is there, by the answer of the
    remote service. *)
Definition content_of (outcome : http_outcome) : json :=
  match outcome with
  | NoResponse => JNull
  | Response status body =>
      if ((400 <=? status) && (status <? 600))%nat then JNull
      else match body with
           | Some (JDict kv) =>
               match assoc "message" kv with
               | Some (JDict m) =>
                   match assoc "content" m with Some c => c | None => JNull end
               | Some _ => JNull
               | None => JNull
               end
           | _ => JNull
           end
  end.

Definition after_request (rq : request) (w : world) : world :=
  World (clock w) (remote w) (rq :: sent w) (dirs w) (files w).

Lemma ollama_chat_absent prompt api_key w :
  key_absent api_key = true -> ollama_chat prompt api_key w = (Ok JNull, w).
Proof. intros Hk. unfold ollama_chat. rewrite Hk. reflexivity. Qed.

Lemma ollama_chat_present prompt api_key w :
  key_absent api_key = false ->
  ollama_chat prompt api_key w
  = (Ok (content_of (remote w (sent w) (chat_request prompt api_key))),
     after_request (chat_request prompt api_key) w).
Proof.
  intros Hk. unfold ollama_chat. rewrite Hk.
  unfold try_except, bind, requests_post, chat_request, content_of.
  destruct (remote w (sent w) _) as [|status body]; [reflexivity|].
  unfold raise_for_status. cbn [fst snd].
  destruct ((400 <=? status) && (status <? 600))%nat; [reflexivity|].
  cbn. destruct body as [js|]; [|reflexivity].
  destruct js; try reflexivity. cbn.
  destruct (assoc "message" kv) as [m|]; [|reflexivity].
  destruct m; reflexivity.
Qed.

End ChatFacts.

(** ** Strings *)

Module StrFacts.
Import PyStr.

Lemma app_assoc (a b c : string) : (a ++ b) ++ c = a ++ (b ++ c).
Proof. induction a; simpl; congruence. Qed.

Lemma app_nil_r (a : string) : a ++ "" = a.
Proof. induction a; simpl; congruence. Qed.

Lemma length_app (a b : string) :
  String.length (a ++ b) = String.length a + String.length b.
Proof. induction a; simpl; congruence. Qed.

Lemma prefix_iff (a s : string) : prefix a s = true <-> exists r, s = a ++ r.
Proof.
  revert s. induction a as [|c a IH]; intros s.
  - split; [intros _; exists s; destruct s; reflexivity | destruct s; reflexivity].
  - destruct s as [|d s]; simpl.
    + split; [discriminate | intros [r Hr]; discriminate].
    + destruct (ascii_dec c d) as [->|Hne].
      * rewrite IH. split; intros [r Hr]; exists r; congruence.
      * split; [discriminate | intros [r Hr]; congruence].
Qed.

Lemma prefix_app (a r : string) : prefix a (a ++ r) = true.
Proof. apply prefix_iff. eauto. Qed.

Lemma contains_iff (a s : string) :
  contains a s = true <-> exists pre post, s = pre ++ a ++ post.
Proof.
  induction s as [|c s IH]; cbn [contains].
  - rewrite orb_false_r, prefix_iff. split.
    + intros [r Hr]. exists "", r. exact Hr.
    + intros (pre & post & H). destruct pre; [eauto | discriminate].
  - rewrite orb_true_iff, IH, prefix_iff. split.
    + intros [[r Hr] | (pre & post & H)].
      * exists "", r. exact Hr.
      * exists (String c pre), post. simpl. congruence.
    + intros (pre & post & H). destruct pre as [|d pre].
      * left. exists post. exact H.
      * right. exists pre, post. simpl in H. congruence.
Qed.

Lemma all_chars_app ok (a b : string) :
  Spec.all_chars ok (a ++ b) = Spec.all_chars ok a && Spec.all_chars ok b.
Proof. induction a; simpl; [reflexivity|]. rewrite IHa, andb_assoc. reflexivity. Qed.

(** Blank strings and words. *)

Lemma lstrip_word (s : string) : starts_word s = true -> lstrip s = s.
Proof.
  destruct s as [|c s]; simpl; [discriminate|].
  destruct (isspace c); [discriminate|reflexivity].
Qed.

Lemma rstrip_word (s : string) : Spec.all_chars Spec.nonspace s = true -> rstrip s = s.
Proof.
  induction s as [|c s IH]; simpl; [reflexivity|].
  unfold Spec.nonspace at 1. intros H. apply andb_true_iff in H as [Hc Hs].
  rewrite (IH Hs). destruct s; [|reflexivity].
  destruct (isspace c); [discriminate|reflexivity].
Qed.

Lemma strip_word (s : string) : Spec.all_chars Spec.nonspace s = true -> strip s = s.
Proof.
  intros H. unfold strip. destruct s as [|c s]; [reflexivity|].
  rewrite lstrip_word; [apply rstrip_word; exact H|].
  simpl in *. unfold Spec.nonspace in H. apply andb_true_iff in H. tauto.
Qed.

Lemma split_ws_blank (s : string) : Spec.all_chars isspace s = true -> split_ws s = [].
Proof.
  induction s as [|c s IH]; simpl; [reflexivity|].
  intros H. apply andb_true_iff in H as [Hc Hs]. rewrite Hc. auto.
Qed.

Lemma split_ws_words (s w : string) :
  In w (split_ws s) -> w <> "" /\ Spec.all_chars Spec.nonspace w = true.
Proof.
  revert w. induction s as [|c s IH]; simpl; [tauto|]. intros w.
  destruct (isspace c) eqn:Hc; [apply IH|].
  destruct (starts_word s) eqn:Hs.
  - destruct (split_ws s) as [|h t] eqn:Hsp.
    + intros [<-|[]]. split; [discriminate|]. simpl. unfold Spec.nonspace. rewrite Hc. reflexivity.
    + intros [<-|Hin].
      * destruct (IH h (or_introl eq_refl)) as [_ Hh].
        split; [discriminate|]. simpl. unfold Spec.nonspace at 1. rewrite Hc. exact Hh.
      * apply IH. right. exact Hin.
  - intros [<-|Hin]; [|apply IH; exact Hin].
    split; [discriminate|]. simpl. unfold Spec.nonspace. rewrite Hc. reflexivity.
Qed.

(** [split_ws] gives the whitespace-separated words. *)
Lemma split_ws_words_of (s : string) : Spec.words_of s (split_ws s).
Proof.
  induction s as [|c s IH]; [constructor; reflexivity|].
  cbn [split_ws]. destruct (isspace c) eqn:Hc.
  - inversion IH as [b Hb|b w rest ws Hb Hw Hn Hr Hrest]; subst.
    + constructor. cbn [Spec.all_chars]. rewrite Hc, Hb. reflexivity.
    + change (String c (b ++ w ++ rest)) with (String c b ++ w ++ rest).
      constructor; try assumption. cbn [Spec.all_chars]. rewrite Hc, Hb. reflexivity.
  - destruct (starts_word s) eqn:Hs.
    + inversion IH as [b Hb E|b w rest ws Hb Hw Hn Hr Hrest E1 E2]; subst.
      * exfalso. destruct s as [|d s]; [discriminate|].
        cbn [starts_word Spec.all_chars] in *.
        apply andb_true_iff in Hb as [Hd _]. rewrite Hd in Hs. discriminate.
      * destruct b as [|d b].
        -- cbn [append] in *.
           change (String c (w ++ rest)) with ("" ++ String c w ++ rest).
           constructor; try assumption; try reflexivity; [discriminate|].
           cbn [Spec.all_chars]. unfold Spec.nonspace at 1. rewrite Hc, Hn. reflexivity.
        -- exfalso. cbn [append starts_word Spec.all_chars] in *.
           apply andb_true_iff in Hb as [Hd _]. rewrite Hd in Hs. discriminate.
    + change (String c s) with ("" ++ String c "" ++ s).
      constructor; try assumption; try reflexivity; [discriminate|].
      cbn [Spec.all_chars]. unfold Spec.nonspace. rewrite Hc. reflexivity.
Qed.

(** [split_char] gives the pieces between the separators. *)
Lemma split_char_nonempty sep s : split_char sep s <> [].
Proof.
  destruct s as [|c s]; cbn [split_char]; [discriminate|].
  destruct (c =? sep)%char; [discriminate|].
  destruct (split_char sep s); discriminate.
Qed.

Lemma split_char_pieces_of (sep : ascii) (s : string) :
  Spec.pieces_of sep s (split_char sep s).
Proof.
  unfold Spec.pieces_of, join.
  induction s as [|c s [IHj IHf]]; [split; [reflexivity|repeat constructor]|].
  cbn [split_char]. destruct (c =? sep)%char eqn:Ec.
  - apply Ascii.eqb_eq in Ec. subst c. split; [|constructor; [reflexivity | exact IHf]].
    destruct (split_char sep s) as [|h t] eqn:E; [exfalso; exact (split_char_nonempty _ _ E)|].
    change (String.concat (String sep "") ("" :: h :: t))
      with (String sep (String.concat (String sep "") (h :: t))).
    rewrite IHj. reflexivity.
  - destruct (split_char sep s) as [|h t] eqn:E; [exfalso; exact (split_char_nonempty _ _ E)|].
    split.
    + rewrite <- IHj. destruct t; reflexivity.
    + inversion IHf; subst. constructor; [|assumption].
      cbn [Spec.all_chars]. rewrite Ec. cbn [negb andb]. assumption.
Qed.

(** [strip] trims. *)
Lemma lstrip_decomp s :
  exists b, s = b ++ lstrip s /\ Spec.all_chars isspace b = true
            /\ (lstrip s = "" \/ starts_word (lstrip s) = true).
Proof.
  induction s as [|c s (b & E & Hb & Hs)]; [exists ""; auto|].
  cbn [lstrip]. destruct (isspace c) eqn:Hc.
  - exists (String c b). cbn [append Spec.all_chars]. rewrite Hc, Hb, <- E. auto.
  - exists "". cbn [append Spec.all_chars starts_word]. rewrite Hc. auto.
Qed.

Lemma rstrip_decomp u :
  exists b, u = rstrip u ++ b /\ Spec.all_chars isspace b = true
            /\ (rstrip u = "" \/ Spec.ends_word (rstrip u)).
Proof.
  induction u as [|c u (b & E & Hb & Hu)]; [exists ""; auto|].
  cbn [rstrip]. destruct (rstrip u) as [|d r] eqn:Er.
  - cbn [append] in E. destruct (isspace c) eqn:Hc.
    + exists (String c b). cbn [append Spec.all_chars]. rewrite Hc, Hb, <- E. auto.
    + exists b. cbn [append]. subst u. split; [reflexivity|]. split; [exact Hb|].
      right. exists "", c. auto.
  - exists b. cbn [append] in *. rewrite <- E. split; [reflexivity|]. split; [exact Hb|].
    right. destruct Hu as [Hu|(r' & e & Hr' & He)]; [discriminate|].
    exists (String c r'), e. cbn [append]. rewrite Hr'. auto.
Qed.

Lemma rstrip_keeps_start u : starts_word u = true -> starts_word (rstrip u) = true.
Proof.
  destruct u as [|c u]; [discriminate|]. cbn [starts_word rstrip]. intros Hc.
  destruct (rstrip u); [|exact Hc].
  destruct (isspace c) eqn:E; [discriminate|]. cbn [starts_word]. rewrite E. reflexivity.
Qed.

Lemma strip_trimmed_of s : Spec.trimmed_of s (strip s).
Proof.
  unfold strip, Spec.trimmed_of.
  destruct (lstrip_decomp s) as (b1 & E1 & Hb1 & Hl).
  destruct (rstrip_decomp (lstrip s)) as (b2 & E2 & Hb2 & Hr).
  split.
  - exists b1, b2. rewrite <- E2. auto.
  - destruct Hr as [Hr|Hr]; [left; exact Hr|]. right. split; [|exact Hr].
    destruct Hl as [Hl|Hl]; [|apply rstrip_keeps_start; exact Hl].
    rewrite Hl in Hr. destruct Hr as (r & c & Hr & _). destruct r; discriminate.
Qed.

End StrFacts.

(** ** Phrases and monthly counts *)

Module PhraseFacts.
Import PyStr Py Utils ReportBuilder StrFacts.

Lemma map_filter_words (l : list string) :
  (forall w, In w l -> w <> "" /\ Spec.all_chars Spec.nonspace w = true) ->
  map (fun w => lower (strip w)) (filter (fun w => negb (strip w =? "")) l)
  = map lower l.
Proof.
  induction l as [|w l IH]; intros Hl; [reflexivity|].
  destruct (Hl w (or_introl eq_refl)) as [Hne Hw].
  cbn [filter]. rewrite (strip_word w Hw).
  destruct (w =? "") eqn:E; [apply String.eqb_eq in E; contradiction|].
  cbn [negb map]. rewrite (strip_word w Hw). f_equal.
  apply IH. intros v Hv. apply Hl. right. exact Hv.
Qed.

(** The words that [_phrase_matches_entry] looks for. *)
Lemma phrase_words (phrase : string) :
  map (fun w => lower (strip w))
      (filter (fun w => negb (strip w =? "")) (split_ws phrase))
  = map lower (split_ws phrase).
Proof. apply map_filter_words. intros w. apply split_ws_words. Qed.

Lemma phrase_matches_iff (text phrase : string) :
  _phrase_matches_entry text phrase = true <->
  text <> "" /\ phrase <> "" /\
  forall w, In w (split_ws phrase) -> Spec.ci_substring w text.
Proof.
  unfold _phrase_matches_entry. rewrite phrase_words.
  destruct (text =? "") eqn:Et.
  { apply String.eqb_eq in Et. cbn [orb]. split; [discriminate | tauto]. }
  destruct (phrase =? "") eqn:Ep.
  { apply String.eqb_eq in Ep. cbn [orb]. split; [discriminate | tauto]. }
  apply String.eqb_neq in Et, Ep. cbn [orb].
  rewrite forallb_forall. split.
  - intros Hall. repeat split; try assumption.
    intros w Hw. apply contains_iff. apply Hall. apply in_map. exact Hw.
  - intros (_ & _ & Hall) x Hx. apply in_map_iff in Hx as (w & <- & Hw).
    apply contains_iff. apply Hall. exact Hw.
Qed.

Lemma phrase_matches_blank (text phrase : string) :
  phrase <> "" -> Spec.all_chars isspace phrase = true -> text <> "" ->
  _phrase_matches_entry text phrase = true.
Proof.
  intros Hp Hb Ht. apply phrase_matches_iff. repeat split; try assumption.
  rewrite (split_ws_blank _ Hb). intros w [].
Qed.

Lemma phrase_matches_blank_eq (text phrase : string) :
  phrase <> "" -> Spec.all_chars isspace phrase = true ->
  _phrase_matches_entry text phrase = negb (text =? "").
Proof.
  intros Hp Hb. destruct (text =? "") eqn:Et.
  - apply String.eqb_eq in Et. subst. reflexivity.
  - apply String.eqb_neq in Et. apply phrase_matches_blank; assumption.
Qed.

(** Order of strings. *)
Definition str_lt (a b : string) : Prop := String.compare a b = Lt.

Lemma str_lt_trans a b c : str_lt a b -> str_lt b c -> str_lt a c.
Proof.
  unfold str_lt. intros H1 H2.
  apply String_as_OT.cmp_lt in H1, H2. apply String_as_OT.cmp_lt.
  eapply String_as_OT.lt_trans; eassumption.
Qed.

Lemma str_lt_irrefl a : ~ str_lt a a.
Proof.
  unfold str_lt. intros H. apply String_as_OT.cmp_lt in H.
  exact (String_as_OT.lt_not_eq _ _ H eq_refl).
Qed.

Lemma compare_Gt_lt a b : String.compare a b = Gt -> str_lt b a.
Proof.
  unfold str_lt. intros H. rewrite String.compare_antisym, H. reflexivity.
Qed.

Lemma in_insert_sorted x y l : In x (insert_sorted y l) <-> x = y \/ In x l.
Proof.
  induction l as [|z l IH]; simpl; [intuition congruence|].
  destruct (String.compare y z) eqn:E; simpl.
  - apply String.compare_eq_iff in E. subst. intuition congruence.
  - intuition congruence.
  - rewrite IH. intuition congruence.
Qed.

Lemma in_sorted_unique x l : In x (sorted_unique l) <-> In x l.
Proof.
  induction l as [|y l IH]; simpl; [tauto|].
  rewrite in_insert_sorted, IH. intuition congruence.
Qed.

Lemma insert_sorted_sorted y l :
  StronglySorted str_lt l -> StronglySorted str_lt (insert_sorted y l).
Proof.
  induction 1 as [|z l Hs IH Hz]; simpl; [repeat constructor|].
  destruct (String.compare y z) eqn:E.
  - constructor; assumption.
  - constructor; [constructor; assumption|].
    constructor; [exact E|].
    rewrite Forall_forall in *. intros u Hu. eapply str_lt_trans; [exact E|]. auto.
  - constructor; [exact IH|].
    rewrite Forall_forall in *. intros u Hu. apply in_insert_sorted in Hu as [->|Hu].
    + apply compare_Gt_lt. exact E.
    + auto.
Qed.

Lemma sorted_unique_sorted l : StronglySorted str_lt (sorted_unique l).
Proof.
  induction l; simpl; [constructor | apply insert_sorted_sorted; assumption].
Qed.

Lemma sorted_NoDup l : StronglySorted str_lt l -> NoDup l.
Proof.
  induction 1 as [|z l Hs IH Hz]; constructor; [|exact IH].
  intros Hin. rewrite Forall_forall in Hz. exact (str_lt_irrefl z (Hz z Hin)).
Qed.

Lemma sorted_split l1 a l2 b l3 :
  StronglySorted str_lt (l1 ++ a :: l2 ++ b :: l3)%list -> str_lt a b.
Proof.
  induction l1 as [|x l1 IH]; simpl; intros H; inversion H; subst; [|auto].
  rewrite Forall_forall in *. match goal with H : forall _, In _ _ -> _ |- _ => apply H end.
  apply in_or_app. right. left. reflexivity.
Qed.

(** The months of the result. *)
Lemma counts_months df phrase :
  map fst (_phrase_counts_by_month df phrase)
  = sorted_unique (map (fun e => month_label (date e)) df).
Proof.
  unfold _phrase_counts_by_month. rewrite !map_map. cbn [fst].
  rewrite map_id. reflexivity.
Qed.

Lemma filter_map_length {A B} (f : A -> B) (p : B -> bool) (l : list A) :
  List.length (filter p (map f l)) = List.length (filter (fun a => p (f a)) l).
Proof.
  induction l as [|a l IH]; simpl; [reflexivity|].
  destruct (p (f a)); simpl; rewrite IH; reflexivity.
Qed.

Lemma counts_count df phrase m c :
  In (m, c) (_phrase_counts_by_month df phrase) ->
  c = List.length (filter (fun e => (month_label (date e) =? m)
                                    && _phrase_matches_entry (text e) phrase) df).
Proof.
  unfold _phrase_counts_by_month. intros H.
  apply in_map_iff in H as (m' & Heq & _). inversion Heq; subst.
  rewrite filter_map_length. reflexivity.
Qed.

(** Labels compare as their months do. *)
Lemma digit_code n : nat_of_ascii (digit n) = 48 + n mod 10.
Proof.
  unfold digit. apply nat_ascii_embedding.
  pose proof (Nat.mod_upper_bound n 10). lia.
Qed.

Lemma digit_inj a b : digit a = digit b -> a mod 10 = b mod 10.
Proof.
  intros H. apply (f_equal nat_of_ascii) in H. rewrite !digit_code in H. lia.
Qed.

Definition label_of (a3 a2 a1 a0 b1 b0 : nat) : string :=
  String (digit a3) (String (digit a2) (String (digit a1) (String (digit a0)
    (String "-" (String (digit b1) (String (digit b0) "")))))).

Lemma label_of_lt a3 a2 a1 a0 b1 b0 c3 c2 c1 c0 d1 d0 :
  str_lt (label_of a3 a2 a1 a0 b1 b0) (label_of c3 c2 c1 c0 d1 d0) ->
  a3 mod 10 < c3 mod 10 \/ (a3 mod 10 = c3 mod 10 /\
  (a2 mod 10 < c2 mod 10 \/ (a2 mod 10 = c2 mod 10 /\
  (a1 mod 10 < c1 mod 10 \/ (a1 mod 10 = c1 mod 10 /\
  (a0 mod 10 < c0 mod 10 \/ (a0 mod 10 = c0 mod 10 /\
  (b1 mod 10 < d1 mod 10 \/ (b1 mod 10 = d1 mod 10 /\
   b0 mod 10 < d0 mod 10))))))))).
Proof.
  intros H. apply String_as_OT.cmp_lt in H. unfold label_of in H.
  repeat match goal with
  | H : String_as_OT.lt _ _ |- _ => inversion H; subst; clear H
  | H : String_as_OT.lts _ _ |- _ => inversion H; subst; clear H
  | H : digit _ = digit _ |- _ => apply digit_inj in H
  | H : nat_of_ascii (digit _) < nat_of_ascii (digit _) |- _ => rewrite !digit_code in H
  | H : nat_of_ascii "-" < nat_of_ascii "-" |- _ => exfalso; exact (Nat.lt_irrefl _ H)
  end; lia.
Qed.

Lemma div_100 n : n / 100 = n / 10 / 10.
Proof. rewrite Nat.Div0.div_div. reflexivity. Qed.

Lemma div_1000 n : n / 1000 = n / 10 / 10 / 10.
Proof. rewrite !Nat.Div0.div_div. reflexivity. Qed.

Ltac digits_of n :=
  pose proof (Nat.div_mod_eq n 10);
  pose proof (Nat.mod_upper_bound n 10 ltac:(discriminate)).

Lemma label_lt_month_before (d d' : Date) :
  Spec.valid_date d -> Spec.valid_date d' ->
  str_lt (month_label d) (month_label d') -> Spec.month_before d d'.
Proof.
  intros (Hy & Hm & _) (Hy' & Hm' & _) H.
  change (month_label d)
    with (label_of (year d / 1000) (year d / 100) (year d / 10) (year d)
                   (month d / 10) (month d)) in H.
  change (month_label d')
    with (label_of (year d' / 1000) (year d' / 100) (year d' / 10) (year d')
                   (month d' / 10) (month d')) in H.
  apply label_of_lt in H. rewrite !div_100, !div_1000 in H.
  unfold Spec.month_before.
  digits_of (year d). digits_of (year d / 10). digits_of (year d / 10 / 10).
  digits_of (year d / 10 / 10 / 10).
  digits_of (year d'). digits_of (year d' / 10). digits_of (year d' / 10 / 10).
  digits_of (year d' / 10 / 10 / 10).
  digits_of (month d). digits_of (month d / 10).
  digits_of (month d'). digits_of (month d' / 10).
  lia.
Qed.

End PhraseFacts.

(** ** The JSON extractor *)

Module ExtractFacts.
Import PyStr Py Utils ReportBuilder StrFacts.

Definition one (c : ascii) : string := String c "".

Lemma upto_last_none c s : upto_last c s = None <-> Re.mem_char c s = false.
Proof.
  induction s as [|d s IH]; simpl; [tauto|].
  destruct (upto_last c s) as [t|].
  - split; [discriminate|]. intros H. apply orb_false_iff in H as [_ H].
    apply IH in H. discriminate.
  - rewrite (Ascii.eqb_sym c d). destruct (d =? c)%char; simpl.
    + split; discriminate.
    + split; [intros _; apply IH; reflexivity | reflexivity].
Qed.

Lemma upto_last_some c s t :
  upto_last c s = Some t <->
  exists mid post, s = t ++ post /\ t = mid ++ one c /\ Re.mem_char c post = false.
Proof.
  revert t. induction s as [|d s IH]; intros t; simpl.
  - split; [discriminate|]. intros (mid & post & H & -> & _).
    destruct mid; discriminate.
  - destruct (upto_last c s) as [u|] eqn:E.
    + split.
      * intros [= <-]. destruct (proj1 (IH u) eq_refl) as (mid & post & -> & -> & Hp).
        exists (String d mid), post. repeat split; assumption.
      * intros (mid & post & Hs & -> & Hp). f_equal.
        destruct mid as [|m mid]; simpl in Hs; injection Hs as <- Hs.
        -- exfalso. subst s. apply upto_last_none in Hp. congruence.
        -- f_equal. assert (Some u = Some (mid ++ one c)) as [= ->]; [|reflexivity].
           apply IH. exists mid, post. repeat split; assumption.
    + apply upto_last_none in E. destruct (d =? c)%char eqn:Edc.
      * apply Ascii.eqb_eq in Edc. subst d. split.
        -- intros [= <-]. exists "", s. repeat split. exact E.
        -- intros (mid & post & Hs & -> & Hp). f_equal.
           destruct mid as [|m mid]; [reflexivity|].
           simpl in Hs. injection Hs as <- Hs. exfalso. subst s.
           clear -E. induction mid; simpl in E.
           ++ rewrite Ascii.eqb_refl in E. discriminate.
           ++ apply orb_false_iff in E as [_ E]. auto.
      * split; [discriminate|]. intros (mid & post & Hs & -> & Hp).
        destruct mid as [|m mid]; simpl in Hs; injection Hs as <- Hs.
        -- rewrite Ascii.eqb_refl in Edc. discriminate.
        -- exfalso. subst s. clear -E. induction mid; simpl in E.
           ++ rewrite Ascii.eqb_refl in E. discriminate.
           ++ apply orb_false_iff in E as [_ E]. auto.
Qed.

(** Group 0 of the brace pattern: what lies between the first [{] and
    the last [}], both included. *)
Lemma brace_span_some s t :
  brace_span s = Some t <->
  exists pre mid post,
    s = pre ++ t ++ post /\ t = "{" ++ mid ++ "}" /\
    Re.mem_char "{" pre = false /\ Re.mem_char "}" post = false.
Proof.
  revert t. induction s as [|c s IH]; intros t; cbn [brace_span].
  - split; [discriminate|]. intros (pre & mid & post & Hs & -> & _).
    destruct pre; discriminate.
  - destruct (c =? "{")%char eqn:Ec.
    + apply Ascii.eqb_eq in Ec. subst c.
      destruct (upto_last "}" s) as [u|] eqn:E.
      * split.
        -- intros [= <-].
           apply upto_last_some in E as (mid & post & -> & -> & Hp).
           exists "", mid, post. repeat split. exact Hp.
        -- intros (pre & mid' & post' & Hs & -> & Hpre & Hpost).
           destruct pre as [|p pre]; cbn [append] in Hs; injection Hs as Hs.
           ++ assert (upto_last "}" s = Some (mid' ++ "}")) as E'.
              { apply upto_last_some. exists mid', post'. repeat split; assumption. }
              rewrite E in E'. injection E' as ->. reflexivity.
           ++ subst p. cbn [Re.mem_char] in Hpre. discriminate.
      * split.
        -- intros Hb. apply IH in Hb as (pre & mid & post & -> & -> & _ & Hpost).
           exfalso. apply upto_last_none in E. clear -E Hpost.
           induction pre; cbn [Re.mem_char append] in E.
           ++ apply orb_false_iff in E as [_ E].
              induction mid; cbn [Re.mem_char append] in E.
              ** rewrite Ascii.eqb_refl in E. discriminate.
              ** apply orb_false_iff in E as [_ E]. auto.
           ++ apply orb_false_iff in E as [_ E]. auto.
        -- intros (pre & mid & post & Hs & -> & Hpre & Hpost). exfalso.
           apply upto_last_none in E.
           destruct pre as [|p pre]; cbn [append] in Hs; injection Hs as Hs.
           ++ subst s. clear -E. induction mid; cbn [Re.mem_char append] in E.
              ** rewrite Ascii.eqb_refl in E. discriminate.
              ** apply orb_false_iff in E as [_ E]. auto.
           ++ subst p. cbn [Re.mem_char] in Hpre. discriminate.
    + rewrite IH. split.
      * intros (pre & mid & post & -> & -> & Hpre & Hpost).
        exists (String c pre), mid, post. repeat split; try assumption.
        cbn [Re.mem_char]. rewrite Ascii.eqb_sym, Ec. exact Hpre.
      * intros (pre & mid & post & Hs & -> & Hpre & Hpost).
        destruct pre as [|p pre]; cbn [append] in Hs; injection Hs as Hc Hs.
        -- subst c. discriminate.
        -- subst p. cbn [Re.mem_char] in Hpre. apply orb_false_iff in Hpre as [_ Hpre].
           exists pre, mid, post. repeat split; assumption.
Qed.

Section WithLibs.
Context `{PyLibs}.

Lemma loads_or_some s v otherwise :
  parse_attempt s = Some v -> loads_or s otherwise = v.
Proof. unfold loads_or. intros ->. reflexivity. Qed.

Lemma loads_or_none s otherwise :
  parse_attempt s = None -> loads_or s otherwise = otherwise.
Proof. unfold loads_or. intros ->. reflexivity. Qed.

End WithLibs.

End ExtractFacts.

(** ** The fenced attempts of the extractor *)

Module FenceFacts.
Import PyStr Py Utils ReportBuilder StrFacts Blocks.

Lemma app_inv_head (a x y : string) : a ++ x = a ++ y -> x = y.
Proof. induction a as [|c a IH]; cbn [append]; [auto|]. intros [= H]. auto. Qed.

Lemma substring_all m r : String.length r <= m -> substring 0 m r = r.
Proof.
  revert m. induction r as [|c r IH]; intros m Hm.
  - destruct m; reflexivity.
  - destruct m as [|m]; cbn [String.length] in Hm; [lia|].
    cbn [substring]. rewrite IH by lia. reflexivity.
Qed.

Lemma substring_skip p m r : substring (String.length p) m (p ++ r) = substring 0 m r.
Proof. induction p as [|c p IH]; [reflexivity|]. cbn [String.length append substring]. exact IH. Qed.

(** What follows [p] in a text that begins with it. *)
Lemma substring_after p r :
  substring (String.length p) (String.length (p ++ r)) (p ++ r) = r.
Proof.
  rewrite substring_skip. apply substring_all. rewrite length_app. lia.
Qed.

Lemma prefix_empty_hay needle : needle <> "" -> prefix needle "" = false.
Proof. destruct needle; [congruence | reflexivity]. Qed.

(** [find_split] finds the first occurrence. *)
Lemma find_split_iff needle hay pre rest :
  needle <> "" ->
  find_split needle hay = Some (pre, rest) <-> first_occurrence needle hay pre rest.
Proof.
  intros Hn. unfold first_occurrence. revert pre rest.
  induction hay as [|c hay IH]; intros pre rest.
  - cbn [find_split]. rewrite (prefix_empty_hay _ Hn). split; [discriminate|].
    intros [E _]. destruct pre; [|discriminate]. destruct needle; [congruence | discriminate].
  - cbn [find_split]. destruct (prefix needle (String c hay)) eqn:Ep.
    + apply prefix_iff in Ep as [r Er]. rewrite Er, substring_after. split.
      * intros [= <- <-]. split; [reflexivity|]. intros a b _. cbn. lia.
      * intros [E Hmin]. specialize (Hmin "" r eq_refl).
        destruct pre; [|cbn in Hmin; lia]. cbn [append] in E.
        apply app_inv_head in E. subst. reflexivity.
    + assert (Hpre : forall a b, String c hay = a ++ needle ++ b -> a <> "").
      { intros a b E ->. cbn [append] in E.
        assert (prefix needle (String c hay) = true)
          by (apply prefix_iff; exists b; exact E).
        congruence. }
      destruct (find_split needle hay) as [[a b]|] eqn:Ef.
      * destruct (proj1 (IH a b) eq_refl) as [Eh Hmin]. split.
        -- intros [= <- <-]. split; [cbn [append]; congruence|].
           intros a' b' E. pose proof (Hpre a' b' E) as Ha'.
           destruct a' as [|c' a']; [congruence|]. cbn [append] in E. injection E as _ E.
           specialize (Hmin a' b' E). cbn [String.length]. lia.
        -- intros [E Hmin']. pose proof (Hpre pre rest E) as Hp.
           destruct pre as [|c' pre]; [congruence|]. cbn [append] in E. injection E as <- E.
           assert (Some (a, b) = Some (pre, rest)) as [= -> ->]; [|reflexivity].
           apply IH. split; [exact E|]. intros a' b' E'.
           specialize (Hmin' (String c a') b'). cbn [append String.length] in Hmin'.
           rewrite E' in Hmin'. specialize (Hmin' eq_refl). lia.
      * split; [discriminate|]. intros [E Hmin'].
        pose proof (Hpre pre rest E) as Hp.
        destruct pre as [|c' pre]; [congruence|]. cbn [append] in E. injection E as <- E.
        assert (None = Some (pre, rest)); [|discriminate].
        apply IH. split; [exact E|]. intros a' b' E'.
        specialize (Hmin' (String c a') b'). cbn [append String.length] in Hmin'.
        rewrite E' in Hmin'. specialize (Hmin' eq_refl). lia.
Qed.

Lemma fence_nonempty : fence <> "".
Proof. discriminate. Qed.

(** The tag that [drop_prefix] removes. *)
Lemma drop_prefix_app p s :
  s = (if prefix p s then p else "") ++ drop_prefix p s.
Proof.
  unfold drop_prefix. destruct (prefix p s) eqn:E; [|reflexivity].
  apply prefix_iff in E as [r ->]. rewrite substring_after. reflexivity.
Qed.

Lemma lstrip_blanks_then_word blanks body :
  Spec.all_chars isspace blanks = true -> starts_word body = true ->
  lstrip (blanks ++ body) = body.
Proof.
  intros Hb Hw. induction blanks as [|c blanks IH]; cbn [append].
  - apply lstrip_word. exact Hw.
  - cbn [Spec.all_chars] in Hb. apply andb_true_iff in Hb as [Hc Hb].
    cbn [lstrip]. rewrite Hc. apply IH. exact Hb.
Qed.

(** What is after the first fence, once the tag is skipped when tags
    are. *)
Definition after_tag (tagged : bool) (after : string) : string :=
  if tagged then drop_prefix "json" after else after.

Lemma after_tag_app tagged after :
  after = (if tagged && prefix "json" after then "json" else "") ++ after_tag tagged after.
Proof.
  unfold after_tag. destruct tagged; cbn [andb]; [apply drop_prefix_app | reflexivity].
Qed.

(** Group 1 of the fence patterns. *)
Lemma fenced_group_iff tagged reply content :
  fenced_group tagged reply = Some content <-> fenced_block tagged reply content.
Proof.
  unfold fenced_group, fenced_block.
  change (fun after => if tagged then drop_prefix "json" after else after) with (after_tag tagged).
  split.
  - destruct (find_split fence reply) as [[pre after]|] eqn:E1; [|discriminate].
    apply (find_split_iff _ _ _ _ fence_nonempty) in E1.
    change (if tagged then drop_prefix "json" after else after) with (after_tag tagged after).
    destruct (find_split fence (lstrip (after_tag tagged after))) as [[c post]|] eqn:E2;
      [|discriminate].
    intros [= ->].
    apply (find_split_iff _ _ _ _ fence_nonempty) in E2.
    destruct (lstrip_decomp (after_tag tagged after)) as (blanks & Eb & Hb & Hl).
    destruct E2 as [E2 Hmin].
    exists pre, after, (if tagged && prefix "json" after then "json" else ""), blanks, post.
    split; [exact E1|]. split; [reflexivity|].
    split; [rewrite <- E2, <- Eb; apply after_tag_app|].
    split; [exact Hb|]. rewrite <- E2.
    split.
    + destruct Hl as [Hl|Hl]; [|exact Hl]. rewrite Hl in E2.
      destruct content; discriminate.
    + split; [exact E2 | exact Hmin].
  - intros (pre & after & tag & blanks & post & H1 & Ht & Ha & Hb & Hw & H2).
    apply (find_split_iff _ _ _ _ fence_nonempty) in H1. rewrite H1.
    change (if tagged then drop_prefix "json" after else after) with (after_tag tagged after).
    assert (Hat : after_tag tagged after = blanks ++ content ++ fence ++ post).
    { pose proof (after_tag_app tagged after) as E. rewrite <- Ht in E.
      rewrite Ha in E at 1. apply app_inv_head in E. symmetry. exact E. }
    rewrite Hat, (lstrip_blanks_then_word _ _ Hb Hw).
    apply (find_split_iff _ _ _ _ fence_nonempty) in H2. rewrite H2. reflexivity.
Qed.

End FenceFacts.

(** ** The report without a credential *)

Module ReportFacts.
Import PyStr Py Utils ReportBuilder Report StrFacts.

Section WithLibs.
Context `{PyLibs}.

(** The trend sections when no summary can be asked for. *)
Definition trend_placeholder (entries_df : list Entry) (kw : string) : TrendSection :=
  mkTrend kw
    (_bar_chart_html (_phrase_counts_by_month entries_df kw) "month" "count"
       ("Occurrences of " ++ dq ++ kw ++ dq ++ " by month") "#DD4633")
    placeholder.

(** The narrative made of placeholders only. *)
Definition narrative_placeholder (entries_df : list Entry)
    (trend_keywords : list string) : Narrative :=
  mkNarrative placeholder placeholder placeholder placeholder
    (map (trend_placeholder entries_df) trend_keywords).

Lemma overall_summary_absent api_key overall_text prompt w :
  key_absent api_key = true ->
  overall_summary api_key overall_text prompt w = (Ok placeholder, w).
Proof. intros Hk. unfold overall_summary. rewrite Hk. reflexivity. Qed.

Lemma trend_section_absent entries_df api_key kw w :
  key_absent api_key = true ->
  trend_section entries_df api_key kw w = (Ok (trend_placeholder entries_df kw), w).
Proof.
  intros Hk. unfold trend_section. rewrite Hk. cbn [negb andb].
  unfold bind, ret. rewrite !app_assoc. reflexivity.
Qed.

Lemma trend_loop_absent entries_df api_key trend_keywords w :
  key_absent api_key = true ->
  trend_loop entries_df api_key trend_keywords w
  = (Ok (map (trend_placeholder entries_df) trend_keywords), w).
Proof.
  intros Hk. induction trend_keywords as [|kw kws IH]; [reflexivity|].
  cbn [trend_loop map]. unfold bind at 1.
  rewrite (trend_section_absent _ _ _ _ Hk).
  unfold bind at 1. rewrite IH. reflexivity.
Qed.

Lemma build_report_absent entries_df trend_keywords api_key date_from date_to w :
  key_absent api_key = true ->
  build_report entries_df trend_keywords api_key date_from date_to w
  = (Ok (report_path (clock w)),
     World (clock w) (remote w) (sent w)
           (if existsb (String.eqb reports_dir) (dirs w) then dirs w
            else reports_dir :: dirs w)
           ((report_path (clock w),
             document (clock w) date_from date_to (List.length entries_df)
                      (narrative_placeholder entries_df trend_keywords))
            :: files w)).
Proof.
  intros Hk. unfold build_report.
  unfold bind at 1. unfold _ensure_reports_dir at 1.
  unfold bind at 1. unfold datetime_now at 1. cbn [clock].
  unfold bind at 1. rewrite (overall_summary_absent _ _ _ _ Hk).
  unfold bind at 1. rewrite (overall_summary_absent _ _ _ _ Hk).
  rewrite Hk. cbn [negb andb].
  unfold bind at 1. unfold ret at 1.
  unfold bind at 1. rewrite (trend_loop_absent _ _ _ _ Hk).
  unfold bind at 1. unfold write_file at 1. cbn.
  unfold ret, report_path, document, narrative_placeholder. reflexivity.
Qed.

(** Consecutive parts of the body appear in the document, one line
    after the other. *)
Lemma contains_here (x post : string) : contains x (x ++ post) = true.
Proof. apply contains_iff. exists "", post. reflexivity. Qed.

Lemma contains_app_r (x a b : string) :
  contains x b = true -> contains x (a ++ b) = true.
Proof.
  rewrite !contains_iff. intros (pre & post & ->).
  exists (a ++ pre), post. rewrite app_assoc. reflexivity.
Qed.

Lemma contains_app_l (x a b : string) :
  contains x a = true -> contains x (a ++ b) = true.
Proof.
  rewrite !contains_iff. intros (pre & post & ->).
  exists pre, (post ++ b). rewrite !app_assoc. reflexivity.
Qed.

Lemma join_cons (sep a : string) (l : list string) :
  l <> [] -> join sep (a :: l) = a ++ sep ++ join sep l.
Proof. destruct l; [congruence | reflexivity]. Qed.

Lemma join_one_more (sep a : string) (l : list string) :
  exists tail, join sep (a :: l) = a ++ tail.
Proof.
  destruct l as [|b l]; [exists ""; symmetry; apply app_nil_r|].
  eexists. apply join_cons. discriminate.
Qed.

Lemma join_block_prefix (sep : string) (block l2 : list string) :
  block <> [] ->
  exists tail, join sep (block ++ l2) = join sep block ++ tail.
Proof.
  induction block as [|a block IH]; [congruence|]. intros _.
  destruct block as [|b block].
  - apply join_one_more.
  - change ((a :: b :: block) ++ l2)%list with (a :: ((b :: block) ++ l2))%list.
    rewrite !join_cons by discriminate.
    destruct IH as [tail ->]; [discriminate|].
    exists tail. rewrite !app_assoc. reflexivity.
Qed.

Lemma contains_join (sep : string) (block l1 l2 : list string) :
  block <> [] ->
  contains (join sep block) (join sep (l1 ++ block ++ l2)) = true.
Proof.
  intros Hb. induction l1 as [|x l1 IH].
  - cbn [List.app]. destruct (join_block_prefix sep block l2 Hb) as [tail ->].
    apply contains_here.
  - change ((x :: l1) ++ block ++ l2)%list with (x :: (l1 ++ block ++ l2))%list.
    rewrite join_cons.
    + apply contains_app_r, contains_app_r. exact IH.
    + destruct l1, block; try discriminate. congruence.
Qed.

(** A run of consecutive parts of the body. *)
Definition in_body (block : list string) (now : datetime)
    (date_from date_to : Date) (n_entries : nat) (t : Narrative) : Prop :=
  exists l1 l2,
    body_parts now (isoformat date_from) (isoformat date_to) n_entries t
    = (l1 ++ block ++ l2)%list.

Lemma document_shows block now date_from date_to n_entries t :
  block <> [] ->
  in_body block now date_from date_to n_entries t ->
  contains (join nl block) (document now date_from date_to n_entries t) = true.
Proof.
  intros Hb (l1 & l2 & E). unfold document, full_doc. rewrite E.
  apply contains_app_r, contains_app_r, contains_app_r, contains_app_l.
  apply contains_join. exact Hb.
Qed.

Lemma body_overall_activity now date_from date_to n_entries t :
  in_body ["<h2>Overall activity</h2>"; "<p>" ++ activity_summary t ++ "</p>"]
          now date_from date_to n_entries t.
Proof.
  unfold in_body. set (parts := body_parts _ _ _ _ _).
  exists (firstn 5 parts), (skipn 7 parts). reflexivity.
Qed.

Lemma body_overall_emotion now date_from date_to n_entries t :
  in_body ["<h2>Overall emotion</h2>"; "<p>" ++ emotion_summary t ++ "</p>"]
          now date_from date_to n_entries t.
Proof.
  unfold in_body. set (parts := body_parts _ _ _ _ _).
  exists (firstn 8 parts), (skipn 10 parts). reflexivity.
Qed.

Lemma body_obs_activity now date_from date_to n_entries t :
  in_body ["<h3>Activity</h3>"; wrap_p (obs_activity t)]
          now date_from date_to n_entries t.
Proof.
  unfold in_body. set (parts := body_parts _ _ _ _ _).
  exists (firstn 12 parts), (skipn 14 parts). reflexivity.
Qed.

Lemma body_obs_emotion now date_from date_to n_entries t :
  in_body ["<h3>Emotion</h3>"; wrap_p (obs_emotion t)]
          now date_from date_to n_entries t.
Proof.
  unfold in_body. set (parts := body_parts _ _ _ _ _).
  exists (firstn 14 parts), (skipn 16 parts). reflexivity.
Qed.

Definition trend_block (sec : TrendSection) : list string :=
  [ "<h3>" ++ dq ++ keyword sec ++ dq ++ "</h3>";
    chart_html sec;
    "<p>" ++ summary sec ++ "</p>" ].

Lemma body_trend now date_from date_to n_entries t sec :
  In sec (trend_sections t) ->
  in_body (trend_block sec) now date_from date_to n_entries t.
Proof.
  intros Hin. unfold in_body, body_parts.
  match goal with
  | |- exists l1 l2, List.app ?A (List.app _ ?B) = _ =>
      generalize A as before; generalize B as after
  end.
  intros after before.
  apply in_split in Hin as (a & b & ->).
  exists (before ++ "<h2>Trends by phrase</h2>" :: flat_map trend_block a)%list,
         (flat_map trend_block b ++ hr :: after)%list.
  destruct (a ++ sec :: b)%list as [|s0 secs] eqn:E; [destruct a; discriminate|].
  rewrite <- E. clear E s0 secs.
  change (fun sec0 : TrendSection =>
            [ "<h3>" ++ dq ++ keyword sec0 ++ dq ++ "</h3>";
              chart_html sec0; "<p>" ++ summary sec0 ++ "</p>" ])
    with trend_block.
  rewrite flat_map_app. cbn [flat_map].
  rewrite <- !List.app_assoc. cbn [List.app]. rewrite <- !List.app_assoc.
  reflexivity.
Qed.

End WithLibs.

End ReportFacts.

(** ** Regular expressions *)

Module ReFacts.
Import PyStr Re StrFacts.

(** What a regular expression matches. *)
Inductive matches (ic : bool) : regex -> string -> Prop :=
| m_eps : matches ic Eps ""
| m_chr c d : chr_eq ic c d = true -> matches ic (Chr c) (String d "")
| m_dot d : is_newline d = false -> matches ic Dot (String d "")
| m_cat a b s t : matches ic a s -> matches ic b t -> matches ic (Cat a b) (s ++ t)
| m_alt_l a b s : matches ic a s -> matches ic (Alt a b) s
| m_alt_r a b s : matches ic b s -> matches ic (Alt a b) s
| m_star_nil a : matches ic (Star a) ""
| m_star_more a s t :
    matches ic a s -> matches ic (Star a) t -> matches ic (Star a) (s ++ t).

Section Matching.
Variable ic : bool.

Lemma nullable_iff r : nullable r = true <-> matches ic r "".
Proof.
  induction r; simpl.
  - split; [discriminate | inversion 1].
  - split; [constructor | reflexivity].
  - split; [discriminate | inversion 1].
  - split; [discriminate | inversion 1].
  - rewrite andb_true_iff, IHr1, IHr2. split.
    + intros [H1 H2]. change "" with ("" ++ ""). constructor; assumption.
    + inversion 1 as [| | |? ? s t Hs Ht E| | | |]; subst.
      destruct s; [|discriminate]. simpl in *. subst. tauto.
  - rewrite orb_true_iff, IHr1, IHr2. split.
    + intros [H1|H2]; [apply m_alt_l | apply m_alt_r]; assumption.
    + inversion 1; subst; tauto.
  - split; [constructor | reflexivity].
Qed.

(** A non-empty match of a star starts with a non-empty match of its
    body. *)
Lemma star_cons a c s :
  matches ic (Star a) (String c s) ->
  exists s1 s2, s = s1 ++ s2 /\ matches ic a (String c s1) /\ matches ic (Star a) s2.
Proof.
  intros H. remember (Star a) as r eqn:Er. remember (String c s) as u eqn:Eu.
  revert c s Eu. induction H; try discriminate; intros c0 s0 Eu.
  injection Er as ->. destruct s as [|d s].
  - simpl in Eu. subst t. apply IHmatches2; reflexivity.
  - simpl in Eu. injection Eu as -> <-. exists s, t. auto.
Qed.

Lemma cat_cons a b c s :
  matches ic (Cat a b) (String c s) <->
  (exists s1 s2, s = s1 ++ s2 /\ matches ic a (String c s1) /\ matches ic b s2)
  \/ (matches ic a "" /\ matches ic b (String c s)).
Proof.
  split.
  - intros H. remember (Cat a b) as r eqn:Er. remember (String c s) as w eqn:Ew.
    destruct H as [| | |a' b' u t Hu Ht| | | |]; try discriminate.
    injection Er as -> ->. destruct u as [|d u]; simpl in Ew.
    + right. subst t. tauto.
    + injection Ew as -> <-. left. eauto.
  - intros [(s1 & s2 & -> & H1 & H2) | [H1 H2]].
    + change (String c (s1 ++ s2)) with (String c s1 ++ s2). constructor; assumption.
    + change (String c s) with ("" ++ String c s). constructor; assumption.
Qed.

Lemma deriv_iff r c s : matches ic (deriv ic c r) s <-> matches ic r (String c s).
Proof.
  revert s. induction r; intros s; simpl.
  - split; inversion 1.
  - split; inversion 1.
  - destruct (chr_eq ic c0 c) eqn:E; split; inversion 1; subst.
    + constructor. exact E.
    + constructor.
    + congruence.
  - destruct (is_newline c) eqn:E; split; inversion 1; subst.
    + congruence.
    + constructor. exact E.
    + constructor.
  - assert (Hcat : matches ic (Cat (deriv ic c r1) r2) s <->
                   exists s1 s2, s = s1 ++ s2 /\ matches ic r1 (String c s1)
                                 /\ matches ic r2 s2).
    { split.
      - inversion 1; subst. eexists _, _. split; [reflexivity|].
        split; [apply IHr1|]; assumption.
      - intros (s1 & s2 & -> & H1 & H2). constructor; [apply IHr1|]; assumption. }
    rewrite cat_cons. destruct (nullable r1) eqn:N.
    + split.
      * inversion 1; subst; [left; apply Hcat; assumption|].
        right. split; [apply nullable_iff; exact N | apply IHr2; assumption].
      * intros [H|[_ H]]; [apply m_alt_l, Hcat; exact H | apply m_alt_r, IHr2; exact H].
    + rewrite Hcat. split; [tauto|]. intros [H|[H _]]; [exact H|].
      apply nullable_iff in H. congruence.
  - split.
    + inversion 1; subst; [apply m_alt_l, IHr1 | apply m_alt_r, IHr2]; assumption.
    + inversion 1; subst; [apply m_alt_l, IHr1 | apply m_alt_r, IHr2]; assumption.
  - split.
    + inversion 1; subst.
      change (String c (s0 ++ t)) with (String c s0 ++ t).
      constructor; [apply IHr|]; assumption.
    + intros H. apply star_cons in H as (s1 & s2 & -> & H1 & H2).
      constructor; [apply IHr|]; assumption.
Qed.

Lemma match_prefix_iff r s :
  match_prefix ic r s = true <-> exists m post, s = m ++ post /\ matches ic r m.
Proof.
  revert r. induction s as [|c s IH]; intros r; cbn [match_prefix].
  - rewrite orb_false_r, nullable_iff. split.
    + intros H. exists "", "". auto.
    + intros (m & post & E & H). destruct m; [exact H | discriminate].
  - rewrite orb_true_iff, nullable_iff, IH. split.
    + intros [H | (m & post & -> & H)].
      * exists "", (String c s). auto.
      * exists (String c m), post. split; [reflexivity | apply deriv_iff; exact H].
    + intros (m & post & E & H). destruct m as [|d m].
      * left. exact H.
      * right. simpl in E. injection E as <- ->. exists m, post.
        split; [reflexivity | apply deriv_iff; exact H].
Qed.

Lemma search_iff r s :
  search ic r s = true <-> exists pre m post, s = pre ++ m ++ post /\ matches ic r m.
Proof.
  induction s as [|c s IH]; cbn [search].
  - rewrite orb_false_r, match_prefix_iff. split.
    + intros (m & post & E & H). exists "", m, post. auto.
    + intros (pre & m & post & E & H). destruct pre; [|discriminate].
      exists m, post. auto.
  - rewrite orb_true_iff, match_prefix_iff, IH. split.
    + intros [(m & post & E & H) | (pre & m & post & -> & H)].
      * exists "", m, post. auto.
      * exists (String c pre), m, post. auto.
    + intros (pre & m & post & E & H). destruct pre as [|d pre].
      * left. exists m, post. auto.
      * right. simpl in E. injection E as <- ->. exists pre, m, post. auto.
Qed.

End Matching.

End ReFacts.

(** ** The keyword pattern *)

Module PatternFacts.
Import PyStr Re Utils StrFacts ReFacts.

Definition star : ascii := "*"%char.

(** What a character of a phrase becomes in the pattern. *)
Definition wild_char (c : ascii) : string :=
  if (c =? star)%char then ".*"
  else if is_special c then String "\" (String c "")
  else String c "".

Fixpoint wild_spec (p : string) : string :=
  match p with
  | "" => ""
  | String c r => wild_char c ++ wild_spec r
  end.

Lemma escape_no_star_first r x : escape r <> String star x.
Proof.
  destruct r as [|c r]; cbn [escape]; [discriminate|].
  destruct (is_special c) eqn:E; [discriminate|].
  intros [= -> _]. discriminate.
Qed.

Lemma no_occurrence_here c r : c <> star -> prefix "\*" (String c (escape r)) = false.
Proof.
  intros Hc. destruct (prefix "\*" (String c (escape r))) eqn:E; [|reflexivity].
  apply prefix_iff in E as [x E]. cbn [append] in E. injection E as -> E.
  destruct (escape r) eqn:Er; [discriminate|].
  injection E as -> _. exfalso. exact (escape_no_star_first _ _ Er).
Qed.

Lemma no_occurrence_second c d r : d <> star -> prefix "\*" (String c (String d r)) = false.
Proof.
  intros Hd. destruct (prefix "\*" (String c (String d r))) eqn:E; [|reflexivity].
  apply prefix_iff in E as [x E]. cbn [append] in E. injection E as _ E _.
  contradiction.
Qed.

Lemma wild_is_wild_spec p : wild p = wild_spec p.
Proof.
  unfold wild, replace. induction p as [|c p IH]; [reflexivity|].
  cbn [escape wild_spec]. unfold wild_char.
  destruct (c =? star)%char eqn:Ec.
  - apply Ascii.eqb_eq in Ec. subst c.
    change (is_special star) with true. cbn [replace_from].
    change (String "\" (String star (escape p))) with ("\*" ++ escape p) at 1.
    rewrite prefix_app. cbn [String.length Nat.sub replace_from append].
    rewrite IH. reflexivity.
  - apply Ascii.eqb_neq in Ec. destruct (is_special c) eqn:Es.
    + cbn [replace_from].
      rewrite (no_occurrence_second "\" c (escape p) Ec).
      cbn [replace_from].
      rewrite (no_occurrence_here c p Ec). rewrite IH. reflexivity.
    + cbn [replace_from]. rewrite (no_occurrence_here c p Ec), IH. reflexivity.
Qed.

(** The special characters are not letters or digits, and every
    character the scanner treats apart is special. *)
Lemma special_not_alnum c : is_special c = true -> isalnum c = false.
Proof.
  unfold is_special, special_chars. cbn [append mem_char]. intros H.
  repeat (apply orb_true_iff in H as [H|H];
          [apply Ascii.eqb_eq in H; subst c; reflexivity|]).
  discriminate.
Qed.

Lemma not_special c :
  is_special c = false ->
  (c =? "\")%char = false /\ (c =? "(")%char = false /\ (c =? ")")%char = false /\
  (c =? "|")%char = false /\ (c =? ".")%char = false /\ (c =? "*")%char = false /\
  mem_char c unsupported = false.
Proof.
  unfold is_special, special_chars, unsupported. cbn [append mem_char]. intros H.
  repeat (apply orb_false_iff in H as [? H]).
  repeat split; try assumption.
  repeat (apply orb_false_iff; split; try assumption).
Qed.

(** The tokens of a phrase. *)
Definition tok (c : ascii) : list token :=
  if (c =? star)%char then [TDot; TStar] else [TChar c].

Definition tokens (p : string) : list token :=
  flat_map tok (list_ascii_of_string p).

Lemma lex_wild_char c rest :
  lex (wild_char c ++ rest) = option_map (List.app (tok c)) (lex rest).
Proof.
  unfold wild_char, tok. destruct (c =? star)%char eqn:Ec.
  - cbn. destruct (lex rest); reflexivity.
  - destruct (is_special c) eqn:Es.
    + cbn [append lex]. rewrite Ascii.eqb_refl, (special_not_alnum c Es).
      destruct (lex rest); reflexivity.
    + destruct (not_special c Es) as (H1 & H2 & H3 & H4 & H5 & H6 & H7).
      cbn [append lex]. rewrite H1, H2, H3, H4, H5, H6, H7.
      destruct (lex rest); reflexivity.
Qed.

Lemma lex_wild_spec p rest :
  lex (wild_spec p ++ rest) = option_map (List.app (tokens p)) (lex rest).
Proof.
  unfold tokens. induction p as [|c p IH]; cbn [wild_spec list_ascii_of_string flat_map].
  - cbn [append]. destruct (lex rest); reflexivity.
  - rewrite app_assoc, lex_wild_char, IH.
    destruct (lex rest); cbn [option_map]; [|reflexivity].
    rewrite List.app_assoc. reflexivity.
Qed.

Definition group_tokens (p : string) : list token :=
  TOpen :: (tokens p ++ [TClose])%list.

Fixpoint pattern_tokens (parts : list string) : list token :=
  match parts with
  | [] => []
  | [p] => group_tokens p
  | p :: ps => (group_tokens p ++ TBar :: pattern_tokens ps)%list
  end.

Lemma lex_group p rest :
  lex ("(?:" ++ wild p ++ ")" ++ rest)
  = option_map (List.app (group_tokens p)) (lex rest).
Proof.
  rewrite wild_is_wild_spec. unfold group_tokens.
  change ("(?:" ++ wild_spec p ++ ")" ++ rest)
    with (String "(" (String "?" (String ":" (wild_spec p ++ (String ")" rest))))).
  cbn [lex].
  change ("(" =? "\")%char with false. change ("(" =? "(")%char with true.
  change (("?" =? "?") && (":" =? ":"))%char with true. cbv iota.
  rewrite lex_wild_spec. cbn [lex].
  change (")" =? "\")%char with false. change (")" =? "(")%char with false.
  change (")" =? ")")%char with true. cbv iota.
  destruct (lex rest); cbn [option_map]; [|reflexivity].
  cbn [List.app]. rewrite <- List.app_assoc. reflexivity.
Qed.

Lemma lex_pattern parts : lex (keyword_pattern parts) = Some (pattern_tokens parts).
Proof.
  unfold keyword_pattern, join. induction parts as [|p ps IH]; [reflexivity|].
  destruct ps as [|q ps].
  - cbn [map String.concat pattern_tokens].
    rewrite <- (app_nil_r ("(?:" ++ wild p ++ ")")), !app_assoc, lex_group.
    cbn [lex option_map]. rewrite List.app_nil_r. reflexivity.
  - set (f := fun p0 : string => "(?:" ++ wild p0 ++ ")") in *.
    change (String.concat "|" (map f (p :: q :: ps)))
      with (f p ++ String "|" (String.concat "|" (map f (q :: ps)))).
    set (X := String.concat "|" (map f (q :: ps))) in *.
    unfold f at 1. rewrite !app_assoc, lex_group.
    cbn [lex].
    change ("|" =? "\")%char with false. change ("|" =? "(")%char with false.
    change ("|" =? ")")%char with false. change ("|" =? "|")%char with true.
    cbv iota. rewrite IH. reflexivity.
Qed.

(** The expression of a phrase. *)
Definition item (c : ascii) : regex :=
  if (c =? star)%char then Star Dot else Chr c.

Definition items (p : string) : list regex := map item (list_ascii_of_string p).

Definition seq_of (l : list regex) : regex := fold_right Cat Eps l.

Definition phrase_regex (p : string) : regex := seq_of (items p).

Definition branch (p : string) : regex := Cat (phrase_regex p) Eps.

Lemma mk_seq_rev l : mk_seq (rev l) = seq_of l.
Proof.
  unfold mk_seq, seq_of.
  rewrite <- (rev_involutive l) at 2. rewrite fold_left_rev_right. reflexivity.
Qed.

Lemma parse_tokens p f below rest :
  parse (f :: below) (tokens p ++ rest)
  = parse (Frame (alts f) (rev (items p) ++ cur f) :: below) rest.
Proof.
  unfold tokens, items. revert f.
  induction (list_ascii_of_string p) as [|c l IH]; intros f.
  - destruct f; reflexivity.
  - cbn [flat_map map rev]. rewrite <- !List.app_assoc. unfold tok at 1, item at 2.
    destruct (c =? star)%char.
    + cbn [List.app parse push_item cur alts]. rewrite IH. reflexivity.
    + cbn [List.app parse push_item]. rewrite IH. reflexivity.
Qed.

Lemma parse_group p f below rest :
  parse (f :: below) (group_tokens p ++ rest)
  = parse (push_item (phrase_regex p) f :: below) rest.
Proof.
  unfold group_tokens. cbn [List.app parse].
  rewrite <- List.app_assoc, parse_tokens. cbn [List.app parse cur alts].
  unfold close_frame. cbn [cur alts rev List.app mk_alt].
  rewrite List.app_nil_r, mk_seq_rev. reflexivity.
Qed.

Lemma parse_pattern parts done :
  parts <> [] ->
  parse [Frame done []] (pattern_tokens parts)
  = Some (mk_alt (rev done ++ map branch parts)).
Proof.
  revert done. induction parts as [|p ps IH]; intros done Hne; [congruence|].
  destruct ps as [|q ps].
  - cbn [pattern_tokens map]. rewrite <- (List.app_nil_r (group_tokens p)), parse_group.
    reflexivity.
  - change (pattern_tokens (p :: q :: ps))
      with (group_tokens p ++ TBar :: pattern_tokens (q :: ps))%list.
    rewrite parse_group. cbn [parse push_item cur alts].
    rewrite IH by discriminate.
    cbn [rev map]. rewrite <- List.app_assoc. reflexivity.
Qed.

(** The pattern always compiles, to the alternatives of its phrases. *)
Lemma compile_pattern parts :
  parts <> [] ->
  compile (keyword_pattern parts) = Some (mk_alt (map branch parts)).
Proof.
  intros Hne. unfold compile. rewrite lex_pattern.
  apply (parse_pattern parts [] Hne).
Qed.

Section Meaning.
Variable ic : bool.

Lemma matches_mk_alt bs s :
  matches ic (mk_alt bs) s <-> exists b, In b bs /\ matches ic b s.
Proof.
  induction bs as [|b bs IH]; [split; [inversion 1 | intros (? & [] & _)]|].
  destruct bs as [|b' bs].
  - cbn [mk_alt]. split.
    + intros H. exists b. split; [left; reflexivity | exact H].
    + intros (x & [<-|[]] & H). exact H.
  - change (mk_alt (b :: b' :: bs)) with (Alt b (mk_alt (b' :: bs))). split.
    + inversion 1; subst.
      * exists b. split; [left; reflexivity | assumption].
      * apply IH in H3 as (x & Hx & Hm). exists x. split; [right; exact Hx | exact Hm].
    + intros (x & [<-|Hx] & Hm); [apply m_alt_l; exact Hm|].
      apply m_alt_r, IH. exists x. auto.
Qed.

Lemma matches_cat_eps r s : matches ic (Cat r Eps) s <-> matches ic r s.
Proof.
  split.
  - inversion 1; subst.
    match goal with H : matches ic Eps _ |- _ => inversion H; subst end.
    rewrite app_nil_r. assumption.
  - intros H. rewrite <- (app_nil_r s). constructor; [exact H | constructor].
Qed.

Lemma matches_star_dot g :
  matches ic (Star Dot) g <-> Spec.all_chars Spec.not_newline g = true.
Proof.
  split.
  - intros H. remember (Star Dot) as r eqn:Er.
    induction H; try discriminate; [reflexivity|].
    injection Er as ->. rewrite all_chars_app, IHmatches2 by reflexivity.
    inversion H; subst. cbn [Spec.all_chars]. unfold Spec.not_newline.
    unfold is_newline in *.
    match goal with H : (_ =? _)%char = false |- _ => rewrite H end. reflexivity.
  - induction g as [|d g IH]; cbn [Spec.all_chars]; [constructor|].
    intros H. apply andb_true_iff in H as [Hd Hg].
    change (String d g) with (String d "" ++ g).
    constructor; [|apply IH; exact Hg].
    constructor. unfold Spec.not_newline in Hd. unfold is_newline.
    destruct (d =? "010")%char; [discriminate|reflexivity].
Qed.

End Meaning.

(** The expression of a phrase matches what the phrase, read with
    wildcards that stay on one line, matches. *)
Lemma matches_phrase p m :
  matches true (phrase_regex p) m <-> Spec.wild_match Spec.not_newline p m.
Proof.
  unfold phrase_regex, items. revert m.
  induction p as [|c p IH]; intros m; cbn [list_ascii_of_string map seq_of fold_right].
  - split; inversion 1; constructor.
  - fold (seq_of (map item (list_ascii_of_string p))). unfold item at 1.
    destruct (c =? star)%char eqn:Ec.
    + apply Ascii.eqb_eq in Ec. subst c. split.
      * inversion 1; subst. constructor; [apply (matches_star_dot true) | apply IH]; assumption.
      * inversion 1; subst; [|unfold star in *; congruence].
        constructor; [apply matches_star_dot | apply IH]; assumption.
    + apply Ascii.eqb_neq in Ec. split.
      * inversion 1; subst.
        match goal with H : matches true (Chr _) _ |- _ => inversion H; subst end.
        cbn [append]. constructor; [exact Ec | | apply IH; assumption].
        apply Ascii.eqb_eq. assumption.
      * inversion 1; subst; [unfold star in *; congruence|].
        change (String d s) with (String d "" ++ s).
        constructor; [|apply IH; assumption].
        constructor. cbn [chr_eq]. apply Ascii.eqb_eq. assumption.
Qed.

(** The keyword test on one text. *)
Lemma str_contains_iff parts text :
  parts <> [] ->
  str_contains (keyword_pattern parts) text = true <->
  exists p, In p parts /\ Spec.text_matches Spec.not_newline p text.
Proof.
  intros Hne. unfold str_contains. rewrite (compile_pattern parts Hne).
  rewrite search_iff. unfold Spec.text_matches. split.
  - intros (pre & m & post & E & H).
    apply matches_mk_alt in H as (b & Hb & Hm).
    apply in_map_iff in Hb as (p & <- & Hp).
    apply matches_cat_eps, matches_phrase in Hm.
    exists p. split; [exact Hp|]. exists pre, m, post. auto.
  - intros (p & Hp & pre & m & post & E & H).
    exists pre, m, post. split; [exact E|].
    apply matches_mk_alt. exists (branch p). split; [apply in_map; exact Hp|].
    apply matches_cat_eps, matches_phrase. exact H.
Qed.

End PatternFacts.

(** ** The report endpoint *)

Module ApiFacts.
Import PyStr Api.

Lemma is_relative_to_iff (p base : path) :
  is_relative_to p base = true <-> exists rest, p = (base ++ rest)%list.
Proof.
  revert p. induction base as [|b base IH]; intros p.
  - split; [intros _; exists p; reflexivity | destruct p; reflexivity].
  - destruct p as [|c p]; cbn [is_relative_to].
    + split; [discriminate | intros [rest E]; discriminate].
    + rewrite andb_true_iff, String.eqb_eq, IH. split.
      * intros [-> [rest ->]]. exists rest. reflexivity.
      * intros [rest E]. injection E as -> ->. split; [reflexivity | exists rest; reflexivity].
Qed.

Lemma get_report_cases fs reports filename :
  let p := resolve fs (joinpath reports filename) in
  get_report fs reports filename
  = if is_relative_to p reports then
      match regular_file fs p with
      | Some content => FileResponse p content "text/html"
      | None => HTTPException 404 "Report not found"
      end
    else HTTPException 404 "Report not found".
Proof.
  unfold get_report. cbv zeta.
  destruct (is_relative_to _ reports); reflexivity.
Qed.

End ApiFacts.

(** ** Excerpts and their budget *)

Module ExcerptFacts.
Import PyStr Utils ReportBuilder StrFacts.

Lemma total_len_app a b : Spec.total_len (a ++ b) = (Spec.total_len a + Spec.total_len b)%Z.
Proof.
  induction a as [|x a IH]; cbn [List.app Spec.total_len fold_right]; [reflexivity|].
  fold (Spec.total_len (a ++ b)). fold (Spec.total_len a). lia.
Qed.

Lemma length_take n s :
  String.length (take n s) <= n /\ String.length (take n s) <= String.length s.
Proof.
  revert s. induction n as [|n IH]; intros s; [cbn; lia|].
  destruct s as [|c s]; cbn [take String.length]; [lia|].
  destruct (IH s). lia.
Qed.

Lemma length_lstrip s : String.length (lstrip s) <= String.length s.
Proof.
  induction s as [|c s IH]; cbn [lstrip]; [lia|].
  destruct (isspace c); cbn [String.length]; lia.
Qed.

Lemma length_rstrip s : String.length (rstrip s) <= String.length s.
Proof.
  induction s as [|c s IH]; cbn [rstrip]; [lia|].
  destruct (rstrip s) as [|d r]; [destruct (isspace c)|]; cbn [String.length] in *; lia.
Qed.

Lemma length_strip s : String.length (strip s) <= String.length s.
Proof.
  unfold strip. pose proof (length_rstrip (lstrip s)). pose proof (length_lstrip s). lia.
Qed.

Lemma split_last_word_length s :
  String.length (fst (split_last_word s)) + String.length (snd (split_last_word s))
  = String.length s.
Proof.
  induction s as [|c s IH]; [reflexivity|]. cbn [split_last_word].
  destruct (split_last_word s) as [[|d h] w]; cbn [fst snd String.length] in *.
  - destruct (isspace c); cbn [fst snd String.length]; lia.
  - lia.
Qed.

Lemma rsplit1_head_length s s0 rest :
  rsplit1 s = s0 :: rest -> String.length s0 <= String.length s.
Proof.
  unfold rsplit1. pose proof (length_rstrip s) as Hs.
  destruct (rstrip s) as [|c r] eqn:E; [discriminate|].
  pose proof (split_last_word_length (String c r)) as Hsplit.
  destruct (split_last_word (String c r)) as [h w]. cbn [fst snd] in Hsplit.
  pose proof (length_rstrip h) as Hh.
  destruct (rstrip h) as [|d h']; intros [= <- _]; cbn [String.length] in *; lia.
Qed.

Lemma length_slice_to n s :
  (0 <= n)%Z -> (len (slice_to n s) <= n)%Z.
Proof.
  intros Hn. unfold slice_to, len.
  destruct (n <? 0)%Z eqn:E; [apply Z.ltb_lt in E; lia|].
  destruct (length_take (Z.to_nat n) s). lia.
Qed.

(** An excerpt is never longer than asked. *)
Lemma excerpt_length t m : (0 <= m)%Z -> (len (_excerpt t m) <= m)%Z.
Proof.
  intros Hm. unfold _excerpt.
  destruct (t =? "") eqn:Et.
  - apply String.eqb_eq in Et. subst t. cbn. exact Hm.
  - cbn [orb]. destruct (len t <=? m)%Z eqn:El.
    + apply Z.leb_le in El. pose proof (length_strip t). unfold len in *. lia.
    + pose proof (length_slice_to m t Hm) as Hcut.
      destruct (rsplit1 (slice_to m t)) as [|s0 rest] eqn:Er.
      * pose proof (length_strip (slice_to m t)). unfold len in *. lia.
      * pose proof (rsplit1_head_length _ _ _ Er). pose proof (length_strip s0).
        unfold len in *. lia.
Qed.

(** The fragments never add up to more than the budget. *)
Lemma accumulate_total b rows parts total :
  total = Spec.total_len parts -> (total <= Z.max 0 b)%Z ->
  (Spec.total_len (accumulate b rows parts total) <= Z.max 0 b)%Z.
Proof.
  revert parts total. induction rows as [|row rows IH]; intros parts total Ht Hle.
  - cbn [accumulate]. lia.
  - cbn [accumulate]. destruct (strip (text row) =? ""); [apply IH; assumption|].
    cbv zeta. set (t := strip (text row)).
    set (take := Z.min (len t) (b - total)).
    destruct (take <=? 0)%Z eqn:Etake; [lia|].
    apply Z.leb_gt in Etake.
    rewrite last_last.
    pose proof (excerpt_length t take ltac:(lia)) as Hex.
    assert (Hnew : (total + len (_excerpt t take))%Z = Spec.total_len (parts ++ [_excerpt t take])).
    { rewrite total_len_app. cbn [Spec.total_len fold_right]. lia. }
    assert (Hb : (total + len (_excerpt t take) <= Z.max 0 b)%Z) by (unfold take in *; lia).
    destruct (_ >=? _)%Z; [lia|]. apply IH; assumption.
Qed.

Lemma join_length (parts : list string) :
  len (join " " parts) = (Spec.total_len parts + Z.of_nat (pred (List.length parts)))%Z.
Proof.
  unfold join, len. induction parts as [|p parts IH]; [reflexivity|].
  destruct parts as [|q parts].
  - cbn [String.concat Spec.total_len fold_right List.length pred]. unfold len. lia.
  - change (String.concat " " (p :: q :: parts))
      with (p ++ " " ++ String.concat " " (q :: parts)).
    rewrite !length_app. cbn [Spec.total_len fold_right] in *. fold (Spec.total_len parts) in *.
    unfold len in *. cbn [String.length List.length pred] in *. lia.
Qed.

(** What [_build_grouped_excerpts] guarantees: every excerpt is fragments
    joined by spaces, the fragments are within the budget, and the excerpt
    exceeds their total by one character per separator. *)
Lemma excerpt_budget df col b g :
  In g (_build_grouped_excerpts df col b) ->
  exists parts,
    excerpts g = join " " parts
    /\ (Spec.total_len parts <= Z.max 0 b)%Z
    /\ len (excerpts g) = (Spec.total_len parts + Z.of_nat (pred (List.length parts)))%Z.
Proof.
  unfold _build_grouped_excerpts. intros H.
  apply in_map_iff in H as ([k rows] & <- & _). cbn [excerpts fst snd].
  exists (accumulate b rows [] 0). split; [reflexivity|]. split.
  - apply accumulate_total; [reflexivity | lia].
  - apply join_length.
Qed.

End ExcerptFacts.

(* ================================================================= *)
(** * Part III: the claims of the specification                       *)
(* ================================================================= *)

Import PyStr Py Utils ReportBuilder Report.

Example scenario_days :
  filter_entries (Some sample_entries) None None ["Friday"] [] "" = [entry1].
Proof. reflexivity. Qed.

Example scenario_keywords :
  filter_entries (Some sample_entries) None None [] [] "OCD, happy" = [entry1; entry3].
Proof. vm_compute. reflexivity. Qed.

Example scenario_counts :
  _phrase_counts_by_month sample_entries "happy" = [("2024-01", 0); ("2024-02", 1)].
Proof. vm_compute. reflexivity. Qed.

Example scenario_empty :
  filter_entries (Some []) None None [] [] "" = []
  /\ filter_entries_by_date_only None None None = [].
Proof. split; reflexivity. Qed.

(** C1 (amended). The keyword string is split on commas and each phrase is
    trimmed of its leading and trailing whitespace, empty phrases being
    dropped; the keyword constraint keeps, in order, the entries that pass
    the other constraints and whose text matches any one phrase, and it
    keeps all of them when no phrase remains.  In a phrase a star matches
    zero or more characters other than a line feed, and every other
    character matches itself, whatever its case.  So "OC*" matches a text
    that contains "OCD", and "happy, sad" keeps an entry that contains
    either word. *)
Theorem C1_keyword_constraint (df : option (list Entry))
    (date_from date_to : option Date) (days times : list string) (keywords : string) :
  let parts := keyword_parts keywords in
  Spec.pieces_of "," keywords (split_char "," keywords) /\
  (forall q, Spec.trimmed_of q (strip q)) /\
  (forall p, In p parts <->
             p <> "" /\ exists q, In q (split_char "," keywords) /\ p = strip q) /\
  (exists ok : Entry -> bool,
      filter_entries df date_from date_to days times keywords
      = filter ok (filter_entries df date_from date_to days times "")
      /\ forall e, ok e = true <->
                   (parts = [] \/
                    exists p, In p parts
                              /\ Spec.text_matches Spec.not_newline p (text e))) /\
  (forall t, contains "OCD" t = true -> Spec.text_matches Spec.not_newline "OC*" t) /\
  (forall rows e, In e rows -> contains "OCD" (text e) = true ->
                  In e (filter_entries (Some rows) None None [] [] "OC*")) /\
  (forall rows e, In e rows ->
                  contains "happy" (text e) = true \/ contains "sad" (text e) = true ->
                  In e (filter_entries (Some rows) None None [] [] "happy, sad")).
Proof.
  assert (Hsub : forall word t, Spec.all_chars (fun c => negb (c =? "*")%char) word = true ->
                                contains word t = true ->
                                Spec.text_matches Spec.not_newline word t).
  { intros word t Hw Hc. apply StrFacts.contains_iff in Hc as (pre & post & ->).
    exists pre, word, post. split; [reflexivity|]. clear pre post.
    induction word as [|c word IH]; [constructor|].
    cbn [Spec.all_chars] in Hw. apply andb_true_iff in Hw as [Hc Hw].
    constructor; [|reflexivity|apply IH; exact Hw].
    intros ->. discriminate. }
  assert (Hocd : forall t, contains "OCD" t = true ->
                           Spec.text_matches Spec.not_newline "OC*" t).
  { intros t Hc. apply StrFacts.contains_iff in Hc as (pre & post & ->).
    exists pre, "OC", ("D" ++ post). split; [reflexivity|].
    constructor; [discriminate|reflexivity|].
    constructor; [discriminate|reflexivity|].
    change "" with ("" ++ ""). constructor; [reflexivity|constructor]. }
  assert (Hin : forall rows kw e,
             In e rows -> keyword_parts kw <> [] ->
             (exists p, In p (keyword_parts kw)
                        /\ Spec.text_matches Spec.not_newline p (text e)) ->
             In e (filter_entries (Some rows) None None [] [] kw)).
  { intros rows kw e He Hne Hm.
    rewrite FilterFacts.filter_entries_filter. apply filter_In. split; [exact He|].
    unfold FilterFacts.passes, FilterFacts.keyword_ok. cbn [andb].
    destruct (negb (kw =? "")); [|reflexivity].
    destruct (keyword_parts kw) as [|p0 ps] eqn:E; [reflexivity|].
    apply PatternFacts.str_contains_iff; [discriminate | exact Hm]. }
  cbv zeta. split; [apply StrFacts.split_char_pieces_of|].
  split; [exact StrFacts.strip_trimmed_of|].
  split; [|split; [|split; [exact Hocd|split]]].
  - intros p. unfold keyword_parts. rewrite in_map_iff. split.
    + intros (q & <- & Hq). apply filter_In in Hq as [Hq Hne].
      split; [|exists q; auto].
      intros E. rewrite E in Hne. discriminate.
    + intros (Hne & q & Hq & ->). exists q. split; [reflexivity|].
      apply filter_In. split; [exact Hq|].
      apply String.eqb_neq in Hne. rewrite Hne. reflexivity.
  - exists (FilterFacts.keyword_ok keywords). split.
    + destruct df as [rows|]; [|reflexivity].
      rewrite !FilterFacts.filter_entries_filter, FilterFacts.filter_filter.
      apply filter_ext. intros e. unfold FilterFacts.passes.
      change (FilterFacts.keyword_ok "" e) with true. rewrite andb_true_r. reflexivity.
    + intros e. unfold FilterFacts.keyword_ok.
      destruct (keywords =? "") eqn:Ek.
      * apply String.eqb_eq in Ek. subst keywords. cbn [negb]. split; [|reflexivity].
        intros _. left. reflexivity.
      * cbn [negb]. destruct (keyword_parts keywords) as [|p0 ps] eqn:E.
        -- split; [intros _; left; reflexivity | reflexivity].
        -- rewrite PatternFacts.str_contains_iff by discriminate. split.
           ++ intros H. right. exact H.
           ++ intros [H|H]; [discriminate | exact H].
  - intros rows e He Hc. apply Hin; [exact He | discriminate |].
    exists "OC*". split; [left; reflexivity | apply Hocd; exact Hc].
  - intros rows e He Hc. apply Hin; [exact He | discriminate |].
    destruct Hc as [Hc|Hc].
    + exists "happy". split; [left; reflexivity|]. apply Hsub; [reflexivity | exact Hc].
    + exists "sad". split; [right; left; reflexivity|]. apply Hsub; [reflexivity | exact Hc].
Qed.

Lemma C1_witness :
  In entry1 (filter_entries (Some sample_entries) None None [] [] "OC*")
  /\ In entry3 (filter_entries (Some sample_entries) None None [] [] "happy, sad").
Proof.
  destruct (C1_keyword_constraint None None None [] [] "")
    as (_ & _ & _ & _ & _ & Hocd & Hor).
  split.
  - apply Hocd; [left; reflexivity | reflexivity].
  - apply Hor; [right; right; left; reflexivity | left; reflexivity].
Defined.

(** C1 as stated fails where a star would have to pass over a line feed:
    read with a star that matches any characters, the phrase "a*b" matches
    the two-line text, and the code drops the entry. *)
Lemma C1_counterexample :
  Spec.text_matches Spec.any_char "a*b" ("a" ++ nl ++ "b")
  /\ filter_entries
       (Some [mkEntry (mkDate 2024 1 5) "Friday" "morning" ("a" ++ nl ++ "b")])
       None None [] [] "a*b" = [].
Proof.
  split.
  - exists "", ("a" ++ nl ++ "b"), "". split; [reflexivity|].
    constructor; [discriminate|reflexivity|].
    constructor; [reflexivity|].
    constructor; [discriminate|reflexivity|constructor].
  - vm_compute. reflexivity.
Qed.

(** C2 (amended). A phrase matches an entry exactly when the text and the
    phrase are both non-empty and every whitespace-separated word of the
    phrase occurs in the text, whatever the case of the letters.  The
    phrase-by-month count has exactly one pair per month that has an entry
    in the collection, months without a match included with count zero;
    the count of a month is the number of its matching entries; and the
    month labels come in time order. *)
Theorem C2_phrase_counts_by_month (df : list Entry) (phrase : string) :
  Forall (fun e => Spec.valid_date (date e)) df ->
  let result := _phrase_counts_by_month df phrase in
  Spec.words_of phrase (split_ws phrase) /\
  (forall text,
      _phrase_matches_entry text phrase = true <->
      text <> "" /\ phrase <> "" /\
      forall w, In w (split_ws phrase) -> Spec.ci_substring w text) /\
  NoDup (map fst result) /\
  (forall m, In m (map fst result) <-> exists e, In e df /\ month_label (date e) = m) /\
  (forall m c, In (m, c) result ->
      c = List.length
            (filter (fun e => (month_label (date e) =? m)
                              && _phrase_matches_entry (text e) phrase) df)) /\
  (forall l1 m1 l2 m2 l3 e1 e2,
      map fst result = (l1 ++ m1 :: l2 ++ m2 :: l3)%list ->
      In e1 df -> In e2 df ->
      month_label (date e1) = m1 -> month_label (date e2) = m2 ->
      Spec.month_before (date e1) (date e2)).
Proof.
  intros Hvalid. cbv zeta. rewrite PhraseFacts.counts_months.
  pose proof (PhraseFacts.sorted_unique_sorted
                (map (fun e => month_label (date e)) df)) as Hsorted.
  split; [apply StrFacts.split_ws_words_of|].
  split; [intros text; apply PhraseFacts.phrase_matches_iff|].
  split; [apply PhraseFacts.sorted_NoDup; exact Hsorted|].
  split; [|split].
  - intros m. rewrite PhraseFacts.in_sorted_unique, in_map_iff.
    split; intros (e & H1 & H2); exists e; auto.
  - intros m c. apply PhraseFacts.counts_count.
  - intros l1 m1 l2 m2 l3 e1 e2 E He1 He2 <- <-. rewrite E in Hsorted.
    rewrite Forall_forall in Hvalid.
    apply PhraseFacts.label_lt_month_before; [apply Hvalid; exact He1 | apply Hvalid; exact He2|].
    exact (PhraseFacts.sorted_split _ _ _ _ _ Hsorted).
Qed.

Lemma sample_entries_valid : Forall (fun e => Spec.valid_date (date e)) sample_entries.
Proof.
  unfold sample_entries. repeat apply Forall_cons; try apply Forall_nil;
    unfold Spec.valid_date, entry1, entry2, entry3; cbn [date year month day]; lia.
Defined.

Lemma C2_witness :
  Forall (fun e => Spec.valid_date (date e)) sample_entries
  /\ NoDup (map fst (_phrase_counts_by_month sample_entries "very happy"))
  /\ Spec.month_before (date entry1) (date entry3).
Proof.
  split; [exact sample_entries_valid|].
  destruct (C2_phrase_counts_by_month sample_entries "very happy" sample_entries_valid)
    as (_ & _ & Hnodup & _ & _ & Horder).
  split; [exact Hnodup|].
  apply (Horder [] "2024-01" [] "2024-02" [] entry1 entry3);
    first [reflexivity | left; reflexivity | right; right; left; reflexivity].
Defined.

(** C2 as stated fails for a phrase without words: every word of the empty
    phrase occurs in the text, and the code says that the phrase does not
    match. *)
Lemma C2_counterexample :
  _phrase_matches_entry "calm and happy" "" = false
  /\ (forall w, In w (split_ws "") -> Spec.ci_substring w "calm and happy").
Proof. split; [reflexivity | intros w []]. Qed.

(** C3 (the code departs from it). The excerpt of a group is its fragments
    joined by single spaces, and the budget only counts the fragments: three
    one-letter entries of one month and a budget of 3 give a five-character
    excerpt, two more than the budget with a trailing word of one
    character; with the report's budget of 600, six hundred one-letter
    entries give 1199 characters.  What the loop does guarantee is that the
    fragments add up to no more than the budget, so an excerpt is over the
    budget by at most one character for each separator. *)
Theorem C3_excerpt_over_budget :
  let row := fun t => mkEntry (mkDate 2024 1 5) "Friday" "morning" t in
  _build_grouped_excerpts [row "a"; row "b"; row "c"] ColMonth 3
  = [mkGroupExcerpt "2024-01" "a b c"]
  /\ (len "a b c" > 3 + len (Spec.trailing_word "a b c"))%Z
  /\ map (fun g => len (excerpts g))
         (_build_grouped_excerpts (repeat (row "a") 600) ColMonth _EXCERPT_CHARS_PER_GROUP)
     = [1199%Z]
  /\ (forall df col budget g,
        In g (_build_grouped_excerpts df col budget) ->
        exists parts,
          excerpts g = join " " parts
          /\ (Spec.total_len parts <= Z.max 0 budget)%Z
          /\ len (excerpts g)
             = (Spec.total_len parts + Z.of_nat (pred (List.length parts)))%Z).
Proof.
  cbv zeta.
  split; [vm_compute; reflexivity|].
  split; [vm_compute; reflexivity|].
  split; [vm_compute; reflexivity|].
  exact ExcerptFacts.excerpt_budget.
Qed.

(** C4. Filtering with all-empty criteria (no date bounds, no days, no
    times, empty keyword string) returns the collection unchanged, in order
    and content. *)
Theorem C4_filter_without_criteria (rows : list Entry) :
  filter_entries (Some rows) None None [] [] "" = rows.
Proof. destruct rows; reflexivity. Qed.

(** C5. Filtering is idempotent: filtering an already filtered collection
    with the same criteria returns the same collection. *)
Theorem C5_filter_idempotent (df : option (list Entry))
    (date_from date_to : option Date) (days times : list string) (keywords : string) :
  filter_entries
    (Some (filter_entries df date_from date_to days times keywords))
    date_from date_to days times keywords
  = filter_entries df date_from date_to days times keywords.
Proof.
  destruct df as [rows|]; [|reflexivity].
  rewrite !FilterFacts.filter_entries_filter. apply FilterFacts.filter_idem.
Qed.

(** C6 (amended). Without a credential [ollama_chat] returns nothing at
    once and sends no request.  With one, it returns nothing when there is
    no response, when the status is an error status (4xx or 5xx, the
    statuses on which [raise_for_status] raises), when the body is not
    JSON, and when the body lacks the reply.  It never raises. *)
Theorem C6_ollama_chat_fails_soft (prompt : string) (api_key : option string)
    (w : world) :
  (key_absent api_key = true -> ollama_chat prompt api_key w = (Ok JNull, w)) /\
  (exists v w', ollama_chat prompt api_key w = (Ok v, w')) /\
  (key_absent api_key = false ->
   let answer := remote w (sent w) (chat_request prompt api_key) in
   (answer = NoResponse -> fst (ollama_chat prompt api_key w) = Ok JNull) /\
   (forall status body,
       answer = Response status body -> 400 <= status < 600 ->
       fst (ollama_chat prompt api_key w) = Ok JNull) /\
   (forall status,
       answer = Response status None ->
       fst (ollama_chat prompt api_key w) = Ok JNull) /\
   (forall status js,
       answer = Response status (Some js) -> Spec.lacks_reply js ->
       fst (ollama_chat prompt api_key w) = Ok JNull)).
Proof.
  split; [apply ChatFacts.ollama_chat_absent|]. split.
  - destruct (key_absent api_key) eqn:Hk.
    + eexists _, _. apply ChatFacts.ollama_chat_absent. exact Hk.
    + eexists _, _. apply ChatFacts.ollama_chat_present. exact Hk.
  - intros Hk. cbv zeta. rewrite (ChatFacts.ollama_chat_present _ _ _ Hk). cbn [fst].
    repeat split.
    + intros ->. reflexivity.
    + intros status body -> [Hlo Hhi]. cbn [ChatFacts.content_of].
      apply Nat.leb_le in Hlo. apply Nat.ltb_lt in Hhi. rewrite Hlo, Hhi. reflexivity.
    + intros status ->. cbn [ChatFacts.content_of].
      destruct (_ && _); reflexivity.
    + intros status js -> Hjs. cbn [ChatFacts.content_of].
      destruct (_ && _); [reflexivity|].
      destruct js as [| | | | |kv]; try reflexivity. cbn [Spec.lacks_reply] in Hjs.
      destruct (assoc "message" kv) as [[| | | | |m]|]; try reflexivity.
      rewrite Hjs. reflexivity.
Qed.

Lemma C6_witness :
  ollama_chat "Summarize." None failing_world = (Ok JNull, failing_world)
  /\ fst (ollama_chat "Summarize." (Some "key") failing_world) = Ok JNull.
Proof.
  destruct (C6_ollama_chat_fails_soft "Summarize." None failing_world) as (H1 & _ & _).
  destruct (C6_ollama_chat_fails_soft "Summarize." (Some "key") failing_world)
    as (_ & _ & H3).
  split; [apply H1; reflexivity|].
  destruct (H3 eq_refl) as (_ & H & _).
  apply (H 503 None); [reflexivity | lia].
Defined.

(** C6 as stated fails for a status that is not a success and not an
    error either: a 302 response whose body carries a reply gives that
    reply, not nothing. *)
Lemma C6_counterexample :
  fst (ollama_chat "Summarize." (Some "key") redirected_world) = Ok (JStr "moved").
Proof. reflexivity. Qed.

(** C7. Without a credential, building the report of a non-empty
    collection succeeds: it sends no request to the summarizer and writes
    one file, the document in which the overall activity, the overall
    emotion, both observation blocks and the summary of every trend phrase
    are the fixed placeholder text. *)
Theorem C7_report_without_credential `{PyLibs} (entries_df : list Entry)
    (trend_keywords : list string) (api_key : option string)
    (date_from date_to : Date) (w : world) :
  entries_df <> [] ->
  key_absent api_key = true ->
  exists (w' : world) (t : Narrative),
    let path := report_path (clock w) in
    let doc := document (clock w) date_from date_to
                 (List.length entries_df) t in
    build_report entries_df trend_keywords api_key date_from date_to w = (Ok path, w')
    /\ sent w' = sent w
    /\ files w' = (path, doc) :: files w
    /\ activity_summary t = placeholder
    /\ emotion_summary t = placeholder
    /\ obs_activity t = placeholder
    /\ obs_emotion t = placeholder
    /\ map keyword (trend_sections t) = trend_keywords
    /\ Forall (fun sec => summary sec = placeholder) (trend_sections t)
    /\ contains ("<h2>Overall activity</h2>" ++ nl ++ "<p>" ++ placeholder ++ "</p>") doc = true
    /\ contains ("<h2>Overall emotion</h2>" ++ nl ++ "<p>" ++ placeholder ++ "</p>") doc = true
    /\ contains ("<h3>Activity</h3>" ++ nl ++ "<p>" ++ placeholder ++ "</p>") doc = true
    /\ contains ("<h3>Emotion</h3>" ++ nl ++ "<p>" ++ placeholder ++ "</p>") doc = true
    /\ (forall sec, In sec (trend_sections t) ->
          contains (join nl ["<h3>" ++ dq ++ keyword sec ++ dq ++ "</h3>";
                             chart_html sec;
                             "<p>" ++ placeholder ++ "</p>"]) doc = true).
Proof.
  intros _ Hk.
  eexists _, (ReportFacts.narrative_placeholder entries_df trend_keywords).
  cbv zeta. rewrite (ReportFacts.build_report_absent _ _ _ _ _ _ Hk).
  split; [reflexivity|]. split; [reflexivity|]. split; [reflexivity|].
  split; [reflexivity|]. split; [reflexivity|]. split; [reflexivity|].
  split; [reflexivity|].
  assert (Hsum : Forall (fun sec => summary sec = placeholder)
                   (trend_sections (ReportFacts.narrative_placeholder
                                      entries_df trend_keywords))).
  { cbn [ReportFacts.narrative_placeholder trend_sections].
    apply Forall_forall. intros sec Hin. apply in_map_iff in Hin as (kw & <- & _).
    reflexivity. }
  split.
  { cbn [ReportFacts.narrative_placeholder trend_sections]. rewrite map_map.
    cbn [ReportFacts.trend_placeholder keyword]. apply map_id. }
  split; [exact Hsum|].
  split.
  { apply (ReportFacts.document_shows
             ["<h2>Overall activity</h2>"; "<p>" ++ placeholder ++ "</p>"]);
      [discriminate | apply ReportFacts.body_overall_activity]. }
  split.
  { apply (ReportFacts.document_shows
             ["<h2>Overall emotion</h2>"; "<p>" ++ placeholder ++ "</p>"]);
      [discriminate | apply ReportFacts.body_overall_emotion]. }
  split.
  { apply (ReportFacts.document_shows
             ["<h3>Activity</h3>"; "<p>" ++ placeholder ++ "</p>"]);
      [discriminate | apply ReportFacts.body_obs_activity]. }
  split.
  { apply (ReportFacts.document_shows
             ["<h3>Emotion</h3>"; "<p>" ++ placeholder ++ "</p>"]);
      [discriminate | apply ReportFacts.body_obs_emotion]. }
  intros sec Hin. rewrite Forall_forall in Hsum. rewrite <- (Hsum sec Hin).
  apply (ReportFacts.document_shows (ReportFacts.trend_block sec));
    [discriminate | apply ReportFacts.body_trend; exact Hin].
Qed.

Lemma C7_witness :
  sample_entries <> [] /\ key_absent None = true /\
  exists w',
    @build_report JsonLite.libs sample_entries ["happy"] None
      (mkDate 2024 1 1) (mkDate 2024 2 29) failing_world
    = (Ok "/app/reports/journal_report_20240301_102030.html", w')
    /\ sent w' = [].
Proof.
  split; [discriminate|]. split; [reflexivity|].
  destruct (@C7_report_without_credential JsonLite.libs sample_entries ["happy"] None
              (mkDate 2024 1 1) (mkDate 2024 2 29) failing_world
              ltac:(discriminate) eq_refl)
    as (w' & t & Hrun & Hsent & _).
  exists w'. split; [exact Hrun | exact Hsent].
Defined.

(** C8 (amended). The extractor strips the reply and tries, in order, the
    content of its fenced block with the json tag skipped, the content of
    its fenced block with the tag kept, the span from the first opening
    brace to the last closing brace of the reply, and the whole reply; the
    first text that parses as JSON gives the result, and when none does the
    result is nothing.  The fenced block starts at the first fence of the
    reply; its content is what stands between that fence, after the json
    tag (in the first attempt, when the tag is there) and the whitespace
    that follows, and the next fence, and it is parsed stripped. *)
Theorem C8_extract_json_order `{PyLibs} (reply : string) :
  let r := strip reply in
  let tagged := option_map strip (fenced_group true r) in
  let untagged := option_map strip (fenced_group false r) in
  let braces := brace_span r in
  let result := _extract_json_from_reply reply in
  (forall content,
      fenced_group true r = Some content <-> Blocks.fenced_block true r content) /\
  (forall content,
      fenced_group false r = Some content <-> Blocks.fenced_block false r content) /\
  (forall content v,
      Blocks.fenced_block true r content -> json_loads (strip content) = Some v ->
      result = v) /\
  (forall v, parse_attempt tagged = Some v -> result = v) /\
  (parse_attempt tagged = None ->
   (forall v, parse_attempt untagged = Some v -> result = v) /\
   (parse_attempt untagged = None ->
    (forall v, parse_attempt braces = Some v -> result = v) /\
    (parse_attempt braces = None ->
     (forall v, json_loads r = Some v -> result = v) /\
     (json_loads r = None -> result = JNull)))) /\
  (forall t, braces = Some t <->
             exists pre mid post,
               r = pre ++ t ++ post /\ t = "{" ++ mid ++ "}" /\
               Re.mem_char "{" pre = false /\ Re.mem_char "}" post = false).
Proof.
  cbv zeta. unfold _extract_json_from_reply.
  split; [intros content; apply FenceFacts.fenced_group_iff|].
  split; [intros content; apply FenceFacts.fenced_group_iff|].
  split.
  { intros content v Hb Hv. apply FenceFacts.fenced_group_iff in Hb.
    apply ExtractFacts.loads_or_some. rewrite Hb. exact Hv. }
  split; [intros v Hv; apply ExtractFacts.loads_or_some; exact Hv|].
  split; [|apply ExtractFacts.brace_span_some].
  intros H1. rewrite (ExtractFacts.loads_or_none _ _ H1).
  split; [intros v Hv; apply ExtractFacts.loads_or_some; exact Hv|].
  intros H2. rewrite (ExtractFacts.loads_or_none _ _ H2).
  split; [intros v Hv; apply ExtractFacts.loads_or_some; exact Hv|].
  intros H3. rewrite (ExtractFacts.loads_or_none _ _ H3).
  split.
  - intros v Hv. apply ExtractFacts.loads_or_some. exact Hv.
  - intros H4. apply ExtractFacts.loads_or_none. exact H4.
Qed.

Example fenced_reply_groups :
  fenced_group true fenced_reply
  = Some ("{" ++ dq ++ "by_month" ++ dq ++ ": []}" ++ nl)
  /\ fenced_group false fenced_reply
     = Some ("json" ++ nl ++ "{" ++ dq ++ "by_month" ++ dq ++ ": []}" ++ nl)
  /\ fenced_group true "no fence here" = None
  /\ fenced_group true (fence ++ "json {}") = None.
Proof. repeat split; vm_compute; reflexivity. Qed.

Example untagged_block_is_read :
  @_extract_json_from_reply JsonLite.libs (fence ++ nl ++ "[1, 2]" ++ nl ++ fence)
  = JList [JNum 1; JNum 2].
Proof. vm_compute. reflexivity. Qed.

Lemma C8_witness :
  @_extract_json_from_reply JsonLite.libs fenced_reply = JDict [("by_month", JList [])]
  /\ Blocks.fenced_block true fenced_reply ("{" ++ dq ++ "by_month" ++ dq ++ ": []}" ++ nl)
  /\ @_extract_json_from_reply JsonLite.libs " see {} below " = JDict [].
Proof.
  split; [|split].
  - destruct (@C8_extract_json_order JsonLite.libs fenced_reply) as (_ & _ & _ & H & _).
    apply H. vm_compute. reflexivity.
  - destruct (@C8_extract_json_order JsonLite.libs fenced_reply) as (H & _).
    apply (H ("{" ++ dq ++ "by_month" ++ dq ++ ": []}" ++ nl)). vm_compute. reflexivity.
  - destruct (@C8_extract_json_order JsonLite.libs " see {} below ")
      as (_ & _ & _ & _ & H & _).
    destruct (H eq_refl) as (_ & H2). destruct (H2 eq_refl) as (H3 & _).
    apply H3. reflexivity.
Defined.

(** C8 as stated fails on a reply with two objects: the first top-level
    brace span parses, so the extractor as specified returns the empty
    object, and the code, which takes the span up to the last closing
    brace, returns nothing. *)
Lemma C8_counterexample :
  @_extract_json_from_reply JsonLite.libs "{} {}" = JNull
  /\ Spec.first_top_level_span "{} {}" = Some "{}"
  /\ @Spec.extract_as_specified JsonLite.libs "{} {}" = JDict [].
Proof. repeat split; vm_compute; reflexivity. Qed.

(** C9. The report endpoint answers not-found whenever the resolved path
    is not under the reports directory, and whenever it is not an existing
    regular file; it serves a file only when the resolved path is under the
    reports directory and is an existing file, and then it serves that
    file's content as HTML. *)
Theorem C9_report_endpoint (fs : Api.filesystem) (reports : Api.path)
    (filename : string) :
  let p := Api.resolve fs (Api.joinpath reports filename) in
  let inside := exists rest, p = (reports ++ rest)%list in
  (~ inside ->
   Api.get_report fs reports filename = Api.HTTPException 404 "Report not found") /\
  (Api.regular_file fs p = None ->
   Api.get_report fs reports filename = Api.HTTPException 404 "Report not found") /\
  (forall file content media,
      Api.get_report fs reports filename = Api.FileResponse file content media ->
      file = p /\ inside /\ Api.regular_file fs p = Some content /\ media = "text/html").
Proof.
  cbv zeta. rewrite ApiFacts.get_report_cases. cbv zeta.
  destruct (Api.is_relative_to _ reports) eqn:E.
  - apply ApiFacts.is_relative_to_iff in E.
    split; [intros Hn; contradiction|]. split.
    + intros ->. reflexivity.
    + intros file content media. destruct (Api.regular_file fs _); [|discriminate].
      intros [= <- <- <-]. auto.
  - split; [reflexivity|]. split; [reflexivity|]. discriminate.
Qed.

Lemma C9_witness :
  Api.get_report sample_fs ["app"; "reports"] "../journal_entries.csv"
  = Api.HTTPException 404 "Report not found"
  /\ Api.get_report sample_fs ["app"; "reports"] "missing.html"
     = Api.HTTPException 404 "Report not found".
Proof.
  destruct (C9_report_endpoint sample_fs ["app"; "reports"] "../journal_entries.csv")
    as (Houtside & _ & _).
  destruct (C9_report_endpoint sample_fs ["app"; "reports"] "missing.html")
    as (_ & Hmissing & _).
  split.
  - apply Houtside. intros [rest E]. vm_compute in E. discriminate.
  - apply Hmissing. reflexivity.
Defined.

Example report_is_served :
  Api.get_report sample_fs ["app"; "reports"] "journal_report_20240301_102030.html"
  = Api.FileResponse ["app"; "reports"; "journal_report_20240301_102030.html"]
      "<!DOCTYPE html>" "text/html".
Proof. reflexivity. Qed.

Example absolute_name_is_refused :
  Api.get_report sample_fs ["app"; "reports"] "/app/journal_entries.csv"
  = Api.HTTPException 404 "Report not found".
Proof. reflexivity. Qed.

(** C10. A phrase never matches when the text or the phrase is empty.  A
    phrase that is not empty and holds only whitespace matches every
    non-empty text, so its monthly counts have, for each month that has an
    entry and for no other, exactly one count: the number of entries of
    that month with a non-empty text. *)
Theorem C10_phrase_edge_cases (t phrase : string) (df : list Entry) :
  (t = "" \/ phrase = "" -> _phrase_matches_entry t phrase = false) /\
  (phrase <> "" -> Spec.all_chars isspace phrase = true ->
     (t <> "" -> _phrase_matches_entry t phrase = true) /\
     (forall m c, In (m, c) (_phrase_counts_by_month df phrase) <->
        (exists e, In e df /\ month_label (date e) = m) /\
        c = List.length
              (filter (fun e => (month_label (date e) =? m) && negb (text e =? "")) df)) /\
     NoDup (map fst (_phrase_counts_by_month df phrase))).
Proof.
  split.
  - intros [-> | ->]; unfold _phrase_matches_entry; [reflexivity|].
    rewrite orb_true_r. reflexivity.
  - intros Hne Hblank. split; [|split].
    + apply PhraseFacts.phrase_matches_blank; assumption.
    + intros m c.
      assert (Hcount :
                List.length
                  (filter (fun e => (month_label (date e) =? m)
                                    && _phrase_matches_entry (text e) phrase) df)
                = List.length
                    (filter (fun e => (month_label (date e) =? m)
                                      && negb (text e =? "")) df)).
      { f_equal. apply filter_ext. intros e.
        rewrite (PhraseFacts.phrase_matches_blank_eq _ _ Hne Hblank). reflexivity. }
      assert (Hmonth : In m (map fst (_phrase_counts_by_month df phrase))
                       <-> exists e, In e df /\ month_label (date e) = m).
      { rewrite PhraseFacts.counts_months, PhraseFacts.in_sorted_unique, in_map_iff.
        split; intros (e & H1 & H2); exists e; auto. }
      split.
      * intros Hin. split.
        -- apply Hmonth. apply in_map_iff. exists (m, c). auto.
        -- rewrite <- Hcount. apply (PhraseFacts.counts_count _ _ _ _ Hin).
      * intros [Hm ->]. apply Hmonth in Hm.
        apply in_map_iff in Hm as ([m' c'] & Em & Hin). cbn [fst] in Em. subst m'.
        rewrite <- Hcount, <- (PhraseFacts.counts_count _ _ _ _ Hin). exact Hin.
    + rewrite PhraseFacts.counts_months.
      apply PhraseFacts.sorted_NoDup, PhraseFacts.sorted_unique_sorted.
Qed.

Lemma C10_witness :
  _phrase_matches_entry "calm and happy" "  " = true
  /\ In ("2024-01", 2) (_phrase_counts_by_month sample_entries "  ")
  /\ In ("2024-02", 1) (_phrase_counts_by_month sample_entries "  ")
  /\ _phrase_counts_by_month sample_entries "  " = [("2024-01", 2); ("2024-02", 1)].
Proof.
  destruct (C10_phrase_edge_cases "calm and happy" "  " sample_entries) as [_ H].
  destruct (H ltac:(discriminate) eq_refl) as (H1 & H2 & _).
  split; [apply H1; discriminate|].
  split; [apply H2; split; [exists entry1; split; [left; reflexivity | reflexivity]
                           | vm_compute; reflexivity]|].
  split; [apply H2; split; [exists entry3; split; [right; right; left; reflexivity
                                                  | reflexivity]
                           | vm_compute; reflexivity]|].
  vm_compute. reflexivity.
Defined.

(* ================================================================= *)
(** * Part IV: further properties of the code                         *)
(* ================================================================= *)

(** ** Filtering: how the criteria combine *)

Module FilterLaws.
Import PyStr Py Utils FilterFacts Notions.

Lemma date_leb_iff a b : date_leb a b = true <-> date_le a b.
Proof.
  unfold date_leb, date_le.
  rewrite orb_true_iff, andb_true_iff, orb_true_iff, andb_true_iff.
  rewrite !Nat.ltb_lt, !Nat.eqb_eq, Nat.leb_le. reflexivity.
Qed.

Lemma date_le_antisym a b : date_le a b -> date_le b a -> a = b.
Proof.
  unfold date_le. destruct a as [ya ma da], b as [yb mb db]. cbn [year month day].
  intros H1 H2. assert (ya = yb /\ ma = mb /\ da = db) as (-> & -> & ->) by lia.
  reflexivity.
Qed.

Lemma date_le_refl a : date_le a a.
Proof. unfold date_le. right. split; [reflexivity|]. right. split; [reflexivity|lia]. Qed.

Lemma isin_iff values x : isin values x = true <-> In x values.
Proof.
  unfold isin. rewrite existsb_exists. split.
  - intros (y & Hy & E). apply String.eqb_eq in E. subst. exact Hy.
  - intros H. exists x. split; [exact H | apply String.eqb_refl].
Qed.

Lemma keyword_parts_empty : keyword_parts "" = [].
Proof. reflexivity. Qed.

Lemma keyword_ok_iff keywords e :
  keyword_ok keywords e = true <->
  (keyword_parts keywords = []
   \/ exists p, In p (keyword_parts keywords)
                /\ Spec.text_matches Spec.not_newline p (text e)).
Proof.
  unfold keyword_ok. destruct (keywords =? "") eqn:E; cbn [negb].
  - apply String.eqb_eq in E. subst. rewrite keyword_parts_empty. tauto.
  - destruct (keyword_parts keywords) as [|p parts] eqn:Ep; [tauto|].
    rewrite PatternFacts.str_contains_iff by discriminate.
    split; [intros H; right; exact H | intros [H|H]; [discriminate | exact H]].
Qed.

Lemma passes_iff date_from date_to days times keywords e :
  passes date_from date_to days times keywords e = true <->
  (forall d, date_from = Some d -> date_le d (date e))
  /\ (forall d, date_to = Some d -> date_le (date e) d)
  /\ (days = [] \/ In (day_of_week e) days)
  /\ (times = [] \/ In (time_of_day e) times)
  /\ (keyword_parts keywords = []
      \/ exists p, In p (keyword_parts keywords)
                   /\ Spec.text_matches Spec.not_newline p (text e)).
Proof.
  unfold passes. rewrite !andb_true_iff, keyword_ok_iff.
  assert (Hf : (match date_from with Some d => date_leb d (date e) | None => true end = true)
               <-> forall d, date_from = Some d -> date_le d (date e)).
  { destruct date_from as [d|]; [rewrite date_leb_iff|].
    - split; [intros H d' [= <-]; exact H | intros H; apply H; reflexivity].
    - split; [discriminate | reflexivity]. }
  assert (Ht : (match date_to with Some d => date_leb (date e) d | None => true end = true)
               <-> forall d, date_to = Some d -> date_le (date e) d).
  { destruct date_to as [d|]; [rewrite date_leb_iff|].
    - split; [intros H d' [= <-]; exact H | intros H; apply H; reflexivity].
    - split; [discriminate | reflexivity]. }
  assert (Hd : (match days with [] => true | _ => isin days (day_of_week e) end = true)
               <-> (days = [] \/ In (day_of_week e) days)).
  { destruct days as [|x l]; [tauto|]. rewrite isin_iff.
    split; [tauto | intros [H|H]; [discriminate | exact H]]. }
  assert (Hti : (match times with [] => true | _ => isin times (time_of_day e) end = true)
               <-> (times = [] \/ In (time_of_day e) times)).
  { destruct times as [|x l]; [tauto|]. rewrite isin_iff.
    split; [tauto | intros [H|H]; [discriminate | exact H]]. }
  rewrite Hf, Ht, Hd, Hti. tauto.
Qed.

(** [filter_entries] on any frame, missing or not. *)
Lemma filter_entries_any df date_from date_to days times keywords :
  filter_entries df date_from date_to days times keywords
  = filter (passes date_from date_to days times keywords)
           (match df with Some rows => rows | None => [] end).
Proof.
  destruct df as [rows|]; [apply filter_entries_filter | reflexivity].
Qed.

Lemma filter_comm {A} (p q : A -> bool) (l : list A) :
  filter p (filter q l) = filter q (filter p l).
Proof.
  rewrite !filter_filter. apply filter_ext. intros x. apply andb_comm.
Qed.

End FilterLaws.

Import PyStr Py Utils ReportBuilder Report Notions.

(** X1. An entry is kept by the filter exactly when it is in the frame and
    passes every criterion that is set: its date is on or after the lower
    bound, on or before the upper bound, its day of week is one of the
    chosen days, its time of day one of the chosen times (both compared as
    they are written), and its text matches one of the keyword phrases.  A
    criterion that is not set (no bound, no day, no time, no phrase) does
    not constrain. *)
Theorem filter_entries_conjunction (rows : list Entry)
    (date_from date_to : option Date) (days times : list string)
    (keywords : string) (e : Entry) :
  In e (filter_entries (Some rows) date_from date_to days times keywords) <->
  In e rows
  /\ (forall d, date_from = Some d -> date_le d (date e))
  /\ (forall d, date_to = Some d -> date_le (date e) d)
  /\ (days = [] \/ In (day_of_week e) days)
  /\ (times = [] \/ In (time_of_day e) times)
  /\ (keyword_parts keywords = []
      \/ exists p, In p (keyword_parts keywords)
                   /\ Spec.text_matches Spec.not_newline p (text e)).
Proof.
  rewrite FilterFacts.filter_entries_filter, filter_In, FilterLaws.passes_iff.
  reflexivity.
Qed.

(** X2. Two filters commute: filtering by one set of criteria and then by
    another gives the same frame as filtering in the other order. *)
Theorem filter_entries_commute (df : option (list Entry))
    (from1 to1 : option Date) (days1 times1 : list string) (keywords1 : string)
    (from2 to2 : option Date) (days2 times2 : list string) (keywords2 : string) :
  filter_entries (Some (filter_entries df from1 to1 days1 times1 keywords1))
                 from2 to2 days2 times2 keywords2
  = filter_entries (Some (filter_entries df from2 to2 days2 times2 keywords2))
                   from1 to1 days1 times1 keywords1.
Proof.
  rewrite !FilterFacts.filter_entries_filter, !FilterLaws.filter_entries_any.
  apply FilterLaws.filter_comm.
Qed.

(** X3. The table of the application shows a part of the analysis window
    of the same date range: filtering by all criteria is filtering by the
    date range alone, as the report does, and then by the days, the times
    and the keywords. *)
Theorem filter_entries_after_date_window (df : option (list Entry))
    (date_from date_to : option Date) (days times : list string) (keywords : string) :
  filter_entries df date_from date_to days times keywords
  = filter_entries (Some (filter_entries_by_date_only df date_from date_to))
                   None None days times keywords.
Proof.
  unfold filter_entries_by_date_only.
  rewrite FilterFacts.filter_entries_filter, !FilterLaws.filter_entries_any.
  rewrite FilterFacts.filter_filter. apply filter_ext. intros e.
  unfold FilterFacts.passes. cbn [FilterFacts.keyword_ok String.eqb negb andb].
  rewrite !andb_true_r, !andb_assoc. reflexivity.
Qed.

(** X4. The bounds of the date range are inclusive: a range of one day
    keeps exactly the entries of that day.  A range whose upper bound is
    before its lower bound keeps nothing. *)
Theorem date_range_inclusive :
  (forall rows d e,
      In e (filter_entries_by_date_only (Some rows) (Some d) (Some d))
      <-> In e rows /\ date e = d)
  /\ (forall df a b,
        date_leb a b = false ->
        filter_entries_by_date_only df (Some a) (Some b) = []).
Proof.
  split.
  - intros rows d e. unfold filter_entries_by_date_only.
    rewrite FilterFacts.filter_entries_filter, filter_In, FilterLaws.passes_iff.
    split.
    + intros (Hin & Hf & Ht & _). split; [exact Hin|]. symmetry.
      apply FilterLaws.date_le_antisym; [apply Hf | apply Ht]; reflexivity.
    + intros (Hin & <-). split; [exact Hin|].
      split; [intros d [= <-]; apply FilterLaws.date_le_refl|].
      split; [intros d [= <-]; apply FilterLaws.date_le_refl|].
      rewrite FilterLaws.keyword_parts_empty. tauto.
  - intros df a b Hab. unfold filter_entries_by_date_only.
    rewrite FilterLaws.filter_entries_any.
    set (rows := match df with Some r => r | None => [] end). clearbody rows.
    induction rows as [|e rows IH]; [reflexivity|].
    cbn [filter]. rewrite IH.
    destruct (FilterFacts.passes (Some a) (Some b) [] [] "" e) eqn:Hp; [|reflexivity].
    exfalso. apply FilterLaws.passes_iff in Hp as (Hf & Ht & _).
    specialize (Hf a eq_refl). specialize (Ht b eq_refl).
    assert (Hle : date_le a b).
    { unfold date_le in *. lia. }
    apply FilterLaws.date_leb_iff in Hle. congruence.
Qed.

(** ** Excerpts: what a truncated text keeps *)

Module ExcerptLaws.
Import PyStr Py Utils ReportBuilder StrFacts ExcerptFacts Notions.

(** [a] starts [t]. *)
Definition starts (a t : string) : Prop := exists rest, t = a ++ rest.

Lemma starts_refl a : starts a a.
Proof. exists "". symmetry. apply app_nil_r. Qed.

Lemma starts_trans a b c : starts a b -> starts b c -> starts a c.
Proof. intros [r ->] [r' ->]. exists (r ++ r'). apply app_assoc. Qed.

Lemma starts_empty t : starts "" t.
Proof. exists t. reflexivity. Qed.

Lemma take_starts n t : starts (take n t) t.
Proof.
  revert t. induction n as [|n IH]; intros t; [apply starts_empty|].
  destruct t as [|c t]; [apply starts_empty|]. cbn [take].
  destruct (IH t) as [r E]. exists r. cbn [append]. congruence.
Qed.

Lemma rstrip_starts u : starts (rstrip u) u.
Proof. destruct (rstrip_decomp u) as (b & E & _). exists b. exact E. Qed.

Lemma lstrip_blank b : Spec.all_chars isspace b = true -> lstrip b = "".
Proof.
  induction b as [|c b IH]; [reflexivity|]. cbn [Spec.all_chars lstrip].
  intros H. apply andb_true_iff in H as [-> Hb]. auto.
Qed.

Lemma lstrip_blank_app b s : Spec.all_chars isspace b = true -> lstrip (b ++ s) = lstrip s.
Proof.
  induction b as [|c b IH]; [reflexivity|]. cbn [Spec.all_chars lstrip append].
  intros H. apply andb_true_iff in H as [-> Hb]. auto.
Qed.

Lemma lstrip_app a b : lstrip a <> "" -> lstrip (a ++ b) = lstrip a ++ b.
Proof.
  induction a as [|c a IH]; [intros H; exfalso; apply H; reflexivity|].
  cbn [lstrip append]. destruct (isspace c); [exact IH | reflexivity].
Qed.

Lemma lstrip_starts a t : starts a t -> starts (lstrip a) (lstrip t).
Proof.
  intros [r ->]. destruct (lstrip a) as [|c l] eqn:E; [apply starts_empty|].
  exists r. rewrite lstrip_app by congruence. rewrite E. reflexivity.
Qed.

(** What [strip] keeps of a text starts the text without its leading
    blanks. *)
Lemma strip_starts a t : starts a t -> starts (strip a) (lstrip t).
Proof.
  intros H. unfold strip.
  apply (starts_trans _ (lstrip a)); [apply rstrip_starts | apply lstrip_starts; exact H].
Qed.

Lemma rstrip_blank h : rstrip h = "" -> Spec.all_chars isspace h = true.
Proof.
  intros E. destruct (rstrip_decomp h) as (b & Eh & Hb & _).
  rewrite E in Eh. cbn [append] in Eh. subst. exact Hb.
Qed.

Lemma split_last_word_app s :
  s = fst (split_last_word s) ++ snd (split_last_word s).
Proof.
  induction s as [|c s IH]; [reflexivity|]. cbn [split_last_word].
  destruct (split_last_word s) as [[|d h] w]; cbn [fst snd append] in *.
  - destruct (isspace c); cbn [fst snd append]; congruence.
  - congruence.
Qed.

(** The first piece of [rsplit(maxsplit=1)], stripped, starts the text
    without its leading blanks. *)
Lemma rsplit1_head_starts u s0 rest :
  rsplit1 u = s0 :: rest -> starts (strip s0) (lstrip u).
Proof.
  unfold rsplit1. destruct (rstrip u) as [|c r] eqn:E; [discriminate|].
  pose proof (split_last_word_app (String c r)) as Happ.
  destruct (split_last_word (String c r)) as [h w]. cbn [fst snd] in Happ.
  assert (Hu : starts (h ++ w) u) by (rewrite <- Happ, <- E; apply rstrip_starts).
  destruct (rstrip h) as [|d h'] eqn:Eh; intros [= <- _].
  - apply rstrip_blank in Eh.
    apply (starts_trans _ (lstrip w)); [apply rstrip_starts|].
    rewrite <- (lstrip_blank_app h w Eh). apply lstrip_starts. exact Hu.
  - rewrite <- Eh. apply strip_starts.
    apply (starts_trans _ h); [apply rstrip_starts|].
    apply (starts_trans _ (h ++ w)); [exists w; reflexivity | exact Hu].
Qed.

Lemma excerpt_starts t (n : nat) : starts (_excerpt t (Z.of_nat n)) (lstrip t).
Proof.
  unfold _excerpt.
  destruct ((t =? "") || (len t <=? Z.of_nat n)%Z); [apply strip_starts, starts_refl|].
  assert (Hs : slice_to (Z.of_nat n) t = take n t).
  { unfold slice_to. destruct (Z.of_nat n <? 0)%Z eqn:E; [apply Z.ltb_lt in E; lia|].
    rewrite Nat2Z.id. reflexivity. }
  rewrite Hs.
  destruct (rsplit1 (take n t)) as [|s0 rest] eqn:Er.
  - apply strip_starts, take_starts.
  - apply (starts_trans _ (lstrip (take n t))).
    + apply (rsplit1_head_starts _ _ _ Er).
    + apply lstrip_starts, take_starts.
Qed.

(** [strip] leaves a stripped text as it is. *)
Lemma rstrip_ends_word t : Spec.ends_word t -> rstrip t = t.
Proof.
  intros (r & c & -> & Hc). induction r as [|d r IH]; cbn [append rstrip].
  - rewrite Hc. reflexivity.
  - rewrite IH. destruct r; reflexivity.
Qed.

Lemma strip_idem s : strip (strip s) = strip s.
Proof.
  destruct (strip_trimmed_of s) as [_ [E|[Hs He]]]; [rewrite E; reflexivity|].
  unfold strip at 1. rewrite (lstrip_word _ Hs). apply rstrip_ends_word. exact He.
Qed.

Lemma excerpt_stripped t m : strip (_excerpt t m) = _excerpt t m.
Proof.
  unfold _excerpt. destruct ((t =? "") || (len t <=? m)%Z); apply strip_idem.
Qed.

(** A text that starts with a word gives an excerpt that starts with it,
    and is not empty. *)
Lemma starts_word_starts a t :
  starts a t -> starts_word t = true -> a = "" \/ starts_word a = true.
Proof.
  intros [r ->]. destruct a as [|c a]; [left; reflexivity|]. right. assumption.
Qed.

Lemma strip_starts_word s : starts_word s = true -> starts_word (strip s) = true.
Proof.
  intros H. unfold strip. rewrite (lstrip_word _ H). apply rstrip_keeps_start. exact H.
Qed.

Lemma starts_word_nonempty s : starts_word s = true -> s <> "".
Proof. destruct s; [discriminate | discriminate]. Qed.

Lemma take_starts_word n t :
  starts_word t = true -> starts_word (take (S n) t) = true.
Proof. destruct t as [|c t]; [discriminate|]. cbn [take starts_word]. auto. Qed.

Lemma rsplit1_head_starts_word u s0 rest :
  starts_word u = true -> rsplit1 u = s0 :: rest -> starts_word s0 = true.
Proof.
  intros Hu. unfold rsplit1.
  pose proof (rstrip_keeps_start _ Hu) as Hr.
  destruct (rstrip u) as [|c r] eqn:E; [discriminate|].
  pose proof (split_last_word_app (String c r)) as Happ.
  destruct (split_last_word (String c r)) as [h w]. cbn [fst snd] in Happ.
  destruct (rstrip h) as [|d h'] eqn:Eh; intros [= <- _].
  - apply rstrip_blank in Eh. destruct h as [|x h].
    + cbn [append] in Happ. rewrite <- Happ. exact Hr.
    + cbn [append] in Happ. injection Happ as <- _.
      cbn [Spec.all_chars] in Eh. apply andb_true_iff in Eh as [Ex _].
      cbn [starts_word] in Hr. rewrite Ex in Hr. discriminate.
  - rewrite <- Eh. apply rstrip_keeps_start.
    destruct h as [|x h]; [discriminate|].
    cbn [append] in Happ. injection Happ as <- _. exact Hr.
Qed.

Lemma rsplit1_starts_word_nonempty u : starts_word u = true -> rsplit1 u <> [].
Proof.
  intros Hu. unfold rsplit1.
  pose proof (rstrip_keeps_start _ Hu) as Hr.
  destruct (rstrip u) as [|c r] eqn:E; [discriminate|].
  destruct (split_last_word (String c r)) as [h w].
  destruct (rstrip h); discriminate.
Qed.

Lemma excerpt_starts_word t m :
  starts_word t = true -> (0 < m)%Z -> starts_word (_excerpt t m) = true.
Proof.
  intros Ht Hm. unfold _excerpt.
  destruct ((t =? "") || (len t <=? m)%Z); [apply strip_starts_word; exact Ht|].
  assert (Hs : slice_to m t = take (S (Z.to_nat (m - 1))) t).
  { unfold slice_to. destruct (m <? 0)%Z eqn:E; [apply Z.ltb_lt in E; lia|].
    f_equal. lia. }
  rewrite Hs.
  pose proof (take_starts_word (Z.to_nat (m - 1)) t Ht) as Hu.
  destruct (rsplit1 _) as [|s0 rest] eqn:Er.
  - exfalso. exact (rsplit1_starts_word_nonempty _ Hu Er).
  - apply strip_starts_word. exact (rsplit1_head_starts_word _ _ _ Hu Er).
Qed.

(** The stripped text of a row, when it is not empty, starts with a
    word. *)
Lemma strip_nonempty_starts_word s : strip s <> "" -> starts_word (strip s) = true.
Proof.
  intros H. destruct (strip_trimmed_of s) as [_ [E|[Hs _]]]; [contradiction | exact Hs].
Qed.

Lemma len_pos s : s <> "" -> (0 < len s)%Z.
Proof. destruct s; [congruence|]. intros _. unfold len. cbn [String.length]. lia. Qed.

Lemma eqb_false_ne (s : string) : (s =? "") = false -> s <> "".
Proof. intros E ->. discriminate. Qed.

End ExcerptLaws.

(** X5. An excerpt of at most [n] characters, for any [n >= 0]: it has at
    most [n] characters; it has no blank at either end; and it is an
    initial part of the text without its leading blanks, so truncation
    never reorders or alters what it keeps. *)
Theorem excerpt_is_initial_part (t : string) (n : nat) :
  let r := _excerpt t (Z.of_nat n) in
  String.length r <= n
  /\ strip r = r
  /\ exists rest, lstrip t = r ++ rest.
Proof.
  cbv zeta. split; [|split].
  - pose proof (ExcerptFacts.excerpt_length t (Z.of_nat n) ltac:(lia)) as H.
    unfold len in H. lia.
  - apply ExcerptLaws.excerpt_stripped.
  - apply ExcerptLaws.excerpt_starts.
Qed.

(** ** The overall sample and the grouped excerpts *)

Module SampleLaws.
Import PyStr Py Utils ReportBuilder StrFacts ExcerptFacts ExcerptLaws Notions.

(** A fragment of the overall sample: between 1 and 200 characters. *)
Lemma chunk_bounds t :
  strip t <> "" ->
  let chunk := _excerpt (strip t) (Z.min (len (strip t)) 200) in
  (1 <= len chunk <= 200)%Z /\ starts_word chunk = true.
Proof.
  intros Ht. cbv zeta.
  pose proof (len_pos _ Ht) as Hlen.
  pose proof (excerpt_length (strip t) (Z.min (len (strip t)) 200) ltac:(lia)) as Hle.
  pose proof (excerpt_starts_word (strip t) (Z.min (len (strip t)) 200)
                (strip_nonempty_starts_word _ Ht) ltac:(lia)) as Hw.
  split; [|exact Hw].
  pose proof (len_pos _ (starts_word_nonempty _ Hw)). lia.
Qed.

Lemma sample_loop_bounds m rows parts total :
  total = Spec.total_len parts ->
  (Z.of_nat (List.length parts) <= total)%Z ->
  (total <= Z.max 0 (m - 1))%Z ->
  (Spec.total_len (sample_loop m rows parts total) <= Z.max 0 (m - 1) + 200)%Z
  /\ (Z.of_nat (List.length (sample_loop m rows parts total)) <= Z.max 0 (m - 1) + 1)%Z.
Proof.
  revert parts total. induction rows as [|row rows IH]; intros parts total Ht Hn Hm.
  - cbn [sample_loop]. lia.
  - cbn [sample_loop]. destruct (strip (text row) =? "") eqn:E; [apply IH; assumption|].
    cbv zeta. apply eqb_false_ne in E.
    destruct (chunk_bounds (text row) E) as [Hc _]. cbv zeta in Hc.
    set (chunk := _excerpt (strip (text row)) (Z.min (len (strip (text row))) 200)) in *.
    assert (Ht' : (total + len chunk)%Z = Spec.total_len (parts ++ [chunk])).
    { rewrite total_len_app. cbn [Spec.total_len fold_right]. lia. }
    assert (Hn' : List.length (parts ++ [chunk]) = S (List.length parts)).
    { rewrite List.length_app. cbn [List.length]. lia. }
    destruct (total + len chunk >=? m)%Z eqn:Estop.
    + rewrite <- Ht', Hn'. lia.
    + rewrite Z.geb_leb in Estop. apply Z.leb_gt in Estop. apply IH; [exact Ht' | rewrite Hn'; lia | lia].
Qed.


Lemma sample_loop_extends m rows parts total :
  exists more, sample_loop m rows parts total = (parts ++ more)%list.
Proof.
  revert parts total. induction rows as [|row rows IH]; intros parts total.
  - exists []. cbn [sample_loop]. rewrite List.app_nil_r. reflexivity.
  - cbn [sample_loop]. destruct (strip (text row) =? ""); [apply IH|]. cbv zeta.
    destruct (_ >=? m)%Z.
    + eexists. reflexivity.
    + destruct (IH (parts ++ [_excerpt (strip (text row)) (Z.min (len (strip (text row))) 200)])%list
                   (total + len (_excerpt (strip (text row)) (Z.min (len (strip (text row))) 200)))%Z)
        as [more E].
      rewrite E, <- List.app_assoc. eexists. reflexivity.
Qed.

Lemma sample_loop_first m rows total :
  Exists (fun e => strip (text e) <> "") rows ->
  exists chunk more, sample_loop m rows [] total = chunk :: more /\ starts_word chunk = true.
Proof.
  revert total. induction rows as [|row rows IH]; intros total Hex; [inversion Hex|].
  cbn [sample_loop]. destruct (strip (text row) =? "") eqn:E.
  - apply String.eqb_eq in E. apply IH. inversion Hex; subst; [contradiction | assumption].
  - cbv zeta. apply eqb_false_ne in E. destruct (chunk_bounds (text row) E) as [_ Hw].
    cbv zeta in Hw. cbn [List.app]. destruct (_ >=? m)%Z.
    + eexists _, []. split; [reflexivity | exact Hw].
    + destruct (sample_loop_extends m rows
                  [_excerpt (strip (text row)) (Z.min (len (strip (text row))) 200)]
                  (total + len (_excerpt (strip (text row)) (Z.min (len (strip (text row))) 200)))%Z)
        as [more Em].
      rewrite Em. cbn [List.app]. eexists _, more. split; [reflexivity | exact Hw].
Qed.

Lemma join_starts_word sep chunk more :
  starts_word chunk = true -> starts_word (join sep (chunk :: more)) = true.
Proof.
  intros H. unfold join. destruct chunk as [|c chunk]; [discriminate|].
  destruct more; cbn [String.concat append starts_word] in *; exact H.
Qed.

(** A budget that the stripped texts do not reach truncates nothing. *)
Lemma total_len_nonneg parts : (0 <= Spec.total_len parts)%Z.
Proof.
  induction parts as [|p parts IH]; cbn [Spec.total_len fold_right]; [lia|].
  fold (Spec.total_len parts). unfold len. lia.
Qed.

Lemma excerpt_whole s : _excerpt (strip s) (len (strip s)) = strip s.
Proof.
  unfold _excerpt. rewrite Z.leb_refl, orb_true_r. apply strip_idem.
Qed.

Lemma stripped_texts_cons row rows :
  stripped_texts (row :: rows)
  = if strip (text row) =? "" then stripped_texts rows
    else strip (text row) :: stripped_texts rows.
Proof.
  unfold stripped_texts. cbn [map filter]. destruct (strip (text row) =? ""); reflexivity.
Qed.

Lemma accumulate_whole b rows parts total :
  total = Spec.total_len parts ->
  (total + Spec.total_len (stripped_texts rows) < b)%Z ->
  accumulate b rows parts total = (parts ++ stripped_texts rows)%list.
Proof.
  revert parts total. induction rows as [|row rows IH]; intros parts total Ht Hb.
  - cbn [accumulate]. unfold stripped_texts. cbn [map filter].
    rewrite List.app_nil_r. reflexivity.
  - cbn [accumulate]. rewrite stripped_texts_cons in *.
    destruct (strip (text row) =? "") eqn:E; [apply IH; assumption|].
    cbv zeta. cbn [Spec.total_len fold_right] in Hb.
    fold (Spec.total_len (stripped_texts rows)) in Hb.
    pose proof (total_len_nonneg (stripped_texts rows)) as Hnn.
    pose proof (len_pos _ (eqb_false_ne _ E)) as Hpos.
    replace (Z.min (len (strip (text row))) (b - total)) with (len (strip (text row))) by lia.
    destruct (len (strip (text row)) <=? 0)%Z eqn:E0; [apply Z.leb_le in E0; lia|].
    rewrite excerpt_whole, last_last.
    destruct (total + len (strip (text row)) >=? b)%Z eqn:E1;
      [apply Z.geb_le in E1; lia|].
    rewrite IH.
    + rewrite <- List.app_assoc. reflexivity.
    + rewrite total_len_app. cbn [Spec.total_len fold_right]. lia.
    + lia.
Qed.

Lemma sample_loop_whole m rows parts total :
  total = Spec.total_len parts ->
  Forall (fun t => (len t <= 200)%Z) (stripped_texts rows) ->
  (total + Spec.total_len (stripped_texts rows) < m)%Z ->
  sample_loop m rows parts total = (parts ++ stripped_texts rows)%list.
Proof.
  revert parts total. induction rows as [|row rows IH]; intros parts total Ht Hs Hb.
  - cbn [sample_loop]. unfold stripped_texts. cbn [map filter].
    rewrite List.app_nil_r. reflexivity.
  - cbn [sample_loop]. rewrite stripped_texts_cons in *.
    destruct (strip (text row) =? "") eqn:E; [apply IH; assumption|].
    cbv zeta. cbn [Spec.total_len fold_right] in Hb.
    fold (Spec.total_len (stripped_texts rows)) in Hb.
    pose proof (total_len_nonneg (stripped_texts rows)) as Hnn.
    apply Forall_cons_iff in Hs as [H200 Hs'].
    replace (Z.min (len (strip (text row))) 200) with (len (strip (text row))) by lia.
    rewrite excerpt_whole.
    destruct (total + len (strip (text row)) >=? m)%Z eqn:E1;
      [apply Z.geb_le in E1; lia|].
    rewrite IH.
    + rewrite <- List.app_assoc. reflexivity.
    + rewrite total_len_app. cbn [Spec.total_len fold_right]. lia.
    + exact Hs'.
    + lia.
Qed.

Lemma overall_sample_nonempty df m :
  Exists (fun e => strip (text e) <> "") df -> _overall_sample df m <> "".
Proof.
  intros Hex E. unfold _overall_sample in E.
  destruct (sample_loop_first m df 0 Hex) as (chunk & more & El & Hw).
  rewrite El in E.
  pose proof (join_starts_word " " chunk more Hw) as Hj.
  rewrite E in Hj. discriminate.
Qed.

End SampleLaws.

(** X6. The overall sample is bounded: for a limit [m] it has at most
    [2 (m - 1) + 200] characters ([200] when [m] is not positive), since
    it stops after the fragment that reaches the limit, every fragment
    has between 1 and 200 characters, and the joining spaces are not
    counted.  With the limit of the report, 2500, that is at most 5198
    characters. *)
Theorem overall_sample_bounded (df : list Entry) (max_chars : Z) :
  (len (_overall_sample df max_chars) <= 2 * Z.max 0 (max_chars - 1) + 200)%Z
  /\ (len (_overall_sample df _OVERALL_SAMPLE_CHARS) <= 5198)%Z.
Proof.
  assert (H : forall m,
             (len (_overall_sample df m) <= 2 * Z.max 0 (m - 1) + 200)%Z).
  { intros m. unfold _overall_sample. rewrite ExcerptFacts.join_length.
    destruct (SampleLaws.sample_loop_bounds m df [] 0 eq_refl) as [Ht Hn];
      [cbn; lia | lia |].
    lia. }
  split; [apply H|]. specialize (H _OVERALL_SAMPLE_CHARS).
  unfold _OVERALL_SAMPLE_CHARS in *. lia.
Qed.


(** ** Grouping *)

Module GroupLaws.
Import PyStr Py Utils ReportBuilder StrFacts ExcerptFacts ExcerptLaws Notions.

Lemma in_first_seen x l : In x (first_seen l) <-> In x l.
Proof.
  induction l as [|y l IH]; [reflexivity|]. cbn [first_seen In].
  rewrite filter_In, IH, negb_true_iff, String.eqb_neq.
  destruct (string_dec y x) as [->|Hne]; [tauto|].
  split; [tauto|]. intros [H|H]; [tauto|]. right. split; [exact H|]. congruence.
Qed.

Lemma NoDup_filter {A} (p : A -> bool) l : NoDup l -> NoDup (filter p l).
Proof.
  induction 1 as [|x l Hx _ IH]; [constructor|]. cbn [filter].
  destruct (p x); [constructor; [|exact IH] | exact IH].
  rewrite filter_In. tauto.
Qed.

Lemma first_seen_NoDup l : NoDup (first_seen l).
Proof.
  induction l as [|x l IH]; [constructor|]. cbn [first_seen].
  constructor; [|apply NoDup_filter; exact IH].
  rewrite filter_In, String.eqb_refl. cbn. intros [_ H]. discriminate.
Qed.

Lemma filter_snoc {A} (p : A -> bool) l x :
  filter p (l ++ [x])%list = (filter p l ++ (if p x then [x] else []))%list.
Proof. rewrite filter_app. reflexivity. Qed.

Lemma filter_none {A} (p : A -> bool) l :
  (forall x, In x l -> p x = false) -> filter p l = [].
Proof.
  induction l as [|x l IH]; [reflexivity|]. intros H. cbn [filter].
  rewrite (H x (or_introl eq_refl)). apply IH. intros y Hy. apply H. right. exact Hy.
Qed.

Lemma filter_all {A} (p : A -> bool) l :
  (forall x, In x l -> p x = true) -> filter p l = l.
Proof.
  induction l as [|x l IH]; [reflexivity|]. intros H. cbn [filter].
  rewrite (H x (or_introl eq_refl)). f_equal. apply IH. intros y Hy. apply H. right. exact Hy.
Qed.

Lemma first_seen_snoc l x :
  first_seen (l ++ [x])%list
  = if existsb (String.eqb x) l then first_seen l else (first_seen l ++ [x])%list.
Proof.
  induction l as [|a l IH]; [reflexivity|].
  cbn [List.app first_seen existsb]. rewrite IH.
  destruct (x =? a) eqn:Exa; cbn [orb].
  - apply String.eqb_eq in Exa. subst a.
    destruct (existsb (String.eqb x) l); [reflexivity|].
    rewrite filter_snoc, String.eqb_refl. cbn [negb]. rewrite List.app_nil_r. reflexivity.
  - destruct (existsb (String.eqb x) l); [reflexivity|].
    rewrite filter_snoc, Exa. reflexivity.
Qed.

(** The groups of a frame, as the rows of each label in the order in
    which the labels first appear. *)
Definition groups_of (key : Entry -> string) (df : list Entry)
    : list (string * list Entry) :=
  map (fun k => (k, filter (fun e => key e =? k) df)) (first_seen (map key df)).

Lemma add_to_group_present k e (f : string -> list Entry) ks :
  NoDup ks -> In k ks ->
  add_to_group k e (map (fun k' => (k', f k')) ks)
  = map (fun k' => (k', if k =? k' then (f k' ++ [e])%list else f k')) ks.
Proof.
  induction 1 as [|k0 ks Hk0 Hnd IH]; [intros []|]. intros Hin.
  cbn [map add_to_group]. destruct (k =? k0) eqn:E.
  - apply String.eqb_eq in E. subst k0. f_equal.
    apply map_ext_in. intros k' Hk'.
    destruct (k =? k') eqn:E'; [|reflexivity].
    apply String.eqb_eq in E'. subst. contradiction.
  - f_equal. apply IH. destruct Hin as [->|Hin]; [|exact Hin].
    rewrite String.eqb_refl in E. discriminate.
Qed.

Lemma add_to_group_absent k e (f : string -> list Entry) ks :
  ~ In k ks ->
  add_to_group k e (map (fun k' => (k', f k')) ks)
  = (map (fun k' => (k', f k')) ks ++ [(k, [e])])%list.
Proof.
  induction ks as [|k0 ks IH]; [reflexivity|]. intros Hin.
  cbn [map add_to_group List.app]. destruct (k =? k0) eqn:E.
  - apply String.eqb_eq in E. subst. exfalso. apply Hin. left. reflexivity.
  - f_equal. apply IH. intros H. apply Hin. right. exact H.
Qed.

Lemma existsb_eqb_iff x l : existsb (String.eqb x) l = true <-> In x l.
Proof.
  rewrite existsb_exists. split.
  - intros (y & Hy & E). apply String.eqb_eq in E. subst. exact Hy.
  - intros H. exists x. split; [exact H | apply String.eqb_refl].
Qed.

Lemma groupby_groups_of key df : groupby_unsorted key df = groups_of key df.
Proof.
  induction df as [|e df IH] using rev_ind; [reflexivity|].
  unfold groupby_unsorted in *. rewrite fold_left_app. cbn [fold_left]. rewrite IH.
  unfold groups_of. rewrite map_app. cbn [map]. rewrite first_seen_snoc.
  destruct (existsb (String.eqb (key e)) (map key df)) eqn:Ex.
  - apply existsb_eqb_iff in Ex.
    rewrite add_to_group_present;
      [|apply first_seen_NoDup | apply in_first_seen; exact Ex].
    apply map_ext. intros k'. rewrite filter_snoc.
    destruct (key e =? k'); [reflexivity | rewrite List.app_nil_r; reflexivity].
  - assert (Hnot : ~ In (key e) (map key df)).
    { intros H. apply existsb_eqb_iff in H. congruence. }
    rewrite add_to_group_absent by (rewrite in_first_seen; exact Hnot).
    rewrite map_app. cbn [map]. f_equal.
    + apply map_ext_in. intros k' Hk'. rewrite filter_snoc.
      destruct (key e =? k') eqn:E; [|rewrite List.app_nil_r; reflexivity].
      apply String.eqb_eq in E. subst k'. apply (proj1 (in_first_seen _ _)) in Hk'. contradiction.
    + rewrite filter_snoc, String.eqb_refl.
      rewrite filter_none; [reflexivity|].
      intros x Hx. apply String.eqb_neq. intros E. apply Hnot. rewrite <- E.
      apply in_map. exact Hx.
Qed.

Lemma first_seen_constant k l :
  l <> [] -> (forall x, In x l -> x = k) -> first_seen l = [k].
Proof.
  destruct l as [|x l]; [congruence|]. intros _ H. cbn [first_seen].
  rewrite (H x (or_introl eq_refl)). f_equal. apply filter_none.
  intros y Hy. apply (proj1 (in_first_seen _ _)) in Hy.
  rewrite (H y (or_intror Hy)), String.eqb_refl. reflexivity.
Qed.

Lemma grouped_excerpts_groups_of df col b :
  _build_grouped_excerpts df col b
  = map (fun k => mkGroupExcerpt k
                    (join " " (accumulate b
                                 (filter (fun e => column_value col e =? k) df) [] 0)))
        (first_seen (map (column_value col) df)).
Proof.
  unfold _build_grouped_excerpts. rewrite groupby_groups_of. unfold groups_of.
  rewrite map_map. reflexivity.
Qed.

(** The frame of one group. *)
Lemma grouped_excerpts_single df col b k :
  In k (map (column_value col) df) ->
  _build_grouped_excerpts (filter (fun e => column_value col e =? k) df) col b
  = [mkGroupExcerpt k
       (join " " (accumulate b (filter (fun e => column_value col e =? k) df) [] 0))].
Proof.
  intros Hk. rewrite grouped_excerpts_groups_of.
  rewrite (first_seen_constant k).
  - cbn [map]. rewrite filter_all; [reflexivity|].
    intros x Hx. apply filter_In in Hx. tauto.
  - apply in_map_iff in Hk as (e & He & Hin). intros E.
    assert (Hf : In e (filter (fun e => column_value col e =? k) df)).
    { apply filter_In. split; [exact Hin | apply String.eqb_eq; exact He]. }
    destruct (filter _ df); [contradiction | discriminate].
  - intros x Hx. apply in_map_iff in Hx as (e & <- & He).
    apply filter_In in He as [_ He]. apply String.eqb_eq. exact He.
Qed.

Lemma total_len_filter (p : string -> bool) l :
  (Spec.total_len (filter p l) <= Spec.total_len l)%Z.
Proof.
  induction l as [|x l IH]; [cbn; lia|]. cbn [filter].
  destruct (p x); cbn [Spec.total_len fold_right] in *;
    fold (Spec.total_len l) (Spec.total_len (filter p l)) in *; unfold len; lia.
Qed.

Lemma stripped_texts_filter (p : Entry -> bool) rows :
  (Spec.total_len (stripped_texts (filter p rows)) <= Spec.total_len (stripped_texts rows))%Z.
Proof.
  induction rows as [|row rows IH]; [cbn; lia|]. cbn [filter].
  pose proof (SampleLaws.total_len_nonneg (stripped_texts rows)).
  destruct (p row); rewrite ?SampleLaws.stripped_texts_cons;
    destruct (strip (text row) =? ""); cbn [Spec.total_len fold_right];
    fold (Spec.total_len (stripped_texts rows))
         (Spec.total_len (stripped_texts (filter p rows))); unfold len; lia.
Qed.

End GroupLaws.

(** X8. The grouped excerpts have one group for each distinct label of the
    column and no other, in the order in which the labels first appear in
    the frame (not sorted); and the excerpt of a group is the one that the
    rows with that label give alone, other rows having no effect on it. *)
Theorem grouped_excerpts_by_first_appearance (df : list Entry) (col : column)
    (budget : Z) :
  let result := _build_grouped_excerpts df col budget in
  map group result = first_seen (map (column_value col) df)
  /\ NoDup (map group result)
  /\ (forall g, In g result ->
        _build_grouped_excerpts
          (filter (fun e => column_value col e =? group g) df) col budget = [g]).
Proof.
  cbv zeta. rewrite GroupLaws.grouped_excerpts_groups_of.
  assert (Hm : map group
                 (map (fun k => mkGroupExcerpt k
                                  (join " " (accumulate budget
                                     (filter (fun e => column_value col e =? k) df) [] 0)))
                      (first_seen (map (column_value col) df)))
               = first_seen (map (column_value col) df)).
  { rewrite map_map. cbn [group]. apply map_id. }
  split; [exact Hm|]. split; [rewrite Hm; apply GroupLaws.first_seen_NoDup|].
  intros g Hg. apply in_map_iff in Hg as (k & <- & Hk). cbn [group].
  apply GroupLaws.grouped_excerpts_single. apply GroupLaws.in_first_seen. exact Hk.
Qed.

(** X9. A budget that the texts do not reach truncates nothing.  When the
    stripped texts of the frame add up to less than the budget, the excerpt
    of every group is the stripped texts of its rows that are not empty,
    in frame order, joined by single spaces; and when moreover none of them
    is longer than 200 characters, the overall sample is those of all rows
    joined by single spaces. *)
Theorem short_texts_are_kept_whole (df : list Entry) (budget : Z) :
  (Spec.total_len (stripped_texts df) < budget)%Z ->
  (forall col g,
      In g (_build_grouped_excerpts df col budget) ->
      excerpts g
      = join " " (stripped_texts
                    (filter (fun e => column_value col e =? group g) df)))
  /\ (Forall (fun t => String.length t <= 200) (stripped_texts df) ->
      _overall_sample df budget = join " " (stripped_texts df)).
Proof.
  intros Hb. split.
  - intros col g Hg. rewrite GroupLaws.grouped_excerpts_groups_of in Hg.
    apply in_map_iff in Hg as (k & <- & _). cbn [group excerpts].
    rewrite SampleLaws.accumulate_whole; [reflexivity | reflexivity |].
    pose proof (GroupLaws.stripped_texts_filter (fun e => column_value col e =? k) df).
    cbn [Spec.total_len fold_right]. lia.
  - intros H200. unfold _overall_sample.
    rewrite SampleLaws.sample_loop_whole; [reflexivity | reflexivity | | cbn; lia].
    apply Forall_impl with (2 := H200). intros t Ht. unfold len. lia.
Qed.

Lemma short_texts_are_kept_whole_witness :
  (Spec.total_len (stripped_texts sample_entries) < 600)%Z
  /\ map excerpts (_build_grouped_excerpts sample_entries ColMonth 600)
     = ["felt OCD today productive day at work"; "calm and happy"]
  /\ _overall_sample sample_entries 600
     = "felt OCD today productive day at work calm and happy".
Proof.
  assert (H : (Spec.total_len (stripped_texts sample_entries) < 600)%Z)
    by (vm_compute; reflexivity).
  destruct (short_texts_are_kept_whole sample_entries 600 H) as [_ Hs].
  split; [exact H|]. split; [vm_compute; reflexivity|].
  rewrite Hs; [vm_compute; reflexivity|].
  unfold sample_entries, stripped_texts. vm_compute.
  repeat constructor.
Defined.

(** ** Monthly counts *)

Module CountLaws.
Import PyStr Py Utils ReportBuilder PhraseFacts Notions.

Lemma indicator_sum x ms :
  NoDup ms -> In x ms ->
  list_sum (map (fun m : string => if x =? m then 1 else 0) ms) = 1.
Proof.
  induction 1 as [|m ms Hm Hnd IH]; [intros []|]. intros Hin. cbn [map list_sum fold_right].
  fold (list_sum (map (fun m : string => if x =? m then 1 else 0) ms)).
  destruct (x =? m) eqn:E.
  - apply String.eqb_eq in E. subst m.
    assert (Hz : list_sum (map (fun m : string => if x =? m then 1 else 0) ms) = 0).
    { clear IH Hnd Hin. induction ms as [|y ms IH]; [reflexivity|].
      cbn [map list_sum fold_right].
      fold (list_sum (map (fun m : string => if x =? m then 1 else 0) ms)).
      destruct (x =? y) eqn:E; [apply String.eqb_eq in E; subst; exfalso; apply Hm; left; reflexivity|].
      rewrite IH; [reflexivity|]. intros H. apply Hm. right. exact H. }
    rewrite Hz. reflexivity.
  - rewrite IH; [reflexivity|]. destruct Hin as [->|Hin]; [|exact Hin].
    rewrite String.eqb_refl in E. discriminate.
Qed.

Lemma list_sum_map_add {A} (f g : A -> nat) l :
  list_sum (map (fun a => f a + g a) l) = list_sum (map f l) + list_sum (map g l).
Proof.
  induction l as [|a l IH]; [reflexivity|]. cbn [map list_sum fold_right].
  fold (list_sum (map (fun a => f a + g a) l)) (list_sum (map f l)) (list_sum (map g l)).
  lia.
Qed.

Lemma list_sum_zero {A} (l : list A) : list_sum (map (fun _ => 0) l) = 0.
Proof. induction l as [|a l IH]; [reflexivity|]. cbn [map list_sum fold_right]. exact IH. Qed.

(** Counting by key over keys that cover the rows counts every row
    once. *)
Lemma partition_count (rows : list (string * bool)) ms :
  NoDup ms -> (forall r, In r rows -> In (fst r) ms) ->
  list_sum (map (fun m => List.length (filter (fun r => (fst r =? m) && snd r) rows)) ms)
  = List.length (filter snd rows).
Proof.
  intros Hnd. induction rows as [|r rows IH]; intros Hcov.
  - cbn [filter List.length]. apply list_sum_zero.
  - rewrite (map_ext _ (fun m => (if (fst r =? m) && snd r then 1 else 0)
                                  + List.length (filter (fun r => (fst r =? m) && snd r) rows))).
    2:{ intros m. cbn [filter]. destruct ((fst r =? m) && snd r); reflexivity. }
    rewrite list_sum_map_add, IH by (intros r' Hr'; apply Hcov; right; exact Hr').
    cbn [filter]. destruct (snd r).
    + rewrite (map_ext _ (fun m => if fst r =? m then 1 else 0))
        by (intros m; rewrite andb_true_r; reflexivity).
      rewrite indicator_sum; [reflexivity | exact Hnd | apply Hcov; left; reflexivity].
    + rewrite (map_ext _ (fun _ => 0)) by (intros m; rewrite andb_false_r; reflexivity).
      rewrite list_sum_zero. reflexivity.
Qed.

End CountLaws.

(** X10. The monthly counts of a phrase add up to the number of entries
    of the frame that the phrase matches: every matching entry is counted
    in one month and no entry is counted twice. *)
Theorem phrase_counts_add_up (df : list Entry) (phrase : string) :
  list_sum (map snd (_phrase_counts_by_month df phrase))
  = List.length (filter (fun e => _phrase_matches_entry (text e) phrase) df).
Proof.
  unfold _phrase_counts_by_month. rewrite map_map. cbn [snd].
  rewrite CountLaws.partition_count.
  - rewrite PhraseFacts.filter_map_length. reflexivity.
  - apply PhraseFacts.sorted_NoDup, PhraseFacts.sorted_unique_sorted.
  - intros r Hr. apply PhraseFacts.in_sorted_unique. apply in_map. exact Hr.
Qed.

(** ** Runs of the report builder *)

Module RunLaws.
Import PyStr Py Utils ReportBuilder Report ChatFacts Notions Charts.

(** A run that at most sends chat requests with the given credential:
    the clock, the service, the directories and the files stay as they
    are, and at most [n] requests are added. *)
Definition chat_requests (api_key : option string) (new : list request) : Prop :=
  Forall (fun rq => exists prompt, rq = chat_request prompt api_key) new.

Record same_but_sent (api_key : option string) (n : nat) (w w' : world) : Prop := {
  sb_clock : clock w' = clock w;
  sb_remote : remote w' = remote w;
  sb_dirs : dirs w' = dirs w;
  sb_files : files w' = files w;
  sb_sent : exists new, sent w' = (new ++ sent w)%list
                        /\ List.length new <= n /\ chat_requests api_key new
}.

Lemma same_refl api_key w : same_but_sent api_key 0 w w.
Proof.
  split; try reflexivity. exists []. split; [reflexivity|]. split; [cbn; lia | constructor].
Qed.

Lemma same_trans api_key n1 n2 w1 w2 w3 :
  same_but_sent api_key n1 w1 w2 -> same_but_sent api_key n2 w2 w3 ->
  same_but_sent api_key (n1 + n2) w1 w3.
Proof.
  intros [c1 r1 d1 f1 (new1 & E1 & L1 & F1)] [c2 r2 d2 f2 (new2 & E2 & L2 & F2)].
  split; try congruence.
  exists (new2 ++ new1)%list. split; [rewrite E2, E1, List.app_assoc; reflexivity|].
  split; [rewrite List.length_app; lia | apply Forall_app; split; assumption].
Qed.

Lemma same_weaken api_key n n' w w' :
  n <= n' -> same_but_sent api_key n w w' -> same_but_sent api_key n' w w'.
Proof.
  intros Hn [c r d f (new & E & L & F)]. split; try assumption.
  exists new. split; [exact E|]. split; [lia | exact F].
Qed.

(** A computation that only sends, and whose value satisfies [P]. *)
Definition sends {A} (api_key : option string) (n : nat) (P : A -> Prop) (m : M A) : Prop :=
  forall w,
    same_but_sent api_key n w (snd (m w))
    /\ match fst (m w) with Ok a => P a | Raise _ => True end.

Lemma sends_ret {A} api_key (P : A -> Prop) a : P a -> sends api_key 0 P (ret a).
Proof. intros Ha w. split; [apply same_refl | exact Ha]. Qed.

Lemma sends_lift {A} api_key (P : A -> Prop) (r : result A) :
  (forall a, r = Ok a -> P a) -> sends api_key 0 P (lift r).
Proof.
  intros Hr w. split; [apply same_refl|]. unfold lift. cbn [fst].
  destruct r; [apply Hr; reflexivity | exact I].
Qed.

Lemma sends_bind {A B} api_key n1 n2 (P : A -> Prop) (Q : B -> Prop)
    (m : M A) (f : A -> M B) :
  sends api_key n1 P m -> (forall a, P a -> sends api_key n2 Q (f a)) ->
  sends api_key (n1 + n2) Q (bind m f).
Proof.
  intros Hm Hf w. unfold bind. destruct (Hm w) as [Hs Hv].
  destruct (m w) as [[a|e] w1]; cbn [fst snd] in *.
  - destruct (Hf a Hv w1) as [Hs2 Hv2]. split; [|exact Hv2].
    eapply same_trans; eassumption.
  - split; [|exact I]. eapply same_weaken; [|exact Hs]. lia.
Qed.

Lemma sends_weaken {A} api_key n n' (P P' : A -> Prop) (m : M A) :
  n <= n' -> (forall a, P a -> P' a) -> sends api_key n P m -> sends api_key n' P' m.
Proof.
  intros Hn HP Hm w. destruct (Hm w) as [Hs Hv]. split.
  - eapply same_weaken; eassumption.
  - destruct (fst (m w)); [apply HP; exact Hv | exact I].
Qed.

Lemma sends_ret_within {A} api_key n (P : A -> Prop) a : P a -> sends api_key n P (ret a).
Proof.
  intros Ha. apply (sends_weaken api_key 0 n P P); [lia | auto | apply sends_ret; exact Ha].
Qed.

Lemma sends_ollama_chat api_key prompt :
  sends api_key 1 (fun _ => True) (ollama_chat prompt api_key).
Proof.
  intros w. destruct (key_absent api_key) eqn:Hk.
  - rewrite (ollama_chat_absent _ _ _ Hk). cbn [fst snd].
    split; [|exact I]. eapply same_weaken; [|apply same_refl]. lia.
  - rewrite (ollama_chat_present _ _ _ Hk). cbn [fst snd]. split; [|exact I].
    split; try reflexivity.
    exists [chat_request prompt api_key]. split; [reflexivity|].
    split; [cbn; lia|]. constructor; [eexists; reflexivity | constructor].
Qed.

Section WithLibs.
Context `{PyLibs}.

Lemma sends_summary api_key prompt :
  sends api_key 1 (fun _ : string => True)
    (bind (ollama_chat prompt api_key)
          (fun reply => if truthy reply then lift (value_strip reply) else ret placeholder)).
Proof.
  change 1 with (1 + 0). eapply sends_bind; [apply sends_ollama_chat|].
  intros reply _. destruct (truthy reply); [apply sends_lift | apply sends_ret]; auto.
Qed.

Lemma sends_overall_summary api_key overall_text prompt :
  sends api_key 1 (fun _ => True) (overall_summary api_key overall_text prompt).
Proof.
  unfold overall_summary. destruct (_ && _).
  - apply sends_summary.
  - apply sends_ret_within; exact I.
Qed.

Lemma sends_observations api_key prompt month_labels :
  sends api_key 1 (fun _ => True) (observations prompt api_key month_labels).
Proof.
  unfold observations. change 1 with (1 + (0 + 0)).
  eapply sends_bind; [apply sends_ollama_chat|].
  intros reply _. destruct (truthy reply).
  - apply (sends_bind _ 0 0 (fun _ => True)); [apply sends_lift; intros; exact I|].
    intros r _. cbv zeta. destruct (truthy (_extract_json_from_reply r));
      [apply sends_lift | apply sends_ret]; auto.
  - apply sends_ret_within; exact I.
Qed.

Definition local_sections (entries_df : list Entry) (trend_keywords : list string)
    (secs : list TrendSection) : Prop :=
  map keyword secs = trend_keywords
  /\ map chart_html secs = map (chart_of entries_df) trend_keywords.

Lemma sends_trend_section entries_df api_key kw :
  sends api_key 1
    (fun sec => keyword sec = kw /\ chart_html sec = chart_of entries_df kw)
    (trend_section entries_df api_key kw).
Proof.
  unfold trend_section. change 1 with (1 + 0). eapply sends_bind.
  - destruct (_ && _); [apply sends_summary|].
    apply sends_ret_within; exact I.
  - intros summary _. apply sends_ret. split; reflexivity.
Qed.

Lemma sends_trend_loop entries_df api_key trend_keywords :
  sends api_key (List.length trend_keywords)
    (local_sections entries_df trend_keywords)
    (trend_loop entries_df api_key trend_keywords).
Proof.
  induction trend_keywords as [|kw kws IH].
  - apply sends_ret. split; reflexivity.
  - cbn [trend_loop List.length]. change (S (List.length kws)) with (1 + List.length kws).
    eapply sends_bind; [apply sends_trend_section|].
    intros sec [Hk Hc]. rewrite <- (Nat.add_0_r (List.length kws)).
    eapply sends_bind; [exact IH|].
    intros secs [Hks Hcs]. apply sends_ret.
    split; cbn [map]; congruence.
Qed.

(** A computation that only sends and then writes one file, at [path],
    when it returns, and no file when it raises. *)
Definition writes (api_key : option string) (n : nat) (path : string)
    (Q : string -> Prop) (m : M string) : Prop :=
  forall w,
    let w' := snd (m w) in
    clock w' = clock w /\ remote w' = remote w /\ dirs w' = dirs w
    /\ (exists new, sent w' = (new ++ sent w)%list
                    /\ List.length new <= n /\ chat_requests api_key new)
    /\ match fst (m w) with
       | Ok p => p = path /\ exists doc, Q doc /\ files w' = (path, doc) :: files w
       | Raise _ => files w' = files w
       end.

Lemma writes_final api_key path (Q : string -> Prop) doc :
  Q doc -> writes api_key 0 path Q (bind (write_file path doc) (fun _ => ret path)).
Proof.
  intros HQ w. cbn.
  refine (conj eq_refl (conj eq_refl (conj eq_refl (conj _ (conj eq_refl _))))).
  - exists []. split; [reflexivity|]. split; [apply Nat.le_refl | constructor].
  - exists doc. split; [exact HQ | reflexivity].
Qed.

Lemma writes_bind {A} api_key n1 n2 path (P : A -> Prop) (Q : string -> Prop)
    (m : M A) (f : A -> M string) :
  sends api_key n1 P m -> (forall a, P a -> writes api_key n2 path Q (f a)) ->
  writes api_key (n1 + n2) path Q (bind m f).
Proof.
  intros Hm Hf w. unfold bind. destruct (Hm w) as [[c1 r1 d1 f1 (new1 & E1 & L1 & F1)] Hv].
  destruct (m w) as [[a|e] w1]; cbn [fst snd] in *.
  - destruct (Hf a Hv w1) as (c2 & r2 & d2 & (new2 & E2 & L2 & F2) & Hres).
    cbv zeta in *.
    refine (conj _ (conj _ (conj _ (conj _ _)))); try congruence.
    + exists (new2 ++ new1)%list. split; [rewrite E2, E1, List.app_assoc; reflexivity|].
      split; [rewrite List.length_app; lia | apply Forall_app; split; assumption].
    + destruct (fst (f a w1)); [|congruence].
      destruct Hres as (Hp & doc & HQ & Hfiles). split; [exact Hp|].
      exists doc. split; [exact HQ | congruence].
  - refine (conj c1 (conj r1 (conj d1 (conj _ f1)))).
    exists new1. split; [exact E1|]. split; [lia | exact F1].
Qed.

Lemma writes_weaken api_key n n' path (Q : string -> Prop) m :
  n <= n' -> writes api_key n path Q m -> writes api_key n' path Q m.
Proof.
  intros Hn Hm w. destruct (Hm w) as (c & r & d & (new & E & L & F) & Hres).
  cbv zeta. refine (conj c (conj r (conj d (conj _ Hres)))).
  exists new. split; [exact E|]. split; [lia | exact F].
Qed.

(** The documents [build_report] can write for a frame. *)
Definition report_document (now : datetime) (entries_df : list Entry)
    (trend_keywords : list string) (date_from date_to : Date) (doc : string) : Prop :=
  exists t : Narrative,
    doc = document now date_from date_to (List.length entries_df) t
    /\ local_sections entries_df trend_keywords (trend_sections t).

(** [build_report], after the directory is there and the clock is read. *)
Lemma build_report_run entries_df trend_keywords api_key date_from date_to w :
  let out := build_report entries_df trend_keywords api_key date_from date_to w in
  let w' := snd out in
  clock w' = clock w /\ remote w' = remote w
  /\ dirs w' = (if existsb (String.eqb reports_dir) (dirs w) then dirs w
                else reports_dir :: dirs w)
  /\ (exists new, sent w' = (new ++ sent w)%list
                  /\ List.length new <= 4 + List.length trend_keywords
                  /\ chat_requests api_key new)
  /\ match fst out with
     | Ok p => p = report_path (clock w)
               /\ exists doc,
                    report_document (clock w) entries_df trend_keywords date_from date_to doc
                    /\ files w' = (p, doc) :: files w
     | Raise _ => files w' = files w
     end.
Proof.
  cbv zeta.
  remember (build_report entries_df trend_keywords api_key date_from date_to w) as out eqn:E.
  unfold build_report in E.
  unfold bind at 1 in E. unfold _ensure_reports_dir at 1 in E.
  unfold bind at 1 in E. unfold datetime_now at 1 in E. cbn [clock] in E.
  match type of E with
  | _ = bind ?m ?f ?w0 => set (rest := bind m f) in E; set (w1 := w0) in E
  end.
  assert (Hw : writes api_key (4 + List.length trend_keywords)
                 (report_path (clock w))
                 (report_document (clock w) entries_df trend_keywords date_from date_to)
                 rest).
  { subst rest.
    apply (writes_weaken _ (1 + (1 + (2 + (List.length trend_keywords + 0))))); [lia|].
    eapply writes_bind; [apply sends_overall_summary|]. intros activity _.
    eapply writes_bind; [apply sends_overall_summary|]. intros emotion _.
    eapply writes_bind.
    { instantiate (1 := fun _ => True).
      destruct (_ && _).
      - change 2 with (1 + (1 + 0)).
        eapply sends_bind; [apply sends_observations|]. intros act _.
        eapply sends_bind; [apply sends_observations|]. intros emo _.
        apply sends_ret. exact I.
      - apply sends_ret_within; exact I. }
    intros obs _.
    eapply writes_bind; [apply sends_trend_loop|]. intros trends Htrends.
    apply writes_final.
    exists (mkNarrative activity emotion (fst obs) (snd obs) trends).
    split; [reflexivity | exact Htrends]. }
  clearbody rest. destruct (Hw w1) as (Hc & Hr & Hd & Hs & Hres). rewrite E.
  destruct (rest w1) as [[p|e] w2]. all: cbn [fst snd] in *.
  all: subst w1. all: cbn [clock remote dirs sent files] in *.
  - refine (conj Hc (conj Hr (conj Hd (conj Hs _)))).
    destruct Hres as (-> & doc & HQ & Hf). split; [reflexivity|].
    exists doc. split; assumption.
  - exact (conj Hc (conj Hr (conj Hd (conj Hs Hres)))).
Qed.

End WithLibs.

End RunLaws.

Import Charts.

(** X11. A report is written whole or not at all.  When [build_report]
    returns, its value is the path made of the reports directory and the
    time of the clock, and exactly one file has been written, at that path:
    the document of some narrative whose trend sections are those of the
    trend phrases, in order, each with the chart computed from the frame.
    When it raises, no file has been written.  Either way the clock and
    the service are as before. *)
Theorem report_file_all_or_nothing `{PyLibs} (entries_df : list Entry)
    (trend_keywords : list string) (api_key : option string)
    (date_from date_to : Date) (w : world) :
  let out := build_report entries_df trend_keywords api_key date_from date_to w in
  clock (snd out) = clock w /\ remote (snd out) = remote w
  /\ match fst out with
     | Ok path =>
         path = report_path (clock w)
         /\ exists t : Narrative,
              files (snd out)
              = (path, document (clock w) date_from date_to (List.length entries_df) t)
                :: files w
              /\ map keyword (trend_sections t) = trend_keywords
              /\ map chart_html (trend_sections t) = map (chart_of entries_df) trend_keywords
     | Raise _ => files (snd out) = files w
     end.
Proof.
  cbv zeta.
  destruct (RunLaws.build_report_run entries_df trend_keywords api_key date_from date_to w)
    as (Hc & Hr & _ & _ & Hres).
  cbv zeta in Hres. split; [exact Hc|]. split; [exact Hr|].
  destruct (fst (build_report entries_df trend_keywords api_key date_from date_to w));
    [|exact Hres].
  destruct Hres as (-> & doc & (t & -> & Hk & Hch) & Hf). split; [reflexivity|].
  exists t. auto.
Qed.

(** X12. Whatever the service answers, [build_report] sends at most four
    requests and one for each trend phrase, all of them after those sent
    before, and each is the chat request of [ollama_chat] for some prompt,
    with the credential that [build_report] was given. *)
Theorem report_requests_bounded `{PyLibs} (entries_df : list Entry)
    (trend_keywords : list string) (api_key : option string)
    (date_from date_to : Date) (w : world) :
  exists new : list request,
    sent (snd (build_report entries_df trend_keywords api_key date_from date_to w))
    = (new ++ sent w)%list
    /\ List.length new <= 4 + List.length trend_keywords
    /\ Forall (fun rq => exists prompt, rq = chat_request prompt api_key) new.
Proof.
  destruct (RunLaws.build_report_run entries_df trend_keywords api_key date_from date_to w)
    as (_ & _ & _ & Hs & _).
  exact Hs.
Qed.

(** X23. [build_report] makes the reports directory before anything else:
    when it ends, by returning or by raising, the directory exists, and it
    is added only if it was not there; no other directory is made and none
    is removed. *)
Theorem report_directory_is_created `{PyLibs} (entries_df : list Entry)
    (trend_keywords : list string) (api_key : option string)
    (date_from date_to : Date) (w : world) :
  let w' := snd (build_report entries_df trend_keywords api_key date_from date_to w) in
  In reports_dir (dirs w')
  /\ (In reports_dir (dirs w) -> dirs w' = dirs w)
  /\ (~ In reports_dir (dirs w) -> dirs w' = reports_dir :: dirs w).
Proof.
  destruct (RunLaws.build_report_run entries_df trend_keywords api_key date_from date_to w)
    as (_ & _ & Hd & _).
  cbv zeta in *. rewrite Hd.
  destruct (existsb (String.eqb reports_dir) (dirs w)) eqn:E.
  - apply GroupLaws.existsb_eqb_iff in E. split; [exact E|]. split; [reflexivity|].
    intros Hn. contradiction.
  - assert (Hn : ~ In reports_dir (dirs w)).
    { intros Hin. apply GroupLaws.existsb_eqb_iff in Hin. congruence. }
    split; [left; reflexivity|]. split; [intros Hin; contradiction | reflexivity].
Qed.

(** ** Replies that the report builder does not expect *)

Module ReplyLaws.
Import PyStr Py Utils ReportBuilder Report ChatFacts Notions.

Lemma chat_answers w c prompt api_key :
  answers w c -> key_absent api_key = false ->
  ollama_chat prompt api_key w = (Ok c, after_request (chat_request prompt api_key) w).
Proof.
  intros Ha Hk. rewrite (ollama_chat_present _ _ _ Hk), Ha. reflexivity.
Qed.

Lemma answers_after w c rq : answers w c -> answers (after_request rq w) c.
Proof. intros Ha hist rq'. apply Ha. Qed.

Lemma truthy_text r : r <> "" -> truthy (JStr r) = true.
Proof. intros Hr. cbn [truthy]. apply negb_true_iff, String.eqb_neq. exact Hr. Qed.

Lemma value_strip_raises c :
  (forall s, c <> JStr s) -> value_strip c = Raise AttributeError.
Proof. intros Hc. destruct c; try reflexivity. exfalso. exact (Hc s eq_refl). Qed.

Lemma groups_nonempty df col b : df <> [] -> _build_grouped_excerpts df col b <> [].
Proof.
  intros Hdf. rewrite GroupLaws.grouped_excerpts_groups_of.
  destruct df as [|e df]; [congruence|]. cbn [map first_seen]. discriminate.
Qed.

Section WithLibs.
Context `{PyLibs}.

Lemma overall_summary_text w r api_key overall_text prompt :
  answers w (JStr r) -> r <> "" ->
  exists s w2,
    overall_summary api_key overall_text prompt w = (Ok s, w2) /\ answers w2 (JStr r).
Proof.
  intros Ha Hr. unfold overall_summary.
  destruct (key_absent api_key) eqn:Hk; cbn [negb andb]; [exists placeholder, w; auto|].
  destruct (overall_text =? ""); cbn [negb]; [exists placeholder, w; auto|].
  unfold bind. rewrite (chat_answers _ _ _ _ Ha Hk), (truthy_text _ Hr).
  eexists _, _. split; [reflexivity | apply answers_after; exact Ha].
Qed.

Lemma overall_summary_non_text w c api_key overall_text prompt :
  answers w c -> truthy c = true -> (forall s, c <> JStr s) ->
  key_absent api_key = false ->
  (overall_text = ""
   /\ overall_summary api_key overall_text prompt w = (Ok placeholder, w))
  \/ exists w2, overall_summary api_key overall_text prompt w = (Raise AttributeError, w2).
Proof.
  intros Ha Ht Hc Hk. unfold overall_summary. rewrite Hk. cbn [negb andb].
  destruct (overall_text =? "") eqn:E; cbn [negb].
  - left. apply String.eqb_eq in E. auto.
  - right. unfold bind. rewrite (chat_answers _ _ _ _ Ha Hk), Ht.
    unfold lift. rewrite (value_strip_raises _ Hc). eexists. reflexivity.
Qed.

Lemma observations_non_text w c api_key prompt month_labels :
  answers w c -> truthy c = true -> (forall s, c <> JStr s) ->
  key_absent api_key = false ->
  exists w2, observations prompt api_key month_labels w = (Raise AttributeError, w2).
Proof.
  intros Ha Ht Hc Hk. unfold observations, bind.
  rewrite (chat_answers _ _ _ _ Ha Hk), Ht.
  unfold lift. rewrite (value_strip_raises _ Hc). eexists. reflexivity.
Qed.

Lemma tables_need_object parsed month_labels dows tods :
  is_dict parsed = false ->
  _observations_to_html_tables parsed month_labels dows tods = Raise AttributeError.
Proof.
  intros Hd. unfold _observations_to_html_tables, table_for.
  destruct parsed; try reflexivity. discriminate.
Qed.

Lemma observations_non_object w r api_key prompt month_labels :
  answers w (JStr r) -> r <> "" ->
  truthy (_extract_json_from_reply (strip r)) = true ->
  is_dict (_extract_json_from_reply (strip r)) = false ->
  key_absent api_key = false ->
  exists w2, observations prompt api_key month_labels w = (Raise AttributeError, w2).
Proof.
  intros Ha Hr Ht Hd Hk. unfold observations, bind.
  rewrite (chat_answers _ _ _ _ Ha Hk), (truthy_text _ Hr).
  unfold lift. cbn [value_strip]. rewrite Ht, (tables_need_object _ _ _ _ Hd).
  eexists. reflexivity.
Qed.

(** [build_report] from its first request on, in a world that has the
    directory. *)
Ltac start_run E out w1 :=
  match goal with
  | |- context [build_report ?df ?kws ?k ?f ?t ?w] =>
      remember (build_report df kws k f t w) as out eqn:E;
      unfold build_report in E;
      unfold bind at 1 in E; unfold _ensure_reports_dir at 1 in E;
      unfold bind at 1 in E; unfold datetime_now at 1 in E; cbn [clock] in E;
      match type of E with
      | _ = bind ?m ?g ?w0 => set (w1 := w0) in E
      end
  end.

Lemma report_raises_non_text entries_df trend_keywords api_key date_from date_to w c :
  entries_df <> [] -> key_absent api_key = false ->
  answers w c -> truthy c = true -> (forall s, c <> JStr s) ->
  fst (build_report entries_df trend_keywords api_key date_from date_to w)
  = Raise AttributeError.
Proof.
  intros Hdf Hk Ha Ht Hc. start_run E out w1.
  assert (Ha1 : answers w1 c) by (intros hist rq; apply Ha).
  clearbody w1.
  unfold bind at 1 in E.
  match type of E with
  | context [overall_summary ?k ?t ?p w1] =>
      destruct (overall_summary_non_text w1 c k t p Ha1 Ht Hc Hk) as [[Et E1]|[w2 E1]];
      rewrite E1 in E
  end; [|subst out; reflexivity].
  unfold bind at 1 in E.
  match type of E with
  | context [overall_summary ?k ?t ?p w1] =>
      destruct (overall_summary_non_text w1 c k t p Ha1 Ht Hc Hk) as [[_ E2]|[w2 E2]];
      rewrite E2 in E
  end; [|subst out; reflexivity].
  rewrite Hk in E. cbn [negb andb] in E.
  destruct (_build_grouped_excerpts entries_df ColMonth _EXCERPT_CHARS_PER_GROUP) eqn:Eg;
    [exfalso; exact (groups_nonempty _ _ _ Hdf Eg)|].
  cbn [negb] in E. unfold bind at 1 in E. unfold bind at 1 in E.
  match type of E with
  | context [observations ?p ?k ?l w1] =>
      destruct (observations_non_text w1 c k p l Ha1 Ht Hc Hk) as [w2 E3];
      rewrite E3 in E
  end.
  subst out. reflexivity.
Qed.

Lemma report_raises_non_object entries_df trend_keywords api_key date_from date_to w r :
  entries_df <> [] -> key_absent api_key = false ->
  answers w (JStr r) -> r <> "" ->
  truthy (_extract_json_from_reply (strip r)) = true ->
  is_dict (_extract_json_from_reply (strip r)) = false ->
  fst (build_report entries_df trend_keywords api_key date_from date_to w)
  = Raise AttributeError.
Proof.
  intros Hdf Hk Ha Hr Ht Hd. start_run E out w1.
  assert (Ha1 : answers w1 (JStr r)) by (intros hist rq; apply Ha).
  clearbody w1.
  unfold bind at 1 in E.
  match type of E with
  | context [overall_summary ?k ?t ?p w1] =>
      destruct (overall_summary_text w1 r k t p Ha1 Hr) as (s1 & w2 & E1 & Ha2);
      rewrite E1 in E
  end.
  unfold bind at 1 in E.
  match type of E with
  | context [overall_summary ?k ?t ?p w2] =>
      destruct (overall_summary_text w2 r k t p Ha2 Hr) as (s2 & w3 & E2 & Ha3);
      rewrite E2 in E
  end.
  rewrite Hk in E. cbn [negb andb] in E.
  destruct (_build_grouped_excerpts entries_df ColMonth _EXCERPT_CHARS_PER_GROUP) eqn:Eg;
    [exfalso; exact (groups_nonempty _ _ _ Hdf Eg)|].
  cbn [negb] in E. unfold bind at 1 in E. unfold bind at 1 in E.
  match type of E with
  | context [observations ?p ?k ?l w3] =>
      destruct (observations_non_object w3 r k p l Ha3 Hr Ht Hd Hk) as [w4 E3];
      rewrite E3 in E
  end.
  subst out. reflexivity.
Qed.


(** Runs in which every reply is a text. *)
Definition advanced (n : nat) (w w' : world) : Prop :=
  clock w' = clock w /\ remote w' = remote w /\ dirs w' = dirs w
  /\ files w' = files w /\ List.length (sent w') = n + List.length (sent w).

Lemma advanced_request rq w : advanced 1 w (after_request rq w).
Proof. repeat split. Qed.

Lemma advanced_answers n w w' c : answers w c -> advanced n w w' -> answers w' c.
Proof. intros Ha (_ & Hr & _) hist rq. rewrite Hr. apply Ha. Qed.

Lemma advanced_trans n1 n2 w1 w2 w3 :
  advanced n1 w1 w2 -> advanced n2 w2 w3 -> advanced (n2 + n1) w1 w3.
Proof.
  intros (c1 & r1 & d1 & f1 & s1) (c2 & r2 & d2 & f2 & s2).
  unfold advanced. rewrite c2, r2, d2, f2, s2, s1.
  repeat split; try assumption. lia.
Qed.

Lemma overall_summary_reply w r api_key overall_text prompt :
  answers w (JStr r) -> r <> "" -> key_absent api_key = false -> overall_text <> "" ->
  exists w2, overall_summary api_key overall_text prompt w = (Ok (strip r), w2)
             /\ advanced 1 w w2.
Proof.
  intros Ha Hr Hk Ht. unfold overall_summary. rewrite Hk.
  apply String.eqb_neq in Ht. rewrite Ht. cbn [negb andb].
  unfold bind. rewrite (chat_answers _ _ _ _ Ha Hk), (truthy_text _ Hr).
  eexists. split; [reflexivity | apply advanced_request].
Qed.

Lemma observations_raw w r api_key prompt month_labels :
  answers w (JStr r) -> r <> "" -> key_absent api_key = false ->
  truthy (_extract_json_from_reply (strip r)) = false ->
  exists w2, observations prompt api_key month_labels w
             = (Ok (_raw_to_bullet_list (strip r)), w2)
             /\ advanced 1 w w2.
Proof.
  intros Ha Hr Hk Hp. unfold observations, bind.
  rewrite (chat_answers _ _ _ _ Ha Hk), (truthy_text _ Hr).
  unfold lift. cbn [value_strip]. rewrite Hp.
  eexists. split; [reflexivity | apply advanced_request].
Qed.

Lemma insert_sorted_nonempty x l : insert_sorted x l <> [].
Proof. destruct l as [|y l]; cbn [insert_sorted]; [|destruct (String.compare x y)]; discriminate. Qed.

Lemma counts_nonempty df phrase : df <> [] -> _phrase_counts_by_month df phrase <> [].
Proof.
  destruct df as [|e df]; [congruence|]. intros _ E.
  apply (f_equal (map fst)) in E. rewrite PhraseFacts.counts_months in E.
  cbn [map sorted_unique fold_right] in E. exact (insert_sorted_nonempty _ _ E).
Qed.

Lemma trend_section_reply entries_df w r api_key kw :
  answers w (JStr r) -> r <> "" -> key_absent api_key = false -> entries_df <> [] ->
  exists w2, trend_section entries_df api_key kw w
             = (Ok (mkTrend kw (Charts.chart_of entries_df kw) (strip r)), w2)
             /\ advanced 1 w w2.
Proof.
  intros Ha Hr Hk Hdf. unfold trend_section. rewrite Hk.
  destruct (_phrase_counts_by_month entries_df kw) as [|row rows] eqn:Ec;
    [exfalso; exact (counts_nonempty _ _ Hdf Ec)|].
  cbn [negb andb]. unfold bind at 1. unfold bind at 1.
  rewrite (chat_answers _ _ _ _ Ha Hk), (truthy_text _ Hr).
  unfold lift. cbn [value_strip]. unfold ret, Charts.chart_of. rewrite Ec.
  eexists. split; [reflexivity | apply advanced_request].
Qed.

Lemma trend_loop_reply entries_df w r api_key trend_keywords :
  answers w (JStr r) -> r <> "" -> key_absent api_key = false -> entries_df <> [] ->
  exists w2, trend_loop entries_df api_key trend_keywords w
             = (Ok (map (fun kw => mkTrend kw (Charts.chart_of entries_df kw) (strip r))
                        trend_keywords), w2)
             /\ advanced (List.length trend_keywords) w w2.
Proof.
  intros Ha Hr Hk Hdf. revert w Ha.
  induction trend_keywords as [|kw kws IH]; intros w Ha.
  - exists w. split; [reflexivity | repeat split].
  - cbn [trend_loop map List.length]. unfold bind at 1.
    destruct (trend_section_reply entries_df w r api_key kw Ha Hr Hk Hdf) as (w2 & -> & H2).
    unfold bind at 1.
    destruct (IH w2 (advanced_answers _ _ _ _ Ha H2)) as (w3 & -> & H3).
    exists w3. split; [reflexivity|].
    replace (S (List.length kws)) with (List.length kws + 1) by lia.
    eapply advanced_trans; eassumption.
Qed.

(** The narrative when every reply is the text [r] and is not JSON. *)
Definition narrative_of_text (entries_df : list Entry) (trend_keywords : list string)
    (r : string) : Narrative :=
  mkNarrative (strip r) (strip r)
    (_raw_to_bullet_list (strip r)) (_raw_to_bullet_list (strip r))
    (map (fun kw => mkTrend kw (Charts.chart_of entries_df kw) (strip r)) trend_keywords).

Lemma report_with_text entries_df trend_keywords api_key date_from date_to w r :
  key_absent api_key = false -> answers w (JStr r) -> r <> "" ->
  _overall_sample entries_df _OVERALL_SAMPLE_CHARS <> "" ->
  truthy (_extract_json_from_reply (strip r)) = false ->
  exists w',
    build_report entries_df trend_keywords api_key date_from date_to w
    = (Ok (report_path (clock w)), w')
    /\ files w' = (report_path (clock w),
                   document (clock w) date_from date_to (List.length entries_df)
                     (narrative_of_text entries_df trend_keywords r)) :: files w
    /\ List.length (sent w') = 4 + List.length trend_keywords + List.length (sent w).
Proof.
  intros Hk Ha Hr Hs Hp.
  assert (Hdf : entries_df <> []) by (intros ->; apply Hs; reflexivity).
  start_run E out w1.
  assert (Ha1 : answers w1 (JStr r)) by (intros hist rq; apply Ha).
  assert (Hc1 : clock w1 = clock w) by reflexivity.
  assert (Hf1 : files w1 = files w) by reflexivity.
  assert (Hs1 : sent w1 = sent w) by reflexivity.
  clearbody w1.
  unfold bind at 1 in E.
  match type of E with
  | context [overall_summary ?k ?t ?p w1] =>
      destruct (overall_summary_reply w1 r k t p Ha1 Hr Hk Hs) as (w2 & E1 & A2);
      rewrite E1 in E
  end.
  pose proof (advanced_answers _ _ _ _ Ha1 A2) as Ha2.
  unfold bind at 1 in E.
  match type of E with
  | context [overall_summary ?k ?t ?p w2] =>
      destruct (overall_summary_reply w2 r k t p Ha2 Hr Hk Hs) as (w3 & E2 & A3);
      rewrite E2 in E
  end.
  pose proof (advanced_answers _ _ _ _ Ha2 A3) as Ha3.
  rewrite Hk in E. cbn [negb andb] in E.
  destruct (_build_grouped_excerpts entries_df ColMonth _EXCERPT_CHARS_PER_GROUP) eqn:Eg;
    [exfalso; exact (groups_nonempty _ _ _ Hdf Eg)|].
  cbn [negb] in E. unfold bind at 1 in E. unfold bind at 1 in E.
  match type of E with
  | context [observations ?p ?k ?l w3] =>
      destruct (observations_raw w3 r k p l Ha3 Hr Hk Hp) as (w4 & E3 & A4);
      rewrite E3 in E
  end.
  pose proof (advanced_answers _ _ _ _ Ha3 A4) as Ha4.
  unfold bind at 1 in E.
  match type of E with
  | context [observations ?p ?k ?l w4] =>
      destruct (observations_raw w4 r k p l Ha4 Hr Hk Hp) as (w5 & E4 & A5);
      rewrite E4 in E
  end.
  pose proof (advanced_answers _ _ _ _ Ha4 A5) as Ha5.
  unfold ret at 1 in E. unfold bind at 1 in E.
  destruct (trend_loop_reply entries_df w5 r api_key trend_keywords Ha5 Hr Hk Hdf)
    as (w6 & E5 & A6).
  rewrite E5 in E. cbn [fst snd] in E.
  unfold bind, write_file, ret in E.
  pose proof (advanced_trans _ _ _ _ _ A2 A3) as A13.
  pose proof (advanced_trans _ _ _ _ _ A13 A4) as A14.
  pose proof (advanced_trans _ _ _ _ _ A14 A5) as A15.
  pose proof (advanced_trans _ _ _ _ _ A15 A6) as (Hc & _ & _ & Hf & Hn).
  eexists. split; [exact E|]. cbn [files sent].
  rewrite Hf, Hf1, Hn, Hs1. split; [reflexivity | lia].
Qed.

End WithLibs.

End ReplyLaws.

(** X13. With a credential, [ollama_chat] sends exactly one request, the
    chat request for the prompt, whatever comes back; and when the response
    has a status outside 400..599 and a JSON object whose "message" is an
    object with a "content", it returns that content, of whatever JSON
    type it is. *)
Theorem ollama_chat_returns_content (prompt : string) (api_key : option string)
    (w : world) :
  key_absent api_key = false ->
  sent (snd (ollama_chat prompt api_key w)) = chat_request prompt api_key :: sent w
  /\ (forall status kv m c,
        remote w (sent w) (chat_request prompt api_key)
        = Response status (Some (JDict kv)) ->
        status < 400 \/ 600 <= status ->
        assoc "message" kv = Some (JDict m) ->
        assoc "content" m = Some c ->
        fst (ollama_chat prompt api_key w) = Ok c).
Proof.
  intros Hk. rewrite (ChatFacts.ollama_chat_present _ _ _ Hk). cbn [fst snd].
  split; [reflexivity|].
  intros status kv m c Hr Hs Hm Hc. rewrite Hr. unfold ChatFacts.content_of.
  replace ((400 <=? status) && (status <? 600))%nat with false.
  - rewrite Hm, Hc. reflexivity.
  - symmetry. apply andb_false_iff. rewrite Nat.leb_gt, Nat.ltb_ge. lia.
Qed.

Lemma ollama_chat_returns_content_witness :
  key_absent (Some "key") = false
  /\ List.length (sent (snd (ollama_chat "Summarize." (Some "key") redirected_world))) = 1
  /\ fst (ollama_chat "Summarize." (Some "key") redirected_world) = Ok (JStr "moved").
Proof.
  destruct (ollama_chat_returns_content "Summarize." (Some "key") redirected_world eq_refl)
    as [Hs Hc].
  split; [reflexivity|]. split; [rewrite Hs; reflexivity|].
  apply (Hc 302 [("message", JDict [("content", JStr "moved")])]
            [("content", JStr "moved")] (JStr "moved"));
    [reflexivity | left; lia | reflexivity | reflexivity].
Defined.

(** X14. A reply that is not text stops the report.  When the frame is not
    empty, a credential is given, and the service answers with a content
    that is true as a condition and is not a string (a number, a list, an
    object), [build_report] raises [AttributeError], at the first reply that
    it strips, and writes no file. *)
Theorem report_fails_on_non_text_reply `{PyLibs} (entries_df : list Entry)
    (trend_keywords : list string) (api_key : option string)
    (date_from date_to : Date) (w : world) (content : json) :
  entries_df <> [] -> key_absent api_key = false ->
  answers w content -> truthy content = true -> (forall s, content <> JStr s) ->
  let out := build_report entries_df trend_keywords api_key date_from date_to w in
  fst out = Raise AttributeError /\ files (snd out) = files w.
Proof.
  intros Hdf Hk Ha Ht Hc. cbv zeta.
  pose proof (ReplyLaws.report_raises_non_text entries_df trend_keywords api_key
                date_from date_to w content Hdf Hk Ha Ht Hc) as Hraise.
  split; [exact Hraise|].
  destruct (RunLaws.build_report_run entries_df trend_keywords api_key date_from date_to w)
    as (_ & _ & _ & _ & Hres).
  cbv zeta in Hres. rewrite Hraise in Hres. exact Hres.
Qed.

Lemma report_fails_on_non_text_reply_witness :
  fst (@build_report JsonLite.libs sample_entries ["OCD"] (Some "key")
         (mkDate 2024 1 1) (mkDate 2024 12 31) (answering_world (JNum 7)))
  = Raise AttributeError
  /\ files (snd (@build_report JsonLite.libs sample_entries ["OCD"] (Some "key")
                   (mkDate 2024 1 1) (mkDate 2024 12 31) (answering_world (JNum 7))))
     = [].
Proof.
  apply (@report_fails_on_non_text_reply JsonLite.libs sample_entries ["OCD"] (Some "key")
           (mkDate 2024 1 1) (mkDate 2024 12 31) (answering_world (JNum 7)) (JNum 7)).
  - discriminate.
  - reflexivity.
  - intros hist rq. reflexivity.
  - reflexivity.
  - discriminate.
Defined.

(** X15. A reply whose JSON is not an object stops the report.  When the
    frame is not empty, a credential is given, and the service answers with
    a text from which the extractor reads a JSON value that is true as a
    condition and is not an object (a non-empty list, a number), the
    observations cannot be rendered: [build_report] raises [AttributeError]
    and writes no file. *)
Theorem report_fails_on_non_object_json `{PyLibs} (entries_df : list Entry)
    (trend_keywords : list string) (api_key : option string)
    (date_from date_to : Date) (w : world) (reply : string) :
  entries_df <> [] -> key_absent api_key = false ->
  answers w (JStr reply) -> reply <> "" ->
  truthy (_extract_json_from_reply (strip reply)) = true ->
  is_dict (_extract_json_from_reply (strip reply)) = false ->
  let out := build_report entries_df trend_keywords api_key date_from date_to w in
  fst out = Raise AttributeError /\ files (snd out) = files w.
Proof.
  intros Hdf Hk Ha Hr Ht Hd. cbv zeta.
  pose proof (ReplyLaws.report_raises_non_object entries_df trend_keywords api_key
                date_from date_to w reply Hdf Hk Ha Hr Ht Hd) as Hraise.
  split; [exact Hraise|].
  destruct (RunLaws.build_report_run entries_df trend_keywords api_key date_from date_to w)
    as (_ & _ & _ & _ & Hres).
  cbv zeta in Hres. rewrite Hraise in Hres. exact Hres.
Qed.

Lemma report_fails_on_non_object_json_witness :
  fst (@build_report JsonLite.libs sample_entries [] (Some "key")
         (mkDate 2024 1 1) (mkDate 2024 12 31) (answering_world (JStr "[1, 2]")))
  = Raise AttributeError
  /\ files (snd (@build_report JsonLite.libs sample_entries [] (Some "key")
                   (mkDate 2024 1 1) (mkDate 2024 12 31) (answering_world (JStr "[1, 2]"))))
     = [].
Proof.
  apply (@report_fails_on_non_object_json JsonLite.libs sample_entries [] (Some "key")
           (mkDate 2024 1 1) (mkDate 2024 12 31) (answering_world (JStr "[1, 2]")) "[1, 2]").
  - discriminate.
  - reflexivity.
  - intros hist rq. reflexivity.
  - discriminate.
  - vm_compute. reflexivity.
  - vm_compute. reflexivity.
Defined.

(** ** The entries client *)

Module FetchLaws.
Import PyStr Py Fetch.

Lemma rstrip_char_decomp c s :
  exists tail, s = rstrip_char c s ++ tail
               /\ Spec.all_chars (fun d => (d =? c)%char) tail = true
               /\ (rstrip_char c s = ""
                   \/ exists r d, rstrip_char c s = r ++ String d "" /\ d <> c).
Proof.
  induction s as [|d s (tail & E & Ht & Hs)]; [exists ""; auto|].
  cbn [rstrip_char]. destruct (rstrip_char c s) as [|e r] eqn:Er.
  - cbn [append] in E. destruct (d =? c)%char eqn:Ed.
    + exists (String d tail). cbn [append Spec.all_chars]. rewrite Ed, Ht, <- E. auto.
    + exists tail. cbn [append]. subst s. split; [reflexivity|]. split; [exact Ht|].
      right. exists "", d. split; [reflexivity|]. apply Ascii.eqb_neq. exact Ed.
  - exists tail. cbn [append] in *. rewrite <- E. split; [reflexivity|]. split; [exact Ht|].
    right. destruct Hs as [Hs|(r' & x & Hr' & Hx)]; [discriminate|].
    exists (String d r'), x. cbn [append]. rewrite Hr'. auto.
Qed.

Lemma rstrip_char_snoc c s :
  rstrip_char c (s ++ String c "") = rstrip_char c s.
Proof.
  induction s as [|d s IH]; cbn [append rstrip_char].
  - rewrite Ascii.eqb_refl. reflexivity.
  - rewrite IH. reflexivity.
Qed.

End FetchLaws.

Import Fetch.

(** X16. [fetch_entries] gives nothing exactly when the answer is not a
    response of status 200 whose body is a JSON list: no response, another
    status, a body that is not JSON, JSON that is not a list.  An empty
    list gives the empty frame with the four columns, not nothing, so a
    failed load and a journal without entries are told apart.  It raises
    only when building the frame from a non-empty list raises. *)
Theorem fetch_entries_cases (Frame : Type) (empty_frame : list string -> Frame)
    (frame_of_records : list json -> result Frame) (env : environ)
    (requests_get : string -> nat -> http_outcome) (base_url : option string) :
  let answer := requests_get (entries_url env base_url) 10 in
  let out := fetch_entries Frame empty_frame frame_of_records env requests_get base_url in
  (out = Ok None <-> ~ exists records, answer = Response 200 (Some (JList records)))
  /\ (answer = Response 200 (Some (JList [])) ->
      out = Ok (Some (empty_frame ["date"; "day_of_week"; "time_of_day"; "text"])))
  /\ (forall e, out = Raise e ->
        exists records, records <> []
                        /\ answer = Response 200 (Some (JList records))
                        /\ frame_of_records records = Raise e).
Proof.
  cbv zeta. unfold fetch_entries.
  destruct (requests_get (entries_url env base_url) 10) as [|status body].
  { split; [|split]; [|discriminate|discriminate].
    split; [intros _ (r & Hr); discriminate | reflexivity]. }
  destruct (status =? 200)%nat eqn:Es; cbn [negb].
  2:{ apply Nat.eqb_neq in Es. split; [|split].
      - split; [intros _ (r & Hr); congruence | reflexivity].
      - intros [= -> _]. congruence.
      - discriminate. }
  apply Nat.eqb_eq in Es. subst status.
  destruct body as [data|].
  2:{ split; [|split]; [|discriminate|discriminate].
      split; [intros _ (r & Hr); discriminate | reflexivity]. }
  destruct data as [ | b | n | s | l | kv ];
    try (split; [|split]; [|discriminate|discriminate];
         split; [intros _ (r & Hr); discriminate | reflexivity]).
  destruct l as [|x l].
  - split; [|split]; [|reflexivity|discriminate].
    split; [discriminate | intros Hn; exfalso; apply Hn; eexists; reflexivity].
  - split; [|split]; [|discriminate|].
    + split.
      * destruct (frame_of_records (x :: l)); discriminate.
      * intros Hn. exfalso. apply Hn. eexists. reflexivity.
    + intros e He. exists (x :: l). split; [discriminate|]. split; [reflexivity|].
      destruct (frame_of_records (x :: l)); [discriminate | congruence].
Qed.

(** X17. The address that [fetch_entries] asks is the base address without
    its trailing slashes, followed by [/entries]: a base written with or
    without a final slash gives the same address.  The base is the
    argument when it is given and not empty, else the value of
    [JOURNAL_API_URL], else the default. *)
Theorem entries_url_without_trailing_slashes (env : environ) :
  (forall base, base <> "" ->
      entries_url env (Some (base ++ "/")) = entries_url env (Some base))
  /\ (forall base, base <> "" ->
        exists b slashes,
          base = b ++ slashes
          /\ Spec.all_chars (fun c => (c =? "/")%char) slashes = true
          /\ (b = "" \/ exists r c, b = r ++ String c "" /\ c <> "/"%char)
          /\ entries_url env (Some base) = b ++ "/entries")
  /\ entries_url env None = entries_url env (Some (get_api_base env))
  /\ entries_url env (Some "") = entries_url env None
  /\ (forall u, environ_get env "JOURNAL_API_URL" = Some u -> get_api_base env = u)
  /\ (environ_get env "JOURNAL_API_URL" = None -> get_api_base env = "http://127.0.0.1:8000").
Proof.
  split; [|split; [|split; [|split; [|split]]]].
  - intros base Hb. unfold entries_url.
    destruct base as [|c base]; [congruence|]. cbn [append].
    change (String c (base ++ "/")) with (String c base ++ "/").
    rewrite FetchLaws.rstrip_char_snoc. reflexivity.
  - intros base Hb. unfold entries_url.
    destruct base as [|c base]; [congruence|].
    destruct (FetchLaws.rstrip_char_decomp "/" (String c base)) as (tail & E & Ht & Hs).
    exists (rstrip_char "/" (String c base)), tail. auto.
  - unfold entries_url. destruct (get_api_base env) eqn:E; rewrite ?E; reflexivity.
  - reflexivity.
  - intros u Hu. unfold get_api_base. rewrite Hu. reflexivity.
  - intros Hn. unfold get_api_base. rewrite Hn. reflexivity.
Qed.

(** ** The report button *)

Module AppLaws.
Import PyStr Py Utils ReportBuilder Report Notions.

Section WithLibs.
Context `{PyLibs}.

Lemma generate_report_empty env entries_data analysis_date_range trend_keywords w :
  analysis_window entries_data analysis_date_range = [] ->
  exists msg,
    App._generate_report env entries_data analysis_date_range trend_keywords w
    = (App.State None (Some msg) false, w).
Proof.
  unfold analysis_window, App._generate_report. intros Hw.
  destruct entries_data as [[|e rows]|]; [eexists; reflexivity | | eexists; reflexivity].
  destruct analysis_date_range as [|date_from [|date_to rest]];
    [eexists; reflexivity | eexists; reflexivity |].
  rewrite Hw. eexists. reflexivity.
Qed.

Lemma generate_report_built env entries_data analysis_date_range trend_keywords w :
  analysis_window entries_data analysis_date_range <> [] ->
  exists date_from date_to rest,
    analysis_date_range = date_from :: date_to :: rest
    /\ App._generate_report env entries_data analysis_date_range trend_keywords w
       = match build_report (analysis_window entries_data analysis_date_range)
                 (keyword_parts trend_keywords)
                 (environ_get env "OLLAMA_API_KEY") date_from date_to w with
         | (Ok path, w') => (App.State (Some path) None false, w')
         | (Raise _, w') =>
             (App.State None
                (Some "Report generation failed. Check that the API is running and OLLAMA_API_KEY is set in .env.")
                false, w')
         end.
Proof.
  unfold analysis_window, App._generate_report. intros Hw.
  destruct entries_data as [[|e rows]|];
    [destruct analysis_date_range as [|? [|? ?]]; exfalso; apply Hw; reflexivity
    | | congruence].
  destruct analysis_date_range as [|date_from [|date_to rest]]; [congruence | congruence |].
  exists date_from, date_to, rest. split; [reflexivity|].
  destruct (filter_entries_by_date_only (Some (e :: rows)) (Some date_from) (Some date_to))
    as [|x l] eqn:Ef; [congruence|].
  destruct (build_report (x :: l) _ _ _ _ w) as [[path|err] w']; reflexivity.
Qed.

End WithLibs.

End AppLaws.

(** X18. When the effect behind the report button ends, the button is free
    again, and exactly one of the report path and the error message is
    set.  A path is set only when a report file has just been written at
    that path: the document for the entries of the chosen date range, with
    their number, and for the trend phrases of the comma-separated input.
    When no path is set, no file has been written. *)
Theorem generate_report_outcome `{PyLibs} (env : environ)
    (entries_data : option (list Entry)) (analysis_date_range : list Date)
    (trend_keywords : string) (w : world) :
  let out := App._generate_report env entries_data analysis_date_range trend_keywords w in
  let subset := analysis_window entries_data analysis_date_range in
  App.generating (fst out) = false
  /\ (App.report_path (fst out) = None <-> App.report_error (fst out) <> None)
  /\ (forall path, App.report_path (fst out) = Some path ->
        path = report_path (clock w)
        /\ exists date_from date_to rest t,
             analysis_date_range = date_from :: date_to :: rest
             /\ files (snd out)
                = (path, document (clock w) date_from date_to (List.length subset) t)
                  :: files w
             /\ map keyword (trend_sections t) = keyword_parts trend_keywords)
  /\ (App.report_path (fst out) = None -> files (snd out) = files w).
Proof.
  cbv zeta.
  destruct (analysis_window entries_data analysis_date_range) as [|x l] eqn:Ew.
  - destruct (AppLaws.generate_report_empty env entries_data analysis_date_range
                trend_keywords w Ew) as [msg ->].
    cbn [fst snd App.generating App.report_path App.report_error].
    split; [reflexivity|]. split; [split; [discriminate | reflexivity]|].
    split; [discriminate | reflexivity].
  - destruct (AppLaws.generate_report_built env entries_data analysis_date_range
                trend_keywords w) as (date_from & date_to & rest & Edr & ->);
      [rewrite Ew; discriminate|].
    rewrite Ew.
    pose proof (RunLaws.build_report_run (x :: l) (keyword_parts trend_keywords)
                  (environ_get env "OLLAMA_API_KEY") date_from date_to w) as Hrun.
    cbv zeta in Hrun. destruct Hrun as (_ & _ & _ & _ & Hres).
    destruct (build_report (x :: l) _ _ _ _ w) as [[path|err] w'];
      cbn [fst snd App.generating App.report_path App.report_error] in *.
    + split; [reflexivity|]. split; [split; [discriminate | congruence]|].
      split; [|discriminate].
      intros p [= <-]. destruct Hres as (-> & doc & (t & -> & Hk & _) & Hf).
      split; [reflexivity|]. exists date_from, date_to, rest, t. auto.
    + split; [reflexivity|]. split; [split; [discriminate | reflexivity]|].
      split; [discriminate | intros _; exact Hres].
Qed.

(** X19. Without entries to analyse nothing is asked and nothing is
    written: when no entries were loaded, the frame is empty, the range has
    fewer than two dates, or no entry is dated within the range, the effect
    only sets an error message; it sends no request, creates no directory
    and writes no file. *)
Theorem generate_report_needs_entries `{PyLibs} (env : environ)
    (entries_data : option (list Entry)) (analysis_date_range : list Date)
    (trend_keywords : string) (w : world) :
  analysis_window entries_data analysis_date_range = [] ->
  let out := App._generate_report env entries_data analysis_date_range trend_keywords w in
  snd out = w
  /\ App.report_path (fst out) = None
  /\ App.report_error (fst out) <> None
  /\ App.generating (fst out) = false.
Proof.
  intros Hw. cbv zeta.
  destruct (AppLaws.generate_report_empty env entries_data analysis_date_range
              trend_keywords w Hw) as [msg ->].
  cbn. split; [reflexivity|]. split; [reflexivity|]. split; [discriminate | reflexivity].
Qed.

Lemma generate_report_needs_entries_witness :
  analysis_window (Some sample_entries) [mkDate 2025 1 1; mkDate 2025 12 31] = []
  /\ snd (@App._generate_report JsonLite.libs [("OLLAMA_API_KEY", "key")]
            (Some sample_entries) [mkDate 2025 1 1; mkDate 2025 12 31] "OCD"
            (answering_world (JStr "fine")))
     = answering_world (JStr "fine")
  /\ App.report_path
       (fst (@App._generate_report JsonLite.libs [("OLLAMA_API_KEY", "key")]
               (Some sample_entries) [mkDate 2025 1 1; mkDate 2025 12 31] "OCD"
               (answering_world (JStr "fine"))))
     = None.
Proof.
  split; [reflexivity|].
  destruct (@generate_report_needs_entries JsonLite.libs [("OLLAMA_API_KEY", "key")]
              (Some sample_entries) [mkDate 2025 1 1; mkDate 2025 12 31] "OCD"
              (answering_world (JStr "fine")) eq_refl) as (Hs & Hp & _).
  split; [exact Hs | exact Hp].
Defined.

(** ** Blocks of the document and the served report *)

Module BlockLaws.
Import PyStr Py Utils ReportBuilder Report StrFacts Notions.

Lemma strip_keeps_tag r : exists r', strip (String "<" r) = String "<" r'.
Proof.
  unfold strip. change (lstrip (String "<" r)) with (String "<" r).
  cbn [rstrip]. destruct (rstrip r); eexists; reflexivity.
Qed.

Lemma wrap_p_tag r : wrap_p (String "<" r) = String "<" r.
Proof.
  unfold wrap_p, startswith. destruct (strip_keeps_tag r) as [r' ->].
  replace (prefix "<" (String "<" r')) with true; [reflexivity|].
  symmetry. apply prefix_iff. exists r'. reflexivity.
Qed.

Lemma wrap_p_bullet_list raw : wrap_p (_raw_to_bullet_list raw) = _raw_to_bullet_list raw.
Proof.
  unfold _raw_to_bullet_list. destruct (map strip _) as [|ln lns].
  - destruct (raw =? ""); apply wrap_p_tag.
  - apply wrap_p_tag.
Qed.

Lemma digit_not_slash n : negb (digit n =? "/")%char = true.
Proof.
  apply negb_true_iff, Ascii.eqb_neq. intros E.
  apply (f_equal nat_of_ascii) in E. rewrite PhraseFacts.digit_code in E.
  cbn in E. lia.
Qed.

Definition not_slash (c : ascii) : bool := negb (c =? "/")%char.

Lemma pad2_no_slash n : Spec.all_chars not_slash (pad2 n) = true.
Proof.
  unfold pad2. cbn [Spec.all_chars]. unfold not_slash.
  rewrite !digit_not_slash. reflexivity.
Qed.

Lemma pad4_no_slash n : Spec.all_chars not_slash (pad4 n) = true.
Proof.
  unfold pad4. cbn [Spec.all_chars]. unfold not_slash.
  rewrite !digit_not_slash. reflexivity.
Qed.

Lemma report_filename_no_slash now :
  Spec.all_chars not_slash (report_filename now) = true.
Proof.
  unfold report_filename, strftime_stamp.
  rewrite !all_chars_app, !pad2_no_slash, pad4_no_slash. reflexivity.
Qed.

Lemma split_char_whole sep s :
  Spec.all_chars (fun c => negb (c =? sep)%char) s = true -> split_char sep s = [s].
Proof.
  induction s as [|c s IH]; [reflexivity|]. cbn [Spec.all_chars split_char].
  intros H. apply andb_true_iff in H as [Hc Hs].
  apply negb_true_iff in Hc. rewrite Hc, (IH Hs). reflexivity.
Qed.

Lemma joinpath_report_filename reports now :
  Api.joinpath reports (report_filename now) = (reports ++ [report_filename now])%list.
Proof.
  unfold Api.joinpath, Api.components.
  rewrite (split_char_whole "/" _ (report_filename_no_slash now)).
  unfold report_filename. cbn [append]. reflexivity.
Qed.

End BlockLaws.

(** X20. An observations block that is markup goes into the document as it
    is: the bullet list made of a raw reply and the tables made of a parsed
    reply always begin with a tag, so they are not put inside a paragraph;
    the placeholder text, which does not, is. *)
Theorem observation_blocks_are_not_wrapped `{PyLibs} :
  (forall raw, wrap_p (_raw_to_bullet_list raw) = _raw_to_bullet_list raw)
  /\ (forall parsed month_labels dows tods html,
        _observations_to_html_tables parsed month_labels dows tods = Ok html ->
        wrap_p html = html)
  /\ wrap_p placeholder = "<p>" ++ placeholder ++ "</p>".
Proof.
  split; [|split].
  - apply BlockLaws.wrap_p_bullet_list.
  - intros parsed month_labels dows tods html. unfold _observations_to_html_tables.
    destruct (table_for parsed "by_month" "month" month_labels); [|discriminate].
    destruct (table_for parsed "by_day_of_week" "day" dows); [|discriminate].
    destruct (table_for parsed "by_time_of_day" "time" tods); [|discriminate].
    intros [= <-]. apply BlockLaws.wrap_p_tag.
  - vm_compute. reflexivity.
Qed.

(** X21. The report endpoint serves what [build_report] writes: the file
    name that [build_report] makes from the clock has no slash and is
    neither empty nor a dot, so under the reports directory it names the
    path of that directory followed by the name; when that path resolves to
    itself and is a file, the endpoint answers with the file's content as
    HTML. *)
Theorem built_report_is_served (fs : Api.filesystem) (reports : Api.path)
    (now : datetime) (content : string) :
  Api.resolve fs (reports ++ [report_filename now])%list
  = (reports ++ [report_filename now])%list ->
  Api.regular_file fs (reports ++ [report_filename now])%list = Some content ->
  Api.joinpath reports (report_filename now) = (reports ++ [report_filename now])%list
  /\ Api.get_report fs reports (report_filename now)
     = Api.FileResponse (reports ++ [report_filename now])%list content "text/html".
Proof.
  intros Hres Hfile. split; [apply BlockLaws.joinpath_report_filename|].
  rewrite ApiFacts.get_report_cases. cbv zeta.
  rewrite BlockLaws.joinpath_report_filename, Hres, Hfile.
  replace (Api.is_relative_to (reports ++ [report_filename now])%list reports) with true;
    [reflexivity|].
  symmetry. apply ApiFacts.is_relative_to_iff. eexists. reflexivity.
Qed.

Lemma built_report_is_served_witness :
  report_filename (DateTime 2024 3 1 10 20 30) = "journal_report_20240301_102030.html"
  /\ Api.get_report sample_fs ["app"; "reports"] "journal_report_20240301_102030.html"
     = Api.FileResponse ["app"; "reports"; "journal_report_20240301_102030.html"]
         "<!DOCTYPE html>" "text/html".
Proof.
  split; [reflexivity|].
  exact (proj2 (built_report_is_served sample_fs ["app"; "reports"]
                  (DateTime 2024 3 1 10 20 30) "<!DOCTYPE html>" eq_refl eq_refl)).
Defined.

(** X22. With a credential and a service that answers every request with
    the same text, which is not empty and from which no JSON can be read,
    the report of a frame with some text that is not blank is written: the
    builder sends four requests and one for each trend phrase, and the
    document shows the stripped reply as the overall activity, as the
    overall emotion and as the summary of every trend phrase, and the
    bullet list of the reply as both observation blocks. *)
Theorem report_shows_text_replies `{PyLibs} (entries_df : list Entry)
    (trend_keywords : list string) (api_key : option string)
    (date_from date_to : Date) (w : world) (reply : string) :
  key_absent api_key = false ->
  answers w (JStr reply) -> reply <> "" ->
  Exists (fun e => strip (text e) <> "") entries_df ->
  truthy (_extract_json_from_reply (strip reply)) = false ->
  let out := build_report entries_df trend_keywords api_key date_from date_to w in
  let summary_text := strip reply in
  let bullets := _raw_to_bullet_list (strip reply) in
  exists doc,
    fst out = Ok (report_path (clock w))
    /\ files (snd out) = (report_path (clock w), doc) :: files w
    /\ List.length (sent (snd out))
       = 4 + List.length trend_keywords + List.length (sent w)
    /\ contains ("<h2>Overall activity</h2>" ++ nl ++ "<p>" ++ summary_text ++ "</p>") doc
       = true
    /\ contains ("<h2>Overall emotion</h2>" ++ nl ++ "<p>" ++ summary_text ++ "</p>") doc
       = true
    /\ contains ("<h3>Activity</h3>" ++ nl ++ bullets) doc = true
    /\ contains ("<h3>Emotion</h3>" ++ nl ++ bullets) doc = true
    /\ (forall kw, In kw trend_keywords ->
          contains (join nl ["<h3>" ++ dq ++ kw ++ dq ++ "</h3>";
                             chart_of entries_df kw;
                             "<p>" ++ summary_text ++ "</p>"]) doc = true).
Proof.
  intros Hk Ha Hr Hex Hp. cbv zeta.
  pose proof (SampleLaws.overall_sample_nonempty entries_df _OVERALL_SAMPLE_CHARS Hex) as Hs.
  destruct (ReplyLaws.report_with_text entries_df trend_keywords api_key date_from date_to
              w reply Hk Ha Hr Hs Hp) as (w' & -> & Hf & Hn).
  cbn [fst snd]. eexists. split; [reflexivity|]. split; [exact Hf|]. split; [exact Hn|].
  set (t := ReplyLaws.narrative_of_text entries_df trend_keywords reply).
  split.
  { apply (ReportFacts.document_shows
             ["<h2>Overall activity</h2>"; "<p>" ++ activity_summary t ++ "</p>"]);
      [discriminate | apply ReportFacts.body_overall_activity]. }
  split.
  { apply (ReportFacts.document_shows
             ["<h2>Overall emotion</h2>"; "<p>" ++ emotion_summary t ++ "</p>"]);
      [discriminate | apply ReportFacts.body_overall_emotion]. }
  split.
  { rewrite <- (BlockLaws.wrap_p_bullet_list (strip reply)).
    apply (ReportFacts.document_shows ["<h3>Activity</h3>"; wrap_p (obs_activity t)]);
      [discriminate | apply ReportFacts.body_obs_activity]. }
  split.
  { rewrite <- (BlockLaws.wrap_p_bullet_list (strip reply)).
    apply (ReportFacts.document_shows ["<h3>Emotion</h3>"; wrap_p (obs_emotion t)]);
      [discriminate | apply ReportFacts.body_obs_emotion]. }
  intros kw Hkw.
  apply (ReportFacts.document_shows
           (ReportFacts.trend_block (mkTrend kw (chart_of entries_df kw) (strip reply))));
    [discriminate|].
  apply ReportFacts.body_trend. unfold t, ReplyLaws.narrative_of_text. cbn [trend_sections].
  apply in_map_iff. exists kw. split; [reflexivity | exact Hkw].
Qed.

Lemma report_shows_text_replies_witness :
  fst (@build_report JsonLite.libs sample_entries ["OCD"] (Some "key")
         (mkDate 2024 1 1) (mkDate 2024 12 31) (answering_world (JStr "All is well.")))
  = Ok "/app/reports/journal_report_20240301_102030.html"
  /\ List.length
       (sent (snd (@build_report JsonLite.libs sample_entries ["OCD"] (Some "key")
                     (mkDate 2024 1 1) (mkDate 2024 12 31)
                     (answering_world (JStr "All is well.")))))
     = 5.
Proof.
  destruct (@report_shows_text_replies JsonLite.libs sample_entries ["OCD"] (Some "key")
              (mkDate 2024 1 1) (mkDate 2024 12 31) (answering_world (JStr "All is well."))
              "All is well.")
    as (doc & Hp & _ & Hn & _).
  - reflexivity.
  - intros hist rq. reflexivity.
  - discriminate.
  - apply Exists_cons_hd. vm_compute. discriminate.
  - vm_compute. reflexivity.
  - split; [exact Hp | exact Hn].
Defined.
